(** * Weekly meal planner: selection without repeats and calorie scaling

    A shallow embedding of [agents/meal_planner_agent.py]
    ([MealPlannerSpecialist]) and of the generator of [main_agent.py]
    ([SimpleMealGenerator]).

    Conventions of the embedding.
    - A recipe is a Python [dict]; it lives in a store and the pools, the
      daily plans and the catalog hold references to it (locations), so that
      a write through one reference is seen through every other one.
    - Nutrient values and quantities are integers, as in the catalog of the
      repository.  Where a [float] decides an integer or a test (the
      calorie scaling, [int(x)], the protein target), the arithmetic is
      binary64: every operation rounds to the nearest number with a 53-bit
      significand and overflows beyond [2^1024] ([Binary64]).  The scores,
      which are only reported, are read as the exact rationals ([Q]) that
      binary64 approximates.
    - A string is a sequence of code points below 256 (ASCII and Latin-1);
      [str.lower] and the escapes of [json.dumps] are those of Python on
      these code points.
    - [random.choice] draws its index from an arbitrary stream [rng]. *)

From Stdlib Require Import ZArith QArith Qabs Qminmax Qpower String Ascii List Lia Lqa.
From stdpp Require Import gmap strings list pretty.

Local Open Scope string_scope.
Local Open Scope Z_scope.

(** ** Python strings *)

Module PyStr.

Definition is_upper (c : ascii) : bool :=
  let n := nat_of_ascii c in (65 <=? n)%nat && (n <=? 90)%nat.

Definition is_lower (c : ascii) : bool :=
  let n := nat_of_ascii c in (97 <=? n)%nat && (n <=? 122)%nat.

(** The capital letters of Latin-1: [U+00C0] to [U+00DE] without the
    multiplication sign [U+00D7]. *)
Definition is_latin1_upper (c : ascii) : bool :=
  let n := nat_of_ascii c in
  (192 <=? n)%nat && (n <=? 222)%nat && negb (n =? 215)%nat.

(** The lower case of a code point below 256: the letter 32 places
    further for [A] to [Z] and for the capital letters of Latin-1, the
    code point itself otherwise. *)
Definition lower_char (c : ascii) : ascii :=
  if is_upper c || is_latin1_upper c then ascii_of_nat (nat_of_ascii c + 32) else c.

Definition ascii_lower_char (c : ascii) : ascii :=
  if is_upper c then ascii_of_nat (nat_of_ascii c + 32) else c.

Definition ascii_upper_char (c : ascii) : ascii :=
  if is_lower c then ascii_of_nat (nat_of_ascii c - 32) else c.

(** [s.lower()] *)
Fixpoint lower (s : string) : string :=
  match s with
  | EmptyString => EmptyString
  | String c s' => String (lower_char c) (lower s')
  end.

(** [s.title()] for an ASCII string (the code titles the keys of the three
    slots only): a letter that follows a non-letter is capitalised, every
    other letter is put in lower case. *)
Fixpoint title_from (after_letter : bool) (s : string) : string :=
  match s with
  | EmptyString => EmptyString
  | String c s' =>
      let letter := is_upper c || is_lower c in
      String (if after_letter then ascii_lower_char c else ascii_upper_char c)
             (title_from letter s')
  end.

Definition title (s : string) : string := title_from false s.

Fixpoint startswith (p s : string) : bool :=
  match p, s with
  | EmptyString, _ => true
  | String a p', String b s' => Ascii.eqb a b && startswith p' s'
  | String _ _, EmptyString => false
  end.

(** [p in s] on strings: [p] occurs in [s] as a contiguous block. *)
Fixpoint contains (p s : string) : bool :=
  startswith p s ||
  match s with
  | EmptyString => false
  | String _ s' => contains p s'
  end.

(** The mathematical reading of [p in s]. *)
Definition occurs_in (p s : string) : Prop :=
  exists pre post : string, s = pre ++ p ++ post.

End PyStr.

(** ** [json.dumps] on an ingredient mapping *)

Module Json.

Definition dquote : string := String (ascii_of_nat 34) EmptyString.

Definition hex_digit (n : nat) : ascii :=
  ascii_of_nat (if (n <? 10)%nat then 48 + n else 87 + n).

(** Escapes of [json.dumps] (with its default [ensure_ascii=True]) for the
    code points of a key: the quote, the backslash and five control
    characters have a short escape; every other code point outside
    [U+0020] to [U+007E] is written with its four hexadecimal digits. *)
Definition escape_char (c : ascii) : string :=
  let n := nat_of_ascii c in
  if (n =? 34)%nat then "\" ++ dquote
  else if (n =? 92)%nat then "\\"
  else if (n =? 10)%nat then "\n"
  else if (n =? 13)%nat then "\r"
  else if (n =? 9)%nat then "\t"
  else if (n =? 8)%nat then "\b"
  else if (n =? 12)%nat then "\f"
  else if (n <? 32)%nat || (126 <? n)%nat then
    "\u00" ++ String (hex_digit (n / 16)) (String (hex_digit (n mod 16)) EmptyString)
  else String c EmptyString.

Fixpoint escape (s : string) : string :=
  match s with
  | EmptyString => EmptyString
  | String c s' => escape_char c ++ escape s'
  end.

Definition quote (s : string) : string := dquote ++ escape s ++ dquote.

Definition item (kv : string * Z) : string :=
  quote kv.1 ++ ": " ++ pretty kv.2.

Fixpoint items (l : list (string * Z)) : string :=
  match l with
  | [] => EmptyString
  | [kv] => item kv
  | kv :: rest => item kv ++ ", " ++ items rest
  end.

(** [json.dumps(d)] for a mapping from ingredient names to quantities. *)
Definition dumps (d : list (string * Z)) : string := "{" ++ items d ++ "}".

End Json.


(** ** Data model *)

Inductive MealSlot := breakfast | lunch | dinner.

#[global] Instance MealSlot_eq_dec : EqDecision MealSlot.
Proof. solve_decision. Defined.

(** The key of a slot in the [recipes] and [meals] dictionaries. *)
Definition slot_key (s : MealSlot) : string :=
  match s with
  | breakfast => "breakfast"
  | lunch => "lunch"
  | dinner => "dinner"
  end.

(** A recipe dictionary.  Every key but ["name"] may be absent; the code
    reads ["name"] with [r["name"]] and the others with [r.get]. *)
Record Recipe := mkRecipe {
  name : string;
  ingredients : option (list (string * Z));
  calories : option Z;
  protein : option Z;
  carbs : option Z;
  fat : option Z;
  prep_time : option Z;
  type : option string
}.

(** The preferences dictionary handed to the planner. *)
Record Preferences := mkPreferences {
  diet_type : option string;
  calorie_target : option Z;
  allergies : option (list string);
  cuisine_preference : option string
}.

(** An entry of [memory/meal_history.json]: the user it belongs to and,
    for every day of the stored plan, the ["name"] of each of its meals
    ([None] when a stored meal has no name). *)
Record HistoryEntry := mkHistoryEntry {
  user_id : option string;
  meal_plan : list (list (option string))
}.

(** References to recipe dictionaries. *)
Abbreviation loc := nat (only parsing).

(** One day of a plan: [meals] maps each slot to a recipe object. *)
Record DayPlan := mkDayPlan {
  meals : list (MealSlot * loc);
  total_calories : Z;
  nutrition_score : Q;
  variety_score : Q
}.

(** A weekly plan: day name to daily plan, in insertion order. *)
Definition WeeklyPlan := list (string * DayPlan).

(** ** Program state and the monad of planner code *)

Inductive exn :=
  | IndexError          (* [random.choice] on an empty sequence *)
  | ZeroDivisionError   (* [x / 0] *)
  | OverflowError       (* a [float] out of range: [float(n)], [a / b], [int(inf)] *)
  | ValueError          (* [int(nan)] *)
  | KeyError            (* [d[k]] for a key that [d] does not have *)
  | DanglingReference.  (* a location outside the store: not a Python error *)

Inductive result (A : Type) :=
  | Ok (a : A)
  | Raise (e : exn).
Arguments Ok {A} a.
Arguments Raise {A} e.

(** Sequencing of two computations that may raise. *)
Definition and_then {A B} (r : result A) (k : A -> result B) : result B :=
  match r with
  | Ok a => k a
  | Raise e => Raise e
  end.

Record State := mkState {
  store : list Recipe;
  used_breakfasts : gset string;
  used_lunches : gset string;
  used_dinners : gset string;
  draws : nat
}.

Definition M (A : Type) : Type := State -> result (A * State).

Definition ret {A} (a : A) : M A := fun st => Ok (a, st).

Definition bind {A B} (m : M A) (k : A -> M B) : M B :=
  fun st =>
    match m st with
    | Ok (a, st') => k a st'
    | Raise e => Raise e
    end.

Definition raise {A} (e : exn) : M A := fun _ => Raise e.

(** A computation that does not touch the state. *)
Definition lift {A} (r : result A) : M A :=
  fun st =>
    match r with
    | Ok a => Ok (a, st)
    | Raise e => Raise e
    end.

Notation "x <- m ;; k" := (bind m (fun x => k))
  (at level 100, m at next level, right associativity).
Notation "m ;;; k" := (bind m (fun _ => k))
  (at level 100, right associativity).

(** Reading the dictionary behind a reference. *)
Definition deref (l : loc) : M Recipe :=
  fun st =>
    match store st !! l with
    | Some r => Ok (r, st)
    | None => Raise DanglingReference
    end.

(** A dictionary display [{...}] creates a new object. *)
Definition alloc (r : Recipe) : M loc :=
  fun st =>
    Ok (length (store st),
        mkState (store st ++ [r]) (used_breakfasts st) (used_lunches st)
                (used_dinners st) (draws st)).

(** Writing the dictionary behind a reference, in place. *)
Definition write (l : loc) (r : Recipe) : M unit :=
  fun st =>
    match store st !! l with
    | Some _ =>
        Ok (tt, mkState (<[l := r]> (store st)) (used_breakfasts st)
                        (used_lunches st) (used_dinners st) (draws st))
    | None => Raise DanglingReference
    end.

(** The used set of a slot. *)
Definition used_of (s : MealSlot) (st : State) : gset string :=
  match s with
  | breakfast => used_breakfasts st
  | lunch => used_lunches st
  | dinner => used_dinners st
  end.

Definition get_used (s : MealSlot) : M (gset string) :=
  fun st => Ok (used_of s st, st).

(** [used_set.add(n)] *)
Definition add_used (s : MealSlot) (n : string) : M unit :=
  fun st =>
    Ok (tt,
        match s with
        | breakfast =>
            mkState (store st) ({[n]} ∪ used_breakfasts st) (used_lunches st)
                    (used_dinners st) (draws st)
        | lunch =>
            mkState (store st) (used_breakfasts st) ({[n]} ∪ used_lunches st)
                    (used_dinners st) (draws st)
        | dinner =>
            mkState (store st) (used_breakfasts st) (used_lunches st)
                    ({[n]} ∪ used_dinners st) (draws st)
        end).

(** The three [set()] of a generation run. *)
Definition fresh_used : M unit :=
  fun st => Ok (tt, mkState (store st) ∅ ∅ ∅ (draws st)).

Fixpoint mapM {A B} (f : A -> M B) (l : list A) : M (list B) :=
  match l with
  | [] => ret []
  | a :: t => b <- f a ;; bs <- mapM f t ;; ret (b :: bs)
  end.

(** [random.choice(l)]: any element of [l]; [IndexError] when [l] is
    empty.  The source of randomness is a stream: [rng k] is the number
    behind the [k]-th call. *)
Definition random_choice (rng : nat -> nat) {A} (l : list A) : M A :=
  fun st =>
    match l !! (rng (draws st) mod length l)%nat with
    | Some x =>
        Ok (x, mkState (store st) (used_breakfasts st) (used_lunches st)
                       (used_dinners st) (S (draws st)))
    | None => Raise IndexError
    end.

(** ** Binary64 floating point

    A finite [float] is the rational number it stands for.  An operation
    returns the number with a 53-bit significand nearest to its exact
    result, the one with the even significand when two are as near, with
    the exponent of the last bit not below -1074; the result is an infinity
    when that number reaches [2^1024].  The sign of a zero is not kept:
    nothing in the code observes it. *)

Module Binary64.

Definition pow2 (e : Z) : Q := (2 ^ e)%Q.

(** [floor (log2 |q|)], for [q] other than 0. *)
Definition ilog2 (q : Q) : Z :=
  let k := Z.log2 (Z.abs (Qnum q)) - Z.log2 (Z.pos (Qden q)) in
  if Qle_bool (pow2 k) (Qabs q) then k else k - 1.

(** The integer nearest to [q], the even one of two that are as near. *)
Definition rne (q : Q) : Z :=
  let k := Qnum q / Z.pos (Qden q) in
  let r := Qnum q mod Z.pos (Qden q) in
  match 2 * r ?= Z.pos (Qden q) with
  | Lt => k
  | Gt => k + 1
  | Eq => if Z.even k then k else k + 1
  end.

(** The exponent of the last bit of the significand of [q]. *)
Definition ulp_exp (q : Q) : Z := Z.max (ilog2 q - 52) (-1074).

(** Rounding to nearest, ties to even, before the test of the range. *)
Definition round (q : Q) : Q :=
  if Qeq_bool q 0 then 0%Q
  else (inject_Z (rne (q / pow2 (ulp_exp q))) * pow2 (ulp_exp q))%Q.

Inductive float :=
  | Finite (q : Q)
  | Infinity (negative : bool)
  | NaN.

(** The [float] an operation returns when its exact result is [q]. *)
Definition rounded (q : Q) : float :=
  let r := round q in
  if Qle_bool (pow2 1024) (Qabs r) then Infinity (Qnum q <? 0) else Finite r.

(** [float(n)], also where an [int] meets a [float] in an operation. *)
Definition of_int (n : Z) : result float :=
  match rounded (inject_Z n) with
  | Finite x => Ok (Finite x)
  | _ => Raise OverflowError
  end.

(** [a / b] on two [int]: the quotient is rounded once. *)
Definition int_true_div (a b : Z) : result float :=
  if b =? 0 then Raise ZeroDivisionError
  else match rounded (inject_Z a / inject_Z b) with
       | Finite x => Ok (Finite x)
       | _ => Raise OverflowError
       end.

(** [x * y] *)
Definition mul (x y : float) : float :=
  match x, y with
  | Finite a, Finite b => rounded (a * b)
  | NaN, _ | _, NaN => NaN
  | Infinity s, Finite b | Finite b, Infinity s =>
      if Qeq_bool b 0 then NaN else Infinity (xorb s (Qnum b <? 0))
  | Infinity s, Infinity t => Infinity (xorb s t)
  end.

(** [x - y] *)
Definition sub (x y : float) : float :=
  match x, y with
  | Finite a, Finite b => rounded (a - b)
  | NaN, _ | _, NaN => NaN
  | Infinity s, Finite _ => Infinity s
  | Finite _, Infinity t => Infinity (negb t)
  | Infinity s, Infinity t => if Bool.eqb s t then NaN else Infinity s
  end.

(** [abs(x)] *)
Definition abs (x : float) : float :=
  match x with
  | Finite a => Finite (Qabs a)
  | Infinity _ => Infinity false
  | NaN => NaN
  end.

(** [x >= y] *)
Definition ge (x y : float) : bool :=
  match x, y with
  | Finite a, Finite b => Qle_bool b a
  | NaN, _ | _, NaN => false
  | Infinity s, Finite _ => negb s
  | Finite _, Infinity t => t
  | Infinity s, Infinity t => negb s || t
  end.

(** [x > y] *)
Definition gt (x y : float) : bool :=
  match x, y with
  | Finite a, Finite b => negb (Qle_bool a b)
  | NaN, _ | _, NaN => false
  | Infinity s, Finite _ => negb s
  | Finite _, Infinity t => t
  | Infinity s, Infinity t => negb s && t
  end.

(** [max(0, x)]: [x] when [x > 0], and the first argument otherwise. *)
Definition max0 (x : float) : float :=
  if gt x (Finite 0) then x else Finite 0.

(** [int(x)]: truncation towards zero. *)
Definition to_int (x : float) : result Z :=
  match x with
  | Finite q => Ok (Z.quot (Qnum q) (Z.pos (Qden q)))
  | Infinity _ => Raise OverflowError
  | NaN => Raise ValueError
  end.

(** [int(n * x)] for an [int] [n] and a [float] [x]. *)
Definition int_of_product (n : Z) (x : float) : result Z :=
  and_then (of_int n) (fun n' => to_int (mul n' x)).

End Binary64.

(** ** [MealPlannerSpecialist] (agents/meal_planner_agent.py) *)

Module MealPlannerSpecialist.

Definition sumZ (l : list Z) : Z := foldr Z.add 0 l.

(** [a / b] on integers (true division). *)
Definition true_div (a b : Z) : M Binary64.float :=
  lift (Binary64.int_true_div a b).

(** The contents of [data/recipes.json], when the file exists: the recipes
    of each slot (a slot without a key has no recipe). *)
Definition RecipeFile := option (MealSlot -> list Recipe).

(** [self.recipe_db["recipes"].get(meal_type, [])] *)
Definition RecipeDb := MealSlot -> list loc.

(** [_load_recipes]: [json.load] builds one object per recipe of the file;
    without the file, the pools are empty. *)
Definition _load_recipes (file : RecipeFile) : M RecipeDb :=
  match file with
  | Some data =>
      b <- mapM alloc (data breakfast) ;;
      l <- mapM alloc (data lunch) ;;
      d <- mapM alloc (data dinner) ;;
      ret (fun s => match s with breakfast => b | lunch => l | dinner => d end)
  | None => ret (fun _ => [])
  end.

(** The condition of the list comprehension of [generate_personalized_plan]. *)
Definition keeps (diet : string) (allergy_list : list string) (r : Recipe) : bool :=
  (bool_decide (default "vegetarian" (type r) = diet)
   || bool_decide (diet = "mixed"))
  && negb (existsb
             (fun allergy =>
                PyStr.contains (PyStr.lower allergy)
                  (PyStr.lower (Json.dumps (default [] (ingredients r)))))
             allergy_list).

(** [[r for r in pool if cond(r)]]: the new list holds the same objects. *)
Fixpoint filter_pool (cond : Recipe -> bool) (pool : list loc) : M (list loc) :=
  match pool with
  | [] => ret []
  | l :: rest =>
      r <- deref l ;;
      kept <- filter_pool cond rest ;;
      ret (if cond r then l :: kept else kept)
  end.

(** [_create_fallback_meal] *)
Definition _create_fallback_meal (meal_type : MealSlot) (diet : string) : Recipe :=
  mkRecipe ("Fallback " ++ PyStr.title (slot_key meal_type))
           (Some [("basic_food", 100); ("vegetables", 50)])
           (Some 300) (Some 15) (Some 40) (Some 8) (Some 15) (Some diet).

(** [_calculate_nutrition_score], on the dictionaries of [meals.values()]. *)
Definition nutrition_score_of (ms : list Recipe) : Q :=
  let total_protein := sumZ (map (fun m => default 0 (protein m)) ms) in
  let total_carbs := sumZ (map (fun m => default 0 (carbs m)) ms) in
  let total_fat := sumZ (map (fun m => default 0 (fat m)) ms) in
  let denom := total_protein + total_carbs + total_fat in
  let protein_ratio :=
    if 0 <? denom then (inject_Z total_protein / inject_Z denom)%Q
    else (33 # 100)%Q in
  Qmin 10 (Qabs (protein_ratio - (3 # 10)) * 100)%Q.

(** [_calculate_variety_score], on the dictionaries of [meals.values()]. *)
Definition variety_score_of (ms : list Recipe) (recent_list : list (option string)) : Q :=
  let current_meals := map name ms in
  let new_meals : gset (option string) :=
    list_to_set (map Some current_meals) ∖ list_to_set recent_list in
  let variety_score :=
    match current_meals with
    | [] => 5%Q
    | _ => (inject_Z (Z.of_nat (size new_meals))
            / inject_Z (Z.of_nat (length current_meals)) * 10)%Q
    end in
  Qmin 10 variety_score.

(** [history[-3:]] *)
Definition last3 {A} (l : list A) : list A := drop (length l - 3) l.

(** [_get_user_meal_history_scores]: the names of the meals of the last
    three entries of the history file; [None] stands for a file that cannot
    be read. *)
Definition _get_user_meal_history_scores
    (history_file : option (list HistoryEntry)) : list (option string) :=
  match history_file with
  | Some history => concat (map (fun entry => concat (meal_plan entry)) (last3 history))
  | None => []
  end.

(** [_get_user_meal_history] *)
Definition _get_user_meal_history
    (history_file : option (list HistoryEntry)) (uid : string) : list HistoryEntry :=
  match history_file with
  | Some history => filter (fun h => user_id h = Some uid) history
  | None => []
  end.

Definition meal_values (ms : list (MealSlot * loc)) : M (list Recipe) :=
  mapM (fun m => deref m.2) ms.

Definition _calculate_nutrition_score (ms : list (MealSlot * loc)) : M Q :=
  rs <- meal_values ms ;; ret (nutrition_score_of rs).

Definition _calculate_variety_score
    (ms : list (MealSlot * loc)) (recent_list : list (option string)) : M Q :=
  rs <- meal_values ms ;; ret (variety_score_of rs recent_list).

(** [max(0, int(v * adjustment_factor))] *)
Definition scale_value (adjustment_factor : Binary64.float) (v : Z) : result Z :=
  and_then (Binary64.int_of_product v adjustment_factor) (fun z => Ok (Z.max 0 z)).

(** [if k in recipe: recipe[k] = max(0, int(recipe[k] * adjustment_factor))] *)
Definition scale_field (adjustment_factor : Binary64.float) (v : option Z)
    : result (option Z) :=
  match v with
  | Some z => and_then (scale_value adjustment_factor z) (fun z' => Ok (Some z'))
  | None => Ok None
  end.

(** The loop over [["calories", "protein", "carbs", "fat"]]: a key that is
    present gets its scaled value. *)
Definition scale_recipe (adjustment_factor : Binary64.float) (r : Recipe)
    : result Recipe :=
  and_then (scale_field adjustment_factor (calories r)) (fun calories' =>
  and_then (scale_field adjustment_factor (protein r)) (fun protein' =>
  and_then (scale_field adjustment_factor (carbs r)) (fun carbs' =>
  and_then (scale_field adjustment_factor (fat r)) (fun fat' =>
  Ok (mkRecipe (name r) (ingredients r) calories' protein' carbs' fat'
               (prep_time r) (type r)))))).

Definition scale_meal (adjustment_factor : Binary64.float) (m : MealSlot * loc)
    : M unit :=
  recipe <- deref m.2 ;;
  recipe' <- lift (scale_recipe adjustment_factor recipe) ;;
  write m.2 recipe'.

Definition scale_day (adjustment_factor : Binary64.float) (day_plan : DayPlan)
    : M DayPlan :=
  mapM (scale_meal adjustment_factor) (meals day_plan) ;;;
  total <- lift (Binary64.int_of_product (total_calories day_plan) adjustment_factor) ;;
  ret (mkDayPlan (meals day_plan) total
         (nutrition_score day_plan) (variety_score day_plan)).

Fixpoint scale_days (adjustment_factor : Binary64.float) (plan : WeeklyPlan)
    : M WeeklyPlan :=
  match plan with
  | [] => ret []
  | (day, day_plan) :: rest =>
      day_plan' <- scale_day adjustment_factor day_plan ;;
      rest' <- scale_days adjustment_factor rest ;;
      ret ((day, day_plan') :: rest')
  end.

Definition total_weekly (plan : WeeklyPlan) : Z :=
  sumZ (map (fun d => total_calories d.2) plan).

(** [_optimize_with_ai] *)
Definition _optimize_with_ai (weekly_plan : WeeklyPlan) (user_preferences : Preferences)
    : M WeeklyPlan :=
  let total_weekly_calories := total_weekly weekly_plan in
  let target_weekly_calories := default 2000 (calorie_target user_preferences) * 7 in
  if 0 <? total_weekly_calories then
    adjustment_factor <- true_div target_weekly_calories total_weekly_calories ;;
    scale_days adjustment_factor weekly_plan
  else ret weekly_plan.

Definition days : list string :=
  ["Monday"; "Tuesday"; "Wednesday"; "Thursday"; "Friday"; "Saturday"; "Sunday"].

Section WithRandom.

Variable rng : nat -> nat.

(** [pick_recipe]; the used set is named by its slot. *)
Definition pick_recipe (pool : list loc) (used_set : MealSlot) : M (option loc) :=
  match pool with
  | [] => ret None
  | _ :: _ =>
      used <- get_used used_set ;;
      candidates <- filter_pool (fun r => bool_decide (name r ∉ used)) pool ;;
      choice <- match candidates with
                | _ :: _ => random_choice rng candidates
                | [] => random_choice rng pool
                end ;;
      r <- deref choice ;;
      add_used used_set (name r) ;;;
      ret (Some choice)
  end.

(** [pick_recipe(...) or self._create_fallback_meal(meal_type, "vegetarian")] *)
Definition pick_or_fallback (pools : RecipeDb) (meal_type : MealSlot) : M loc :=
  picked <- pick_recipe (pools meal_type) meal_type ;;
  match picked with
  | Some l => ret l
  | None => alloc (_create_fallback_meal meal_type "vegetarian")
  end.

(** [_generate_daily_plan] *)
Definition _generate_daily_plan (pools : RecipeDb) (day_index : nat) (target : Z)
    (history_file : option (list HistoryEntry)) : M DayPlan :=
  b <- pick_or_fallback pools breakfast ;;
  l <- pick_or_fallback pools lunch ;;
  d <- pick_or_fallback pools dinner ;;
  let ms := [(breakfast, b); (lunch, l); (dinner, d)] in
  rb <- deref b ;;
  rl <- deref l ;;
  rd <- deref d ;;
  let total :=
    default 300 (calories rb) + default 400 (calories rl) + default 350 (calories rd) in
  ns <- _calculate_nutrition_score ms ;;
  vs <- _calculate_variety_score ms (_get_user_meal_history_scores history_file) ;;
  ret (mkDayPlan ms total ns vs).

(** The loop [for i, day in enumerate(days)]. *)
Fixpoint generate_days (pools : RecipeDb) (target : Z)
    (history_file : option (list HistoryEntry)) (i : nat) (ds : list string)
    : M WeeklyPlan :=
  match ds with
  | [] => ret []
  | day :: rest =>
      daily_plan <- _generate_daily_plan pools i target history_file ;;
      rest' <- generate_days pools target history_file (S i) rest ;;
      ret ((day, daily_plan) :: rest')
  end.

(** The pools filtered by the preferences. *)
Definition filtered_pools (recipe_db : RecipeDb) (diet : string)
    (allergy_list : list string) : M RecipeDb :=
  b <- filter_pool (keeps diet allergy_list) (recipe_db breakfast) ;;
  l <- filter_pool (keeps diet allergy_list) (recipe_db lunch) ;;
  d <- filter_pool (keeps diet allergy_list) (recipe_db dinner) ;;
  ret (fun s => match s with breakfast => b | lunch => l | dinner => d end).

(** The plan before [_optimize_with_ai]. *)
Definition assemble_week (recipe_db : RecipeDb) (user_preferences : Preferences)
    (history_file : option (list HistoryEntry)) : M WeeklyPlan :=
  let diet := default "vegetarian" (diet_type user_preferences) in
  let target := default 2000 (calorie_target user_preferences) in
  let allergy_list := default [] (allergies user_preferences) in
  fresh_used ;;;
  pools <- filtered_pools recipe_db diet allergy_list ;;
  generate_days pools target history_file 0 days.

(** [generate_personalized_plan].  The code also computes
    [user_history = self._get_user_meal_history(user_id)] and
    [cuisine_pref], and reads neither afterwards. *)
Definition generate_personalized_plan (recipe_db : RecipeDb)
    (user_preferences : Preferences) (history_file : option (list HistoryEntry))
    : M WeeklyPlan :=
  weekly_plan <- assemble_week recipe_db user_preferences history_file ;;
  _optimize_with_ai weekly_plan user_preferences.

End WithRandom.

End MealPlannerSpecialist.

(** ** [SimpleMealGenerator] (main_agent.py)

    No code of main_agent.py writes to a recipe, so its plans hold the
    recipes by value. *)

Module SimpleMealGenerator.

(** [create_sample_recipes] *)
Definition create_sample_recipes (meal_type : MealSlot) : list Recipe :=
  match meal_type with
  | breakfast =>
      [ mkRecipe "Masala Oats"
          (Some [("oats", 50); ("vegetables", 100); ("spices", 10); ("oil", 5)])
          (Some 250) (Some 12) (Some 40) (Some 6) (Some 15) (Some "vegetarian");
        mkRecipe "Paneer Paratha"
          (Some [("whole_wheat_flour", 80); ("paneer", 100); ("spices", 10); ("oil", 8)])
          (Some 380) (Some 18) (Some 45) (Some 15) (Some 25) (Some "vegetarian");
        mkRecipe "Egg Bhurji"
          (Some [("eggs", 3); ("onion", 50); ("tomato", 50); ("spices", 10); ("oil", 7)])
          (Some 280) (Some 20) (Some 10) (Some 18) (Some 15) (Some "non-vegetarian") ]
  | lunch =>
      [ mkRecipe "Dal Rice with Salad"
          (Some [("rice", 150); ("dal", 100); ("vegetables", 200); ("spices", 15); ("oil", 10)])
          (Some 450) (Some 22) (Some 75) (Some 12) (Some 30) (Some "vegetarian");
        mkRecipe "Chicken Curry with Roti"
          (Some [("chicken", 200); ("whole_wheat_flour", 100); ("spices", 20); ("oil", 15)])
          (Some 520) (Some 35) (Some 45) (Some 22) (Some 40) (Some "non-vegetarian") ]
  | dinner =>
      [ mkRecipe "Vegetable Khichdi"
          (Some [("rice", 100); ("dal", 80); ("vegetables", 150); ("spices", 10); ("ghee", 8)])
          (Some 380) (Some 15) (Some 60) (Some 10) (Some 25) (Some "vegetarian");
        mkRecipe "Grilled Fish with Vegetables"
          (Some [("fish", 150); ("vegetables", 200); ("lemon", 1); ("spices", 10); ("oil", 5)])
          (Some 320) (Some 28) (Some 15) (Some 18) (Some 20) (Some "non-vegetarian") ]
  end.

Record DailyMealPlan := mkDailyMealPlan {
  meals : list (MealSlot * Recipe);
  total_calories : Z
}.

(** [d[k]] *)
Definition getitem {A} (field : option A) : M A :=
  match field with
  | Some v => ret v
  | None => raise KeyError
  end.

(** [[r for r in available if r['type'] == diet_type or diet_type == "mixed"]] *)
Fixpoint filtered_recipes (diet : string) (available : list Recipe) : M (list Recipe) :=
  match available with
  | [] => ret []
  | r :: rest =>
      t <- getitem (type r) ;;
      kept <- filtered_recipes diet rest ;;
      ret (if bool_decide (t = diet) || bool_decide (diet = "mixed")
           then r :: kept else kept)
  end.

(** The placeholder of the [else] branch. *)
Definition fallback_recipe (meal_type : MealSlot) (diet : string) : Recipe :=
  mkRecipe ("Simple " ++ slot_key meal_type) (Some [("basic_food", 100)])
           (Some 300) (Some 10) (Some 40) (Some 8) (Some 10) (Some diet).

Section WithRandom.

Variable rng : nat -> nat.

(** One turn of the loop over the three meal types. *)
Definition select_meal (diet : string) (meal_type : MealSlot) : M (Recipe * Z) :=
  filtered <- filtered_recipes diet (create_sample_recipes meal_type) ;;
  match filtered with
  | _ :: _ =>
      selected_recipe <- random_choice rng filtered ;;
      c <- getitem (calories selected_recipe) ;;
      ret (selected_recipe, c)
  | [] => ret (fallback_recipe meal_type diet, 300)
  end.

(** [generate_daily_meal_plan] *)
Definition generate_daily_meal_plan (diet : string) : M DailyMealPlan :=
  b <- select_meal diet breakfast ;;
  l <- select_meal diet lunch ;;
  d <- select_meal diet dinner ;;
  ret (mkDailyMealPlan [(breakfast, b.1); (lunch, l.1); (dinner, d.1)]
                       (0 + b.2 + l.2 + d.2)).

(** [generate_weekly_plan] *)
Definition generate_weekly_plan (diet : string) : M (list (string * DailyMealPlan)) :=
  mapM (fun day => p <- generate_daily_meal_plan diet ;; ret (day, p))
       MealPlannerSpecialist.days.

End WithRandom.

End SimpleMealGenerator.

(** ** Vocabulary of the statements *)

Section Vocabulary.

Import MealPlannerSpecialist.

(** Every reference of [ls] points into the store. *)
Definition valid_locs (st : State) (ls : list loc) : Prop :=
  Forall (fun l => is_Some (store st !! l)) ls.

Definition db_valid (st : State) (db : RecipeDb) : Prop :=
  forall s, valid_locs st (db s).

Definition plan_valid (st : State) (plan : WeeklyPlan) : Prop :=
  Forall (fun d : string * DayPlan => valid_locs st (map snd (meals d.2))) plan.

(** The references of [pool] whose recipe satisfies [cond] in the store [σ]. *)
Definition kept_of (σ : list Recipe) (cond : Recipe -> bool) (pool : list loc)
    : list loc :=
  List.filter (fun l => match σ !! l with Some r => cond r | None => false end) pool.

(** The names of the recipes behind a list of references. *)
Definition names_of (σ : list Recipe) (ls : list loc) : list string :=
  omap (fun l => name <$> σ !! l) ls.

(** [day_plan["meals"][slot]] and the dictionary behind it. *)
Definition meal_at (s : MealSlot) (dp : DayPlan) : option loc :=
  snd <$> List.find (fun m : MealSlot * loc => bool_decide (m.1 = s)) (meals dp).

Definition recipe_at (σ : list Recipe) (s : MealSlot) (dp : DayPlan) : option Recipe :=
  match meal_at s dp with
  | Some l => σ !! l
  | None => None
  end.

(** The names chosen for slot [s], day after day. *)
Definition slot_names (σ : list Recipe) (s : MealSlot) (plan : WeeklyPlan)
    : list string :=
  omap (fun d : string * DayPlan => name <$> recipe_at σ s d.2) plan.

(** A sequence of picks from the names [P], started with the used set [U],
    that repeats a name only once every name of [P] has been used. *)
Fixpoint avoiding (P : list string) (U : gset string) (picks : list string) : Prop :=
  match picks with
  | [] => True
  | n :: rest =>
      n ∈ P /\ (n ∈ U -> forall m, m ∈ P -> m ∈ U) /\ avoiding P ({[n]} ∪ U) rest
  end.

(** The filter in the words of the specification: an allergy is looked for
    in the serialized list of the names of the ingredients, read as
    [json.dumps] of the list of the names (no quantity in it). *)
Fixpoint quoted_names_spec (names : list string) : string :=
  match names with
  | [] => EmptyString
  | [n] => Json.quote n
  | n :: rest => Json.quote n ++ ", " ++ quoted_names_spec rest
  end.

Definition serialized_names_spec (r : Recipe) : string :=
  "[" ++ quoted_names_spec (map fst (default [] (ingredients r))) ++ "]".

Definition keeps_by_names_spec (diet : string) (allergy_list : list string)
    (r : Recipe) : bool :=
  (bool_decide (default "vegetarian" (type r) = diet)
   || bool_decide (diet = "mixed"))
  && negb (existsb
             (fun allergy =>
                PyStr.contains (PyStr.lower allergy)
                  (PyStr.lower (serialized_names_spec r)))
             allergy_list).

(** The nutrient fields of a recipe are not negative (data model). *)
Definition nonneg_field (v : option Z) : Prop := 0 <= default 0 v.

Definition nonneg_recipe (r : Recipe) : Prop :=
  nonneg_field (calories r) /\ nonneg_field (protein r)
  /\ nonneg_field (carbs r) /\ nonneg_field (fat r).

(** The nutrition score in the words of the specification: the ratio is
    0.33 when the denominator is zero. *)
Definition nutrition_score_spec (ms : list Recipe) : Q :=
  let p := sumZ (map (fun m => default 0 (protein m)) ms) in
  let c := sumZ (map (fun m => default 0 (carbs m)) ms) in
  let f := sumZ (map (fun m => default 0 (fat m)) ms) in
  let ratio :=
    if p + c + f =? 0 then (33 # 100)%Q
    else (inject_Z p / inject_Z (p + c + f))%Q in
  Qmin 10 (Qabs (ratio - (3 # 10)) * 100)%Q.

(** The variety score in the words of the specification: [current] is the
    set of the names of the day, [recent] the set of the recent names. *)
Definition variety_score_spec (current_names : list string)
    (recent_names : list (option string)) : Q :=
  let current : gset (option string) := list_to_set (map Some current_names) in
  let recent : gset (option string) := list_to_set recent_names in
  let new := current ∖ recent in
  if bool_decide (size current = 0%nat) then 5%Q
  else Qmin 10 (inject_Z (Z.of_nat (size new))
                / inject_Z (Z.of_nat (size current)) * 10)%Q.

(** The recent names in the words of the specification: the meals of the
    last three entries of the history of this user. *)
Definition recent_names_spec (history_file : option (list HistoryEntry))
    (uid : string) : list (option string) :=
  concat (map (fun entry => concat (meal_plan entry))
              (last3 (_get_user_meal_history history_file uid))).

(** The two scores of every day of a plan. *)
Definition scores (plan : WeeklyPlan) : list (string * (Q * Q)) :=
  map (fun d : string * DayPlan => (d.1, (nutrition_score d.2, variety_score d.2))) plan.

(** The recipe objects a plan refers to, day after day and slot after
    slot. *)
Definition plan_refs (plan : WeeklyPlan) : list loc :=
  concat (map (fun d : string * DayPlan => map snd (meals d.2)) plan).

(** What the scaling loop may do to a store when it writes through the
    references [L]: no object appears or disappears; every object keeps its
    name, ingredients, preparation time and type; an object outside [L] is
    untouched; an object of [L] ends with nutrient values that are not
    negative. *)
Definition rescaled_store (L : list loc) (σ σ' : list Recipe) : Prop :=
  length σ' = length σ
  /\ (forall l r, σ !! l = Some r ->
        exists r', σ' !! l = Some r' /\ name r' = name r
          /\ ingredients r' = ingredients r /\ prep_time r' = prep_time r
          /\ type r' = type r)
  /\ (forall l, l ∉ L -> σ' !! l = σ !! l)
  /\ (forall l r', l ∈ L -> σ' !! l = Some r' -> nonneg_recipe r').

(** What the scaling loop makes of the days of a plan: the names, the
    meals and the scores are kept, and the total of a day becomes
    [int(total * adjustment_factor)]. *)
Definition rescaled_plan (adjustment_factor : Binary64.float)
    (plan plan' : WeeklyPlan) : Prop :=
  Forall2 (fun d d' : string * DayPlan =>
             d'.1 = d.1 /\ meals d'.2 = meals d.2
             /\ nutrition_score d'.2 = nutrition_score d.2
             /\ variety_score d'.2 = variety_score d.2
             /\ Binary64.int_of_product (total_calories d.2) adjustment_factor
                = Ok (total_calories d'.2))
          plan plan'.

(** The store after the scaling loop has written through the references
    [L], one after the other: each write replaces the recipe behind the
    reference by its scaled version. *)
Inductive scaled_through (adjustment_factor : Binary64.float)
    : list loc -> list Recipe -> list Recipe -> Prop :=
  | scaled_nil σ : scaled_through adjustment_factor [] σ σ
  | scaled_cons l L σ r r' σ' :
      σ !! l = Some r ->
      scale_recipe adjustment_factor r = Ok r' ->
      scaled_through adjustment_factor L (<[l := r']> σ) σ' ->
      scaled_through adjustment_factor (l :: L) σ σ'.

(** The state [st] with another store. *)
Definition with_store (st : State) (σ : list Recipe) : State :=
  mkState σ (used_breakfasts st) (used_lunches st) (used_dinners st) (draws st).

(** Nutrient values of magnitude at most [B]. *)
Definition field_le (B : Z) (v : option Z) : Prop := Z.abs (default 0 v) <= B.

Definition recipe_le (B : Z) (r : Recipe) : Prop :=
  field_le B (calories r) /\ field_le B (protein r)
  /\ field_le B (carbs r) /\ field_le B (fat r).

(** The recipes behind the references [L] have nutrient values of magnitude
    at most [B]. *)
Definition refs_le (B : Z) (σ : list Recipe) (L : list loc) : Prop :=
  Forall (fun l => forall r, σ !! l = Some r -> recipe_le B r) L.


(** A plan and a target that keep the scaling inside the range of binary64:
    a target of magnitude at most [10^9], at most 21 meals, recipes with
    nutrient values of magnitude at most [10^9], and daily totals of
    magnitude at most [3 * 10^9]. *)
Definition moderate (st : State) (plan : WeeklyPlan) (prefs : Preferences) : Prop :=
  Z.abs (default 2000 (calorie_target prefs)) <= 10 ^ 9
  /\ (length (plan_refs plan) <= 21)%nat
  /\ refs_le (10 ^ 9) (store st) (plan_refs plan)
  /\ Forall (fun d : string * DayPlan => Z.abs (total_calories d.2) <= 3 * 10 ^ 9) plan.

(** Integers up to [float_range] are far enough from the end of the range of
    binary64 for a product of two of them to be computed without overflow
    checks in the proofs. *)
Definition float_range : Z := 2 ^ 1022.

(** [x'] approximates [x] with a relative error of at most [ε]. *)
Definition approx (ε x' x : Q) : Prop := (Qabs (x' - x) <= ε * Qabs x)%Q.

(** The exact value that a scaled daily total approximates. *)
Definition exact_scaled (total target_weekly total_weekly : Z) : Q :=
  (inject_Z total * (inject_Z target_weekly / inject_Z total_weekly))%Q.

(** The store of [st'] is the store of [st] with new objects after it. *)
Definition extends (st st' : State) : Prop :=
  exists ext, store st' = (store st ++ ext)%list.

(** What [pick_recipe(pool, used) or fallback] does for slot [s]: from an
    empty pool, a new placeholder and no change of the used set; otherwise a
    recipe [l] of the pool, whose name joins the used set, and which was in
    the used set only if every name of the pool was. *)
Definition slot_step (pool : list loc) (s : MealSlot) (st : State) (l : loc)
    (st' : State) : Prop :=
  (forall s', s' <> s -> used_of s' st' = used_of s' st)
  /\ match pool with
     | [] =>
         l = length (store st)
         /\ store st' = (store st ++ [_create_fallback_meal s "vegetarian"])%list
         /\ used_of s st' = used_of s st
     | _ :: _ =>
         exists r, l ∈ pool /\ store st !! l = Some r
           /\ store st' = store st
           /\ used_of s st' = {[name r]} ∪ used_of s st
           /\ (name r ∈ used_of s st ->
               forall l' r', l' ∈ pool -> store st !! l' = Some r' ->
                 name r' ∈ used_of s st)
     end.

(** What [_generate_daily_plan] does: three slot steps in a row, and a day
    built from the three recipes. *)
Definition day_step (pools : RecipeDb) (recent : list (option string))
    (st : State) (dp : DayPlan) (st' : State) : Prop :=
  exists b l d st1 st2 rb rl rd,
    slot_step (pools breakfast) breakfast st b st1
    /\ slot_step (pools lunch) lunch st1 l st2
    /\ slot_step (pools dinner) dinner st2 d st'
    /\ store st' !! b = Some rb /\ store st' !! l = Some rl
    /\ store st' !! d = Some rd
    /\ dp = mkDayPlan [(breakfast, b); (lunch, l); (dinner, d)]
              (default 300 (calories rb) + default 400 (calories rl)
               + default 350 (calories rd))
              (nutrition_score_of [rb; rl; rd])
              (variety_score_of [rb; rl; rd] recent).

(** The days of a generation loop, one [day_step] after the other. *)
Inductive week_steps (pools : RecipeDb) (recent : list (option string))
    : State -> WeeklyPlan -> State -> Prop :=
  | week_nil st : week_steps pools recent st [] st
  | week_cons st day dp st1 plan st2 :
      day_step pools recent st dp st1 ->
      week_steps pools recent st1 plan st2 ->
      week_steps pools recent st ((day, dp) :: plan) st2.

(** A day seen from one slot [s]: the recipe of the slot and the used set
    of the slot, between the state before the day and the state after it. *)
Definition slot_outcome (pools : RecipeDb) (s : MealSlot) (st : State)
    (dp : DayPlan) (st' : State) : Prop :=
  exists l, meal_at s dp = Some l
    /\ match pools s with
       | [] =>
           store st' !! l = Some (_create_fallback_meal s "vegetarian")
           /\ used_of s st' = used_of s st
       | _ :: _ =>
           exists r, l ∈ pools s /\ store st !! l = Some r
             /\ used_of s st' = {[name r]} ∪ used_of s st
             /\ (name r ∈ used_of s st ->
                 forall l' r', l' ∈ pools s -> store st !! l' = Some r' ->
                   name r' ∈ used_of s st)
       end.

(** A day with its three slots populated in the store [σ], whose total is
    the sum of the calories of its recipes, with 300, 400 and 350 for a
    recipe without calories. *)
Definition day_complete (σ : list Recipe) (dp : DayPlan) : Prop :=
  exists b l d rb rl rd,
    meals dp = [(breakfast, b); (lunch, l); (dinner, d)]
    /\ σ !! b = Some rb /\ σ !! l = Some rl /\ σ !! d = Some rd
    /\ total_calories dp
       = default 300 (calories rb) + default 400 (calories rl)
         + default 350 (calories rd).


(** The pools of [generate_personalized_plan], filtered in the store [σ]. *)
Definition pools_of (σ : list Recipe) (db : RecipeDb) (prefs : Preferences) : RecipeDb :=
  let cond := keeps (default "vegetarian" (diet_type prefs))
                    (default [] (allergies prefs)) in
  fun s =>
    match s with
    | breakfast => kept_of σ cond (db breakfast)
    | lunch => kept_of σ cond (db lunch)
    | dinner => kept_of σ cond (db dinner)
    end.

(** A planner built on a recipe file ([__init__]) that assembles a week,
    and one that generates a plan. *)
Definition run_assembly (rng : nat -> nat) (file : RecipeFile) (prefs : Preferences)
    (history_file : option (list HistoryEntry)) : M WeeklyPlan :=
  db <- _load_recipes file ;; assemble_week rng db prefs history_file.

Definition run_planner (rng : nat -> nat) (file : RecipeFile) (prefs : Preferences)
    (history_file : option (list HistoryEntry)) : M WeeklyPlan :=
  db <- _load_recipes file ;; generate_personalized_plan rng db prefs history_file.

(** The initial state of a process: no object, no draw. *)
Definition initial_state : State := mkState [] ∅ ∅ ∅ 0.

End Vocabulary.

(** ** Concrete inputs *)

Section Inputs.

Import MealPlannerSpecialist.

Definition masala_oats : Recipe :=
  mkRecipe "Masala Oats"
    (Some [("oats", 50); ("vegetables", 100); ("spices", 10); ("oil", 5)])
    (Some 250) (Some 12) (Some 40) (Some 6) (Some 15) (Some "vegetarian").

Definition vegetable_khichdi : Recipe :=
  mkRecipe "Vegetable Khichdi"
    (Some [("rice", 100); ("dal", 80); ("vegetables", 150); ("spices", 10); ("ghee", 8)])
    (Some 380) (Some 15) (Some 60) (Some 10) (Some 25) (Some "vegetarian").

Definition cashew_shake : Recipe :=
  mkRecipe "Cashew Shake" (Some [("Cashew Milk", 200); ("banana", 1)])
    (Some 220) (Some 6) (Some 30) (Some 9) (Some 5) (Some "vegetarian").

(** [Crème] and [CRÈME]: the letters [U+00E8] and [U+00C8] of Latin-1. *)
Definition creme : string := "Cr" ++ String (ascii_of_nat 232) "me".
Definition creme_capitals : string := "CR" ++ String (ascii_of_nat 200) "ME".

Definition creme_shake : Recipe :=
  mkRecipe "Shake" (Some [(creme, 30); ("banana", 1)])
    (Some 220) (Some 6) (Some 30) (Some 9) (Some 5) (Some "vegetarian").

(** A recipe file with one breakfast and nothing else. *)
Definition oats_only : RecipeFile :=
  Some (fun s => match s with breakfast => [masala_oats] | _ => [] end).

(** A recipe file whose lunch and dinner pools hold a recipe of the same
    name. *)
Definition khichdi_twice : RecipeFile :=
  Some (fun s =>
          match s with
          | breakfast => [masala_oats]
          | lunch => [vegetable_khichdi]
          | dinner => [vegetable_khichdi]
          end).

(** A stream of draws that always yields 0. *)
Definition first_draw : nat -> nat := fun _ => 0%nat.

Definition prefs_with_target (target : Z) : Preferences :=
  mkPreferences (Some "vegetarian") (Some target) (Some []) (Some "any").

(** A state with three recipe objects, the pools that hold them, and a week
    that serves them every day. *)
Definition three_recipes : State :=
  mkState [masala_oats; cashew_shake; vegetable_khichdi] ∅ ∅ ∅ 0.

Definition one_each : RecipeDb :=
  fun s => match s with breakfast => [0%nat] | lunch => [1%nat] | dinner => [2%nat] end.

Definition breakfast_only : RecipeDb :=
  fun s => match s with breakfast => [0%nat; 1%nat] | _ => [] end.

Definition same_day : DayPlan :=
  mkDayPlan [(breakfast, 0%nat); (lunch, 1%nat); (dinner, 2%nat)]
    (250 + 220 + 380)
    (nutrition_score_of [masala_oats; cashew_shake; vegetable_khichdi])
    (variety_score_of [masala_oats; cashew_shake; vegetable_khichdi] []).

Definition same_week : WeeklyPlan := map (fun day => (day, same_day)) days.

(** A history file with one plan, stored for another user. *)
Definition others_history : option (list HistoryEntry) :=
  Some [mkHistoryEntry (Some "someone_else")
          [[Some "Masala Oats"; Some "Cashew Shake"; Some "Vegetable Khichdi"]]].

(** Seven breakfasts that have a name and nothing else. *)
Definition seven_breakfasts : State :=
  mkState (map (fun n => mkRecipe n None None None None None None None)
               ["Poha"; "Upma"; "Idli"; "Dosa"; "Paratha"; "Dhokla"; "Thepla"])
          ∅ ∅ ∅ 0.

Definition seven_breakfasts_db : RecipeDb :=
  fun s => match s with breakfast => seq 0 7 | _ => [] end.

End Inputs.

(** ** JSON values and Python slices *)

(** The values of the dictionaries that the memory tools store. *)
#[local] Set Warnings "-register-all".
Inductive pyval :=
  | PNone
  | PBool (b : bool)
  | PInt (z : Z)
  | PStr (s : string)
  | PList (l : list pyval)
  | PDict (d : gmap string pyval).

(** [l[:limit]] *)
Definition slice_to {A} (l : list A) (limit : Z) : list A :=
  if 0 <=? limit then take (Z.to_nat limit) l
  else take (length l - Z.to_nat (- limit)) l.

(** [l[-n:]] for a positive [n]. *)
Definition last_n {A} (n : nat) (l : list A) : list A := drop (length l - n) l.

(** ** The other classes of main_agent.py *)

(** [NutritionCalculator] *)
Module NutritionCalculator.

Record Analysis := mkAnalysis {
  avg_daily_calories : Q;
  avg_daily_protein : Q;
  total_meals : Z
}.

(** The recipes met by the two nested loops, in the order of the loops. *)
Definition plan_recipes (meal_plan : list (string * SimpleMealGenerator.DailyMealPlan))
    : list Recipe :=
  concat (map (fun d : string * SimpleMealGenerator.DailyMealPlan =>
                 map snd (SimpleMealGenerator.meals d.2)) meal_plan).

(** [analyze_meal_plan_nutrition] *)
Definition analyze_meal_plan_nutrition
    (meal_plan : list (string * SimpleMealGenerator.DailyMealPlan)) : Analysis :=
  let recipes := plan_recipes meal_plan in
  let total_calories :=
    MealPlannerSpecialist.sumZ (map (fun r => default 0 (calories r)) recipes) in
  let total_protein :=
    MealPlannerSpecialist.sumZ (map (fun r => default 0 (protein r)) recipes) in
  let meal_count := Z.of_nat (length recipes) in
  let days_count := Z.of_nat (length meal_plan) in
  if 0 <? days_count
  then mkAnalysis (inject_Z total_calories / inject_Z days_count)%Q
                  (inject_Z total_protein / inject_Z days_count)%Q meal_count
  else mkAnalysis 0 0 meal_count.

End NutritionCalculator.

(** [ShoppingListGenerator].  Quantities are integers; the text that
    [format(x, ".1f")] gives for a float is a parameter of the model. *)
Module ShoppingListGenerator.

(** The pairs met by [recipe.get('ingredients', {}).items()], recipe after
    recipe. *)
Definition plan_items (weekly_plan : list (string * SimpleMealGenerator.DailyMealPlan))
    : list (string * Z) :=
  concat (map (fun r => default [] (ingredients r))
              (NutritionCalculator.plan_recipes weekly_plan)).

(** [shopping_list[ingredient] += quantity] on a [defaultdict(float)]. *)
Definition add_item (shopping_list : gmap string Z) (item : string * Z)
    : gmap string Z :=
  <[item.1 := default 0 (shopping_list !! item.1) + item.2]> shopping_list.

(** The dictionary after the first loop. *)
Definition shopping_totals (weekly_plan : list (string * SimpleMealGenerator.DailyMealPlan))
    : gmap string Z :=
  foldl add_item ∅ (plan_items weekly_plan).

Section Format.

Variable format_1f : Q -> string.

(** The two branches of the second loop. *)
Definition format_quantity (total_quantity : Z) : string :=
  if 1000 <=? total_quantity
  then format_1f (inject_Z total_quantity / 1000)%Q ++ " kg"
  else pretty total_quantity ++ " grams".

(** [generate_shopping_list] *)
Definition generate_shopping_list
    (weekly_plan : list (string * SimpleMealGenerator.DailyMealPlan))
    : gmap string string :=
  format_quantity <$> shopping_totals weekly_plan.

End Format.

End ShoppingListGenerator.

(** [MemoryBank]: a file is the JSON value it holds, or [None] when it
    cannot be opened or parsed. *)
Module MemoryBank.

Record Entry := mkEntry {
  user_id : string;
  timestamp : string;
  meal_plan : list (string * SimpleMealGenerator.DailyMealPlan)
}.

(** [save_meal_history]: the value returned and the file afterwards. *)
Definition save_meal_history (history_file : option (list Entry)) (uid : string)
    (plan : list (string * SimpleMealGenerator.DailyMealPlan)) (now : string)
    : bool * option (list Entry) :=
  match history_file with
  | Some history => (true, Some (history ++ [mkEntry uid now plan])%list)
  | None => (false, None)
  end.

(** [save_user_preferences]: the value returned and the file afterwards. *)
Definition save_user_preferences
    (memory_file : option (gmap string (gmap string pyval)))
    (uid : string) (preferences : gmap string pyval) (now : string)
    : bool * option (gmap string (gmap string pyval)) :=
  match memory_file with
  | Some data => (true, Some (<[uid := <["last_updated" := PStr now]> preferences]> data))
  | None => (false, None)
  end.

(** [get_user_preferences] *)
Definition get_user_preferences
    (memory_file : option (gmap string (gmap string pyval))) (uid : string)
    : gmap string pyval :=
  match memory_file with
  | Some data => default ∅ (data !! uid)
  | None => ∅
  end.

(** What [MealPlannerSpecialist._get_user_meal_history_scores] reads in an
    entry: the name of every meal of every day. *)
Definition names_view (e : Entry) : HistoryEntry :=
  mkHistoryEntry (Some (user_id e))
    (map (fun d : string * SimpleMealGenerator.DailyMealPlan =>
            map (fun m : MealSlot * Recipe => Some (name m.2))
                (SimpleMealGenerator.meals d.2))
         (meal_plan e)).

End MemoryBank.

(** [MealPlannerAgent] *)
Module MealPlannerAgent.

(** The request: [user_input.get('user_id')] and
    [user_input.get('preferences', {}).get('diet_type')]. *)
Record UserInput := mkUserInput {
  input_user_id : option string;
  input_diet_type : option string
}.

Record WorkflowResult := mkWorkflowResult {
  meal_plan : list (string * SimpleMealGenerator.DailyMealPlan);
  nutrition_analysis : NutritionCalculator.Analysis;
  shopping_list : gmap string string;
  session_id : string
}.

Section Workflow.

Variable rng : nat -> nat.
Variable format_1f : Q -> string.

(** [sequential_workflow]: the result, and the history file afterwards.
    [now] is the text of [datetime.now().isoformat()] at the save, [seconds]
    the value of [int(datetime.now().timestamp())] at the return. *)
Definition sequential_workflow (user_input : UserInput)
    (history_file : option (list MemoryBank.Entry)) (now : string) (seconds : Z)
    : M (WorkflowResult * option (list MemoryBank.Entry)) :=
  let diet := default "vegetarian" (input_diet_type user_input) in
  plan <- SimpleMealGenerator.generate_weekly_plan rng diet ;;
  let analysis := NutritionCalculator.analyze_meal_plan_nutrition plan in
  let shopping := ShoppingListGenerator.generate_shopping_list format_1f plan in
  let saved :=
    MemoryBank.save_meal_history history_file
      (default "default" (input_user_id user_input)) plan now in
  ret (mkWorkflowResult plan analysis shopping
         ("sess_" ++ default "user" (input_user_id user_input) ++ "_" ++ pretty seconds),
       saved.2).

End Workflow.

End MealPlannerAgent.

(** ** [NutritionAnalyzerSpecialist] (agents/nutrition_analyzer_agent.py)

    The analyser reads a plan by value: for every day, the recipes of
    [daily_plan.get('meals', {}).values()].  The answer of the text service
    ([_get_ai_insights]) is a parameter. *)

Module NutritionAnalyzerSpecialist.

Definition MealPlan := list (string * list Recipe).

Record Standards := mkStandards {
  std_protein_ratio : Q;
  std_carbs_ratio : Q;
  std_fat_ratio : Q
}.

(** [_load_nutrition_standards], as the lookup [standards.get(goal)]. *)
Definition _load_nutrition_standards (goal : string) : option Standards :=
  if bool_decide (goal = "weight_loss") then
    Some (mkStandards (3 # 10) (4 # 10) (3 # 10))
  else if bool_decide (goal = "muscle_building") then
    Some (mkStandards (35 # 100) (4 # 10) (25 # 100))
  else if bool_decide (goal = "maintenance") then
    Some (mkStandards (25 # 100) (45 # 100) (3 # 10))
  else if bool_decide (goal = "general_health") then
    Some (mkStandards (2 # 10) (5 # 10) (3 # 10))
  else None.

Record BasicNutrition := mkBasicNutrition {
  avg_daily_calories : Q;
  avg_daily_protein : Q;
  avg_daily_carbs : Q;
  avg_daily_fat : Q;
  total_meals : Z;
  protein_ratio : Q
}.

Definition all_recipes (meal_plan : MealPlan) : list Recipe :=
  concat (map snd meal_plan).

Definition total_of (field : Recipe -> option Z) (meal_plan : MealPlan) : Z :=
  MealPlannerSpecialist.sumZ (map (fun r => default 0 (field r)) (all_recipes meal_plan)).

(** [x / days_count if days_count > 0 else 0] *)
Definition per_day (x : Z) (days_count : Z) : Q :=
  if 0 <? days_count then (inject_Z x / inject_Z days_count)%Q else 0%Q.

(** [_calculate_basic_nutrition] *)
Definition _calculate_basic_nutrition (meal_plan : MealPlan) : BasicNutrition :=
  let total_calories := total_of calories meal_plan in
  let total_protein := total_of protein meal_plan in
  let total_carbs := total_of carbs meal_plan in
  let total_fat := total_of fat meal_plan in
  let meal_count := Z.of_nat (length (all_recipes meal_plan)) in
  let days_count := Z.of_nat (length meal_plan) in
  mkBasicNutrition
    (per_day total_calories days_count) (per_day total_protein days_count)
    (per_day total_carbs days_count) (per_day total_fat days_count)
    meal_count
    (if 0 <? total_protein + total_carbs + total_fat
     then (inject_Z total_protein
           / inject_Z (total_protein + total_carbs + total_fat))%Q
     else 0%Q).

Record GoalCompliance := mkGoalCompliance {
  protein_compliance_score : Q;
  meets_protein_target : bool;
  target_protein_ratio : Q;
  actual_protein_ratio : Q
}.

(** [max(0, 10 - abs(protein_ratio - target_protein_ratio) * 100)] as the
    [float] that decides the test [protein_compliance >= 7]: the two ratios
    are the [float] nearest to their values, and each of the three
    operations rounds. *)
Definition protein_compliance_float (ratio target : Q) : Binary64.float :=
  let difference :=
    Binary64.abs (Binary64.sub (Binary64.rounded ratio) (Binary64.rounded target)) in
  Binary64.max0
    (Binary64.sub (Binary64.Finite 10)
                  (Binary64.mul difference (Binary64.Finite 100))).

(** [_analyze_goal_compliance]; the score that is reported is read as the
    exact rational. *)
Definition _analyze_goal_compliance (nutrition : BasicNutrition) (user_goal : string)
    : GoalCompliance :=
  let standards :=
    default (mkStandards (25 # 100) (45 # 100) (3 # 10))
            (_load_nutrition_standards user_goal) in
  let ratio := protein_ratio nutrition in
  let target := std_protein_ratio standards in
  let protein_compliance := Qmax 0 (10 - Qabs (ratio - target) * 100)%Q in
  mkGoalCompliance (Qmin 10 protein_compliance)
                   (Binary64.ge (protein_compliance_float ratio target)
                                (Binary64.Finite 7))
                   target ratio.

Record VarietyAnalysis := mkVarietyAnalysis {
  variety_score : Q;
  ingredient_diversity : Q;
  unique_meals : nat;
  variety_total_meals : nat;
  unique_ingredients : nat;
  assessment : string
}.

(** [_analyze_variety] *)
Definition _analyze_variety (meal_plan : MealPlan) : VarietyAnalysis :=
  let all_meals := map name (all_recipes meal_plan) in
  let ingredient_names :=
    concat (map (fun r => map fst (default [] (ingredients r))) (all_recipes meal_plan)) in
  let unique := size (list_to_set all_meals : gset string) in
  let total := length all_meals in
  let unique_ingr := size (list_to_set ingredient_names : gset string) in
  let score :=
    if (0 <? total)%nat
    then (inject_Z (Z.of_nat unique) / inject_Z (Z.of_nat total) * 10)%Q
    else 0%Q in
  mkVarietyAnalysis score
    (Qmin 10 (inject_Z (Z.of_nat unique_ingr) / 3))%Q
    unique total unique_ingr
    (if Qle_bool 8 score then "Excellent"
     else if Qle_bool 6 score then "Good" else "Needs Improvement").

(** [_calculate_overall_score] *)
Definition _calculate_overall_score (goal_analysis : GoalCompliance)
    (variety_analysis : VarietyAnalysis) : Q :=
  (protein_compliance_score goal_analysis * (5 # 10)
   + variety_score variety_analysis * (3 # 10)
   + ingredient_diversity variety_analysis * (2 # 10))%Q.

Definition more_protein : string :=
  "Increase protein-rich foods like lentils, chicken, or fish".
Definition more_variety : string := "Add more variety to prevent meal boredom".
Definition more_ingredients : string :=
  "Incorporate more diverse ingredients for better nutrition".
Definition great_job : string :=
  "Great job! Your meal plan is well-balanced and varied".

(** [_generate_recommendations] *)
Definition _generate_recommendations (goal_analysis : GoalCompliance)
    (variety_analysis : VarietyAnalysis) : list string :=
  let recommendations :=
    ((if meets_protein_target goal_analysis then [] else [more_protein])
     ++ (if Qle_bool 6 (variety_score variety_analysis) then [] else [more_variety])
     ++ (if (unique_ingredients variety_analysis <? 15)%nat
         then [more_ingredients] else []))%list in
  match recommendations with
  | [] => [great_job]
  | _ :: _ => recommendations
  end.

Record Report (A : Type) := mkReport {
  basic_nutrition : BasicNutrition;
  goal_compliance : GoalCompliance;
  ai_insights : A;
  variety_assessment : VarietyAnalysis;
  overall_score : Q;
  recommendations : list string
}.
Arguments mkReport {A}.
Arguments basic_nutrition {A}.
Arguments goal_compliance {A}.
Arguments ai_insights {A}.
Arguments variety_assessment {A}.
Arguments overall_score {A}.
Arguments recommendations {A}.

(** [analyze_meal_plan]; [insights] is what [_get_ai_insights] answered. *)
Definition analyze_meal_plan {A} (insights : A) (meal_plan : MealPlan)
    (user_goal : string) : Report A :=
  let basic_analysis := _calculate_basic_nutrition meal_plan in
  let goal_analysis := _analyze_goal_compliance basic_analysis user_goal in
  let variety_analysis := _analyze_variety meal_plan in
  mkReport basic_analysis goal_analysis insights variety_analysis
    (_calculate_overall_score goal_analysis variety_analysis)
    (_generate_recommendations goal_analysis variety_analysis).

End NutritionAnalyzerSpecialist.

(** ** [AdvancedMemoryTools] (tools/memory_tools.py)

    A file is the JSON value it holds, or [None] when it cannot be read or
    parsed; [_safe_write] is taken to succeed. *)

Module AdvancedMemoryTools.

(** [_safe_load] *)
Definition _safe_load {A} (file : option A) (default_value : A) : A :=
  default default_value file.

(** The label of one value in [_calc_strength]. *)
Definition strength_of (v : pyval) : string :=
  match v with
  | PBool b => if b then "strong" else "weak"
  | PList l => if (0 <? length l)%nat then "strong" else "weak"
  | PStr s =>
      if negb (bool_decide (s = EmptyString))
         && negb (bool_decide (s ∈ ["any"; "flexible"]))
      then "medium" else "weak"
  | _ => "weak"
  end.

(** [_calc_strength] *)
Definition _calc_strength (preferences : gmap string pyval) : gmap string string :=
  strength_of <$> preferences.

(** The dictionary stored for a user by [save_user_preferences]. *)
Definition stored_preferences (preferences : gmap string pyval) (now : string)
    : gmap string pyval :=
  <["preference_strength" := PDict (PStr <$> _calc_strength preferences)]>
    (<["last_updated" := PStr now]> preferences).

(** [save_user_preferences]: the value returned and the file afterwards. *)
Definition save_user_preferences
    (preferences_file : option (gmap string (gmap string pyval)))
    (uid : string) (preferences : gmap string pyval) (now : string)
    : bool * option (gmap string (gmap string pyval)) :=
  let prefs := _safe_load preferences_file ∅ in
  (true, Some (<[uid := stored_preferences preferences now]> prefs)).

(** [get_user_preferences] *)
Definition get_user_preferences
    (preferences_file : option (gmap string (gmap string pyval))) (uid : string)
    : gmap string pyval :=
  default ∅ (_safe_load preferences_file ∅ !! uid).

(** The name of a session. *)
Definition session_name (uid : string) (seconds : Z) : string :=
  "sess_" ++ uid ++ "_" ++ pretty seconds.

(** [create_session]: the session id and the file afterwards. *)
Definition create_session
    (sessions_file : option (gmap string (gmap string pyval)))
    (uid : string) (seconds : Z) (now : string)
    : string * option (gmap string (gmap string pyval)) :=
  let session_id := session_name uid seconds in
  let sessions := _safe_load sessions_file ∅ in
  (session_id,
   Some (<[session_id :=
             <["session_id" := PStr session_id]>
               (<["user_id" := PStr uid]>
                  (<["created_at" := PStr now]>
                     (<["last_activity" := PStr now]>
                        (<["context" := PDict ∅]> ∅))))]> sessions)).

(** [update_session]: the file afterwards. *)
Definition update_session
    (sessions_file : option (gmap string (gmap string pyval)))
    (session_id : string) (updates : gmap string pyval) (now : string)
    : option (gmap string (gmap string pyval)) :=
  let sessions := _safe_load sessions_file ∅ in
  match sessions !! session_id with
  | Some session =>
      Some (<[session_id := <["last_activity" := PStr now]> (updates ∪ session)]>
              sessions)
  | None => sessions_file
  end.

(** [get_session] *)
Definition get_session
    (sessions_file : option (gmap string (gmap string pyval))) (session_id : string)
    : gmap string pyval :=
  default ∅ (_safe_load sessions_file ∅ !! session_id).

(** An entry of the history file; a key may be missing in an entry that
    another program wrote. *)
Record StoredEntry := mkStoredEntry {
  entry_user_id : option string;
  entry_timestamp : option string;
  entry_meal_plan : option (list (string * pyval));
  entry_feedback : option (gmap string pyval)
}.

(** [save_meal_feedback]: the value returned and the file afterwards;
    [feedback or {}] turns a missing feedback into the empty dictionary. *)
Definition save_meal_feedback (history_file : option (list StoredEntry))
    (uid : string) (plan : list (string * pyval))
    (feedback : option (gmap string pyval)) (now : string)
    : bool * option (list StoredEntry) :=
  let history := _safe_load history_file [] in
  let entry := mkStoredEntry (Some uid) (Some now) (Some plan)
                             (Some (default ∅ feedback)) in
  let history := (history ++ [entry])%list in
  let history := if (500 <? length history)%nat then last_n 500 history else history in
  (true, Some history).

(** [get_user_history] *)
Definition get_user_history (history_file : option (list StoredEntry))
    (uid : string) (limit : Z) : list StoredEntry :=
  let history := _safe_load history_file [] in
  let user_entries :=
    List.filter (fun h => bool_decide (entry_user_id h = Some uid)) history in
  slice_to (rev user_entries) limit.

Record Recommendation := mkRecommendation {
  rec_timestamp : option string;
  rec_sample : list string
}.

(** The loop of [get_meal_recommendations]: [done] recommendations are in
    the list already; the test of the limit comes after the append. *)
Fixpoint recommendations_loop (limit : Z) (done : nat) (user_history : list StoredEntry)
    : list Recommendation :=
  match user_history with
  | [] => []
  | h :: rest =>
      mkRecommendation (entry_timestamp h) (map fst (default [] (entry_meal_plan h)))
      :: (if limit <=? Z.of_nat (S done) then []
          else recommendations_loop limit (S done) rest)
  end.

(** [get_meal_recommendations] *)
Definition get_meal_recommendations (history_file : option (list StoredEntry))
    (uid : string) (limit : Z) : list Recommendation :=
  recommendations_loop limit 0 (get_user_history history_file uid 100).

(** [cleanup_old_sessions].  [fromisoformat t] is the time stamp, in
    seconds, that [datetime.fromisoformat(t).timestamp()] gives, or [None]
    when it raises; [now] is [datetime.now().timestamp()]. *)
Section Cleanup.

Variable fromisoformat : string -> option Q.




End Cleanup.

End AdvancedMemoryTools.

(** ** The history routes of app.py *)

Module App.

(** The history file as the routes see it. *)
Inductive HistoryFile :=
  | Missing                                   (* [os.path.exists] is false *)
  | Unreadable                                (* [json.load] raises *)
  | Holds (data : list AdvancedMemoryTools.StoredEntry).

(** [get_history] *)
Definition get_history (file : HistoryFile) (uid : string)
    : list AdvancedMemoryTools.StoredEntry :=
  match file with
  | Holds data =>
      rev (List.filter
             (fun h => bool_decide (AdvancedMemoryTools.entry_user_id h = Some uid))
             data)
  | _ => []
  end.

(** The answer of [delete_history_item]. *)
Inductive DeleteAnswer :=
  | Removed          (* [{"success": True, "removed": True}] *)
  | FileMissing      (* [{"success": False, "msg": "History file missing"}] *)
  | Failed.          (* [{"success": False, "error": ...}] *)

(** [delete_history_item]: the answer and the file afterwards. *)
Definition delete_history_item (file : HistoryFile) (uid timestamp : string)
    : DeleteAnswer * HistoryFile :=
  match file with
  | Missing => (FileMissing, Missing)
  | Unreadable => (Failed, Unreadable)
  | Holds data =>
      (Removed,
       Holds (List.filter
                (fun item =>
                   negb (bool_decide (AdvancedMemoryTools.entry_user_id item = Some uid)
                         && bool_decide (AdvancedMemoryTools.entry_timestamp item
                                         = Some timestamp)))
                data))
  end.

End App.

(** ** Vocabulary for the other classes *)

(** The condition of the filter of [SimpleMealGenerator]. *)
Definition matches_diet (diet : string) (r : Recipe) : Prop :=
  type r = Some diet \/ diet = "mixed".

(** A meal that [generate_daily_meal_plan] may serve in slot [s]: a sample
    recipe of the slot that matches the diet type, or the placeholder when
    no sample recipe of the slot matches. *)
Definition served_by_simple (diet : string) (s : MealSlot) (r : Recipe) : Prop :=
  (r ∈ SimpleMealGenerator.create_sample_recipes s /\ matches_diet diet r)
  \/ (r = SimpleMealGenerator.fallback_recipe s diet
      /\ forall r', r' ∈ SimpleMealGenerator.create_sample_recipes s ->
           ~ matches_diet diet r').

(** A day of [SimpleMealGenerator] whose three meals may be served for the
    diet type and whose total is the sum of their calories. *)
Definition simple_day_sound (diet : string) (p : SimpleMealGenerator.DailyMealPlan)
    : Prop :=
  exists b l d,
    SimpleMealGenerator.meals p = [(breakfast, b); (lunch, l); (dinner, d)]
    /\ served_by_simple diet breakfast b /\ served_by_simple diet lunch l
    /\ served_by_simple diet dinner d
    /\ SimpleMealGenerator.total_calories p
       = MealPlannerSpecialist.sumZ
           (map (fun r => default 0 (calories r)) [b; l; d]).


(** ** Inputs for the other classes *)

(** A plan of one day, as [SimpleMealGenerator] would shape it. *)
Definition monday_only : list (string * SimpleMealGenerator.DailyMealPlan) :=
  [("Monday",
    SimpleMealGenerator.mkDailyMealPlan
      [(breakfast, masala_oats); (lunch, cashew_shake); (dinner, vegetable_khichdi)]
      850)].

(** A sessions file that holds one session. *)
Definition one_session : option (gmap string (gmap string pyval)) :=
  Some {[ "session_u1_1" := {[ "user_id" := PStr "u1" ]} ]}.

(** * Properties *)

Import MealPlannerSpecialist.

(** ** Strings *)

Lemma startswith_spec (p s : string) :
  PyStr.startswith p s = true <-> exists post : string, s = p ++ post.
Proof.
  revert s. induction p as [|a p IH]; intros s; simpl.
  - split; [intros _; by exists s | done].
  - destruct s as [|b s].
    + split; [done | intros [post Hpost]; discriminate].
    + rewrite andb_true_iff, Ascii.eqb_eq, IH. split.
      * intros [-> [post ->]]. by exists post.
      * intros [post Hpost]. injection Hpost as -> ->. eauto.
Qed.

Lemma contains_spec (p s : string) :
  PyStr.contains p s = true <-> PyStr.occurs_in p s.
Proof.
  unfold PyStr.occurs_in. induction s as [|b s IH].
  - cbn [PyStr.contains]. rewrite orb_false_r, startswith_spec. split.
    + intros [post Hpost]. by exists EmptyString, post.
    + intros [pre [post Hs]]. destruct pre; [eauto | discriminate].
  - cbn [PyStr.contains]. rewrite orb_true_iff, startswith_spec, IH. split.
    + intros [[post Hpost] | [pre [post Hs]]].
      * by exists EmptyString, post.
      * exists (String b pre), post. by rewrite Hs.
    + intros [pre [post Hs]]. destruct pre as [|c pre].
      * left. by exists post.
      * right. injection Hs as _ Hs. eauto.
Qed.

(** [str.lower] and [json.dumps] on concrete strings: capital letters of
    ASCII and of Latin-1 are lowered, the multiplication sign [U+00D7] is
    not a letter; [json.dumps] writes the quantities after the names and a
    code point outside [U+0020] to [U+007E] as an escape. *)
Lemma lower_examples :
  PyStr.lower "Cashew MILK, 200 g" = "cashew milk, 200 g"
  /\ PyStr.lower creme_capitals = "cr" ++ String (ascii_of_nat 232) "me"
  /\ PyStr.lower (String (ascii_of_nat 215) "Z") = String (ascii_of_nat 215) "z"
  /\ PyStr.lower (String (ascii_of_nat 223) "[") = String (ascii_of_nat 223) "[".
Proof. repeat split; vm_compute; reflexivity. Qed.

Lemma dumps_examples :
  Json.dumps [("oats", 50); ("oil", 5)]
  = "{" ++ Json.dquote ++ "oats" ++ Json.dquote ++ ": 50, "
        ++ Json.dquote ++ "oil" ++ Json.dquote ++ ": 5}"
  /\ Json.dumps [] = "{}"
  /\ Json.dumps [(creme, 30)]
     = "{" ++ Json.dquote ++ "Cr\u00e8me" ++ Json.dquote ++ ": 30}"
  /\ Json.escape (String (ascii_of_nat 127) (String (ascii_of_nat 10) "\"))
     = "\u007f\n\\"
  /\ Json.escape (String (ascii_of_nat 31) (String (ascii_of_nat 255) "~ "))
     = "\u001f\u00ff~ ".
Proof. repeat split; vm_compute; reflexivity. Qed.

(** An allergy written with an accent is not found in the ingredients that
    have it: [json.dumps] has replaced the letter by its escape.  The
    digits of the escape are found instead. *)
Lemma accented_allergy_not_found :
  keeps "vegetarian" [creme] creme_shake = true
  /\ keeps "vegetarian" ["00E8"] creme_shake = false.
Proof. split; vm_compute; reflexivity. Qed.

(** ** The monad *)

Lemma bind_ok {A B} (m : M A) (k : A -> M B) (st st' : State) (a : A) :
  m st = Ok (a, st') -> bind m k st = k a st'.
Proof. intros H. unfold bind. by rewrite H. Qed.

Lemma deref_ok (st : State) (l : loc) (r : Recipe) :
  store st !! l = Some r -> deref l st = Ok (r, st).
Proof. intros H. unfold deref. by rewrite H. Qed.

Lemma valid_locs_cons (st : State) (l : loc) (ls : list loc) :
  valid_locs st (l :: ls) <-> is_Some (store st !! l) /\ valid_locs st ls.
Proof. unfold valid_locs. by rewrite Forall_cons. Qed.

Lemma valid_locs_elem (st : State) (ls : list loc) (l : loc) :
  valid_locs st ls -> l ∈ ls -> is_Some (store st !! l).
Proof. unfold valid_locs. rewrite Forall_forall. auto. Qed.

(** ** The constraint filter *)

Lemma filter_pool_ok (cond : Recipe -> bool) (pool : list loc) (st : State) :
  valid_locs st pool ->
  filter_pool cond pool st = Ok (kept_of (store st) cond pool, st).
Proof.
  induction pool as [|l rest IH]; intros Hv; [done|].
  apply valid_locs_cons in Hv as [[r Hr] Hrest].
  cbn [filter_pool]. rewrite (bind_ok _ _ _ _ _ (deref_ok _ _ _ Hr)).
  rewrite (bind_ok _ _ _ _ _ (IH Hrest)).
  unfold kept_of. cbn [List.filter]. by rewrite Hr.
Qed.

Lemma elem_of_kept_of (σ : list Recipe) (cond : Recipe -> bool) (pool : list loc)
    (l : loc) :
  l ∈ kept_of σ cond pool <->
  l ∈ pool /\ exists r, σ !! l = Some r /\ cond r = true.
Proof.
  unfold kept_of. rewrite !list_elem_of_In, filter_In. split.
  - intros [Hin Hc]. split; [done|]. destruct (σ !! l) as [r|]; [eauto | done].
  - intros [Hin [r [Hr Hc]]]. split; [done|]. by rewrite Hr.
Qed.

Lemma keeps_spec (diet : string) (allergy_list : list string) (r : Recipe) :
  keeps diet allergy_list r = true <->
  (default "vegetarian" (type r) = diet \/ diet = "mixed")
  /\ forall a, a ∈ allergy_list ->
       ~ PyStr.occurs_in (PyStr.lower a)
           (PyStr.lower (Json.dumps (default [] (ingredients r)))).
Proof.
  unfold keeps.
  rewrite andb_true_iff, orb_true_iff, !bool_decide_eq_true, negb_true_iff.
  apply and_iff_compat_l. split.
  - intros Hex a Ha Hocc. apply contains_spec in Hocc.
    assert (existsb
              (fun allergy =>
                 PyStr.contains (PyStr.lower allergy)
                   (PyStr.lower (Json.dumps (default [] (ingredients r)))))
              allergy_list = true) as Hyes; [|congruence].
    apply existsb_exists. exists a. split; [by apply list_elem_of_In | done].
  - intros Hall. apply not_true_is_false. intros Hex.
    apply existsb_exists in Hex as [a [Ha Hc]].
    apply (Hall a); [by apply list_elem_of_In | by apply contains_spec].
Qed.

(** C8, as amended. The filter of [generate_personalized_plan] returns the pool's
    recipes, unchanged, and keeps a recipe exactly when its diet type (with
    ["vegetarian"] for a recipe without one) is the requested one or the
    request is ["mixed"], and no allergy string, in lower case, occurs in
    the lower-cased [json.dumps] of its ingredient mapping: the text with
    the names, the quantities and the punctuation of JSON.  Hence no kept
    recipe has an allergy string in this text. *)
Theorem filter_keeps_iff (st : State) (diet : string) (allergy_list : list string)
    (pool : list loc) :
  valid_locs st pool ->
  exists kept,
    filter_pool (keeps diet allergy_list) pool st = Ok (kept, st)
    /\ (forall l, l ∈ kept <->
          l ∈ pool /\ exists r, store st !! l = Some r
            /\ (default "vegetarian" (type r) = diet \/ diet = "mixed")
            /\ forall a, a ∈ allergy_list ->
                 ~ PyStr.occurs_in (PyStr.lower a)
                     (PyStr.lower (Json.dumps (default [] (ingredients r)))))
    /\ (forall l r a, l ∈ kept -> store st !! l = Some r -> a ∈ allergy_list ->
          ~ PyStr.occurs_in (PyStr.lower a)
              (PyStr.lower (Json.dumps (default [] (ingredients r))))).
Proof.
  intros Hv. exists (kept_of (store st) (keeps diet allergy_list) pool).
  split; [by apply filter_pool_ok|]. split.
  - intros l. rewrite elem_of_kept_of. apply and_iff_compat_l.
    split; intros [r [Hr Hk]]; exists r; (split; [done|]).
    + by apply keeps_spec.
    + by apply keeps_spec.
  - intros l r a Hl Hr Ha. apply elem_of_kept_of in Hl as [_ [r' [Hr' Hk]]].
    assert (r' = r) as -> by congruence.
    apply keeps_spec in Hk as [_ Hk]. by apply Hk.
Qed.

(** C8, counterexample.  With the allergy ["100"], the filter drops Masala
    Oats and Vegetable Khichdi, vegetarian recipes none of whose ingredient
    names has ["100"] in it, alone or in the serialized list of the names:
    ["100"] is the quantity of an ingredient, and [json.dumps] writes the
    quantities. *)
Lemma filter_drops_on_quantity :
  filter_pool (keeps "vegetarian" ["100"]) [0; 1; 2]%nat three_recipes
  = Ok ([1%nat], three_recipes)
  /\ store three_recipes !! 0%nat = Some masala_oats
  /\ type masala_oats = Some "vegetarian"
  /\ (forall n, n ∈ map fst (default [] (ingredients masala_oats)) ->
        ~ PyStr.occurs_in (PyStr.lower "100") (PyStr.lower n))
  /\ ~ PyStr.occurs_in (PyStr.lower "100")
        (PyStr.lower (serialized_names_spec masala_oats))
  /\ keeps_by_names_spec "vegetarian" ["100"] masala_oats = true
  /\ keeps "vegetarian" ["100"] masala_oats = false
  /\ ~ (0%nat ∈ [1%nat] <->
        0%nat ∈ [0; 1; 2]%nat
        /\ exists r, store three_recipes !! 0%nat = Some r
             /\ (default "vegetarian" (type r) = "vegetarian"
                 \/ "vegetarian" = "mixed")
             /\ forall a, a ∈ ["100"] ->
                  ~ PyStr.occurs_in (PyStr.lower a)
                      (PyStr.lower (serialized_names_spec r))).
Proof.
  assert (~ PyStr.occurs_in (PyStr.lower "100")
            (PyStr.lower (serialized_names_spec masala_oats))) as Hno.
  { rewrite <- contains_spec. vm_compute. discriminate. }
  split; [vm_compute; reflexivity|]. split; [reflexivity|]. split; [reflexivity|].
  split.
  { intros n Hn. rewrite <- contains_spec. cbn in Hn.
    repeat (apply elem_of_cons in Hn as [->|Hn]);
      [..|by apply elem_of_nil in Hn]; vm_compute; discriminate. }
  split; [exact Hno|]. split; [vm_compute; reflexivity|].
  split; [vm_compute; reflexivity|].
  intros [_ H].
  assert (0%nat ∈ [1%nat]) as Hin.
  { apply H. split; [apply list_elem_of_here|].
    exists masala_oats. split; [reflexivity|]. split; [by left|].
    intros a Ha. apply list_elem_of_singleton in Ha as ->. exact Hno. }
  apply list_elem_of_singleton in Hin. discriminate.
Qed.

(** ** Binary64 *)

Section Binary64Facts.

Import Binary64.

Lemma pow2_pos (e : Z) : (0 < pow2 e)%Q.
Proof. apply Qpower_0_lt. reflexivity. Qed.

Lemma pow2_add (a b : Z) : (pow2 (a + b) == pow2 a * pow2 b)%Q.
Proof. apply Qpower_plus. discriminate. Qed.

Lemma pow2_le (a b : Z) : a <= b -> (pow2 a <= pow2 b)%Q.
Proof. intros H. apply Qpower_le_compat_l; [done | discriminate]. Qed.

Lemma pow2_nonneg_exp (e : Z) : 0 <= e -> (pow2 e == inject_Z (2 ^ e))%Q.
Proof. intros H. unfold pow2. by rewrite Zpower_Qpower. Qed.

(** The nearest integer is at most one half away. *)
Lemma rne_bound (q : Q) : (Qabs (inject_Z (rne q) - q) <= 1 # 2)%Q.
Proof.
  destruct q as [n d]. unfold rne. cbn [Qnum Qden].
  pose proof (Z.div_mod n (Z.pos d) ltac:(lia)) as Hdm.
  pose proof (Z.mod_pos_bound n (Z.pos d) ltac:(lia)) as Hr.
  set (k := n / Z.pos d) in *. set (r := n mod Z.pos d) in *.
  apply Qabs_Qle_condition.
  assert (forall z : Z, -(Z.pos d) <= 2 * (z * Z.pos d - n) <= Z.pos d ->
            (- (1 # 2) <= inject_Z z - (n # d) <= 1 # 2)%Q) as Hlift.
  { intros z Hz. unfold Qle, Qminus, Qplus, Qopp, inject_Z. cbn. lia. }
  apply Hlift.
  destruct (Z.compare_spec (2 * r) (Z.pos d)) as [He|Hl|Hg].
  - destruct (Z.even k); lia.
  - lia.
  - lia.
Qed.

Lemma rne_le_double (q : Q) : (inject_Z (Z.abs (rne q)) <= 2 * Qabs q)%Q.
Proof.
  pose proof (rne_bound q) as Hb. apply Qabs_Qle_condition in Hb as [Hlo Hhi].
  destruct (Z.abs_spec (rne q)) as [[Hk ->]|[Hk ->]].
  - destruct (Z.eq_dec (rne q) 0) as [->|Hne].
    + pose proof (Qabs_nonneg q). change (inject_Z 0) with 0%Q. lra.
    + assert (1 <= rne q) as H1 by lia. rewrite Zle_Qle in H1.
      change (inject_Z 1) with 1%Q in H1.
      rewrite Qabs_pos by lra. lra.
  - assert (rne q <= -1) as H1 by lia. rewrite Zle_Qle in H1.
    change (inject_Z (-1)) with (-1)%Q in H1.
    rewrite inject_Z_opp. rewrite Qabs_neg by lra. lra.
Qed.

Lemma ilog2_spec (q : Q) :
  ~ (q == 0)%Q -> (pow2 (ilog2 q) <= Qabs q < pow2 (ilog2 q + 1))%Q.
Proof.
  intros Hq. unfold ilog2.
  set (n := Z.abs (Qnum q)). set (d := Z.pos (Qden q)).
  assert (0 < n) as Hn.
  { unfold n. destruct q as [[|p|p] dd]; cbn; try lia. exfalso. by apply Hq. }
  assert (Qabs q == inject_Z n / inject_Z d)%Q as Habs.
  { destruct q as [nn dd]. unfold Qabs, Qeq, Qdiv, Qmult, Qinv, inject_Z, n, d.
    cbn. lia. }
  pose proof (Z.log2_spec n Hn) as [Hn1 Hn2].
  pose proof (Z.log2_spec d ltac:(unfold d; lia)) as [Hd1 Hd2].
  pose proof (Z.log2_nonneg n) as Hln. pose proof (Z.log2_nonneg d) as Hld.
  set (ln := Z.log2 n) in *. set (ld := Z.log2 d) in *.
  assert (0 < inject_Z d)%Q as Hdpos by (unfold Qlt, d; cbn; lia).
  assert (pow2 (ln - ld - 1) <= Qabs q /\ Qabs q < pow2 (ln - ld + 1))%Q as [Hlo Hhi].
  { rewrite Habs. split.
    - apply Qle_shift_div_l; [done|].
      assert (pow2 (ln - ld - 1) * pow2 (ld + 1) == pow2 ln)%Q as Hp.
      { rewrite <- pow2_add. by replace (ln - ld - 1 + (ld + 1)) with ln by lia. }
      apply Qle_trans with (pow2 (ln - ld - 1) * pow2 (ld + 1))%Q.
      + apply Qmult_le_l; [apply pow2_pos|].
        rewrite pow2_nonneg_exp by lia. rewrite <- Zle_Qle.
        replace (ld + 1) with (Z.succ ld) by lia. lia.
      + rewrite Hp, pow2_nonneg_exp by lia. by rewrite <- Zle_Qle.
    - apply Qlt_shift_div_r; [done|].
      assert (pow2 (ln - ld + 1) * pow2 ld == pow2 (ln + 1))%Q as Hp.
      { rewrite <- pow2_add. by replace (ln - ld + 1 + ld) with (ln + 1) by lia. }
      apply Qlt_le_trans with (pow2 (ln + 1)).
      + rewrite pow2_nonneg_exp by lia. rewrite <- Zlt_Qlt.
        replace (ln + 1) with (Z.succ ln) by lia. lia.
      + rewrite <- Hp. apply Qmult_le_l; [apply pow2_pos|].
        rewrite pow2_nonneg_exp by lia. by rewrite <- Zle_Qle. }
  destruct (Qle_bool (pow2 (ln - ld)) (Qabs q)) eqn:Hc.
  - apply Qle_bool_iff in Hc. by split.
  - split; [done|]. apply Qnot_le_lt. intros Hle.
    apply Qle_bool_iff in Hle. replace (ln - ld - 1 + 1) with (ln - ld) in Hle by lia.
    congruence.
Qed.

Lemma round_zero (q : Q) : (q == 0)%Q -> round q = 0%Q.
Proof. intros H. unfold round. apply Qeq_bool_iff in H. by rewrite H. Qed.

Lemma round_nonzero (q : Q) :
  ~ (q == 0)%Q ->
  round q = (inject_Z (rne (q / pow2 (ulp_exp q))) * pow2 (ulp_exp q))%Q.
Proof.
  intros H. unfold round. destruct (Qeq_bool q 0) eqn:E; [|done].
  by apply Qeq_bool_iff in E.
Qed.

(** The error of a rounding is at most half a unit in the last place. *)
Lemma round_half_ulp (q : Q) :
  ~ (q == 0)%Q -> (Qabs (round q - q) <= pow2 (ulp_exp q) * (1 # 2))%Q.
Proof.
  intros Hq. rewrite round_nonzero by done.
  set (P := pow2 (ulp_exp q)). pose proof (pow2_pos (ulp_exp q)) as HP. fold P in HP.
  assert (inject_Z (rne (q / P)) * P - q == (inject_Z (rne (q / P)) - q / P) * P)%Q as ->.
  { field. intros H0. rewrite H0 in HP. by apply Qlt_irrefl in HP. }
  rewrite Qabs_Qmult, (Qabs_pos P) by (by apply Qlt_le_weak).
  rewrite (Qmult_comm P). apply Qmult_le_compat_r; [apply rne_bound | by apply Qlt_le_weak].
Qed.

(** From [2^-1022] on, the relative error of a rounding is at most
    [2^-53]. *)
Lemma round_error (q : Q) :
  (pow2 (-1022) <= Qabs q)%Q -> (Qabs (round q - q) <= pow2 (-53) * Qabs q)%Q.
Proof.
  intros Hn.
  assert (~ (q == 0)%Q) as Hq.
  { intros H0. rewrite H0 in Hn. pose proof (pow2_pos (-1022)) as Hp.
    cbn in Hn. apply (Qlt_irrefl 0). eapply Qlt_le_trans; [exact Hp | exact Hn]. }
  pose proof (ilog2_spec q Hq) as [Hlo Hhi].
  assert (-1022 <= ilog2 q) as HE.
  { destruct (Z_lt_le_dec (ilog2 q) (-1022)) as [Hlt|]; [|done]. exfalso.
    apply (Qlt_irrefl (Qabs q)). eapply Qlt_le_trans; [exact Hhi|].
    eapply Qle_trans; [|exact Hn]. apply pow2_le. lia. }
  eapply Qle_trans; [by apply round_half_ulp|].
  unfold ulp_exp. rewrite Z.max_l by lia.
  assert (pow2 (ilog2 q - 52) * (1 # 2) == pow2 (-53) * pow2 (ilog2 q))%Q as ->.
  { replace (ilog2 q - 52) with (ilog2 q + -52) by lia. rewrite pow2_add.
    unfold pow2 at 2 3. cbn. field. }
  apply Qmult_le_l; [apply pow2_pos | done].
Qed.

(** A rounding at most doubles a magnitude. *)
Lemma round_abs_le (q : Q) : (Qabs (round q) <= 2 * Qabs q)%Q.
Proof.
  destruct (Qeq_dec q 0) as [H0|Hq].
  - rewrite (round_zero q H0). change (Qabs 0) with 0%Q.
    pose proof (Qabs_nonneg q). lra.
  - rewrite round_nonzero by done.
    set (P := pow2 (ulp_exp q)). pose proof (pow2_pos (ulp_exp q)) as HP. fold P in HP.
    rewrite Qabs_Qmult, (Qabs_pos P) by (by apply Qlt_le_weak).
    assert (Qabs q == Qabs (q / P) * P)%Q as ->.
    { rewrite <- (Qabs_pos P) at 2 by (by apply Qlt_le_weak).
      rewrite <- Qabs_Qmult. apply Qabs_wd. field.
      intros H0. rewrite H0 in HP. by apply Qlt_irrefl in HP. }
    rewrite Qmult_assoc. apply Qmult_le_compat_r; [|by apply Qlt_le_weak].
    apply (rne_le_double (q / P)).
Qed.

Lemma rounded_finite (q : Q) :
  (Qabs q <= pow2 1022)%Q -> rounded q = Finite (round q).
Proof.
  intros Hq. unfold rounded. cbv zeta.
  destruct (Qle_bool (pow2 1024) (Qabs (round q))) eqn:Hc; [|done].
  apply Qle_bool_iff in Hc. pose proof (round_abs_le q) as Hr.
  assert (pow2 1024 == 4 * pow2 1022)%Q as H4.
  { replace 1024 with (2 + 1022) by lia. by rewrite pow2_add. }
  pose proof (pow2_pos 1022). lra.
Qed.

(** [int(x)] is less than 1 away from [x], on the side of zero. *)
Lemma to_int_spec (q : Q) :
  exists z, to_int (Finite q) = Ok z
    /\ (Qabs (inject_Z z - q) < 1)%Q /\ (inject_Z (Z.abs z) <= Qabs q)%Q.
Proof.
  eexists. split; [reflexivity|]. destruct q as [n d]. cbn [Qnum Qden].
  pose proof (Z.quot_rem' n (Z.pos d)) as Hqr.
  pose proof (Z.rem_bound_abs n (Z.pos d) ltac:(lia)) as Hr.
  pose proof (Z.rem_sign_mul n (Z.pos d) ltac:(lia)) as Hs.
  set (z := Z.quot n (Z.pos d)) in *. set (r := Z.rem n (Z.pos d)) in *.
  split.
  - apply Qabs_Qlt_condition. unfold Qlt, Qminus, Qplus, Qopp, inject_Z. cbn. lia.
  - unfold Qle, Qabs, inject_Z. cbn. unfold z.
    rewrite <- (Z.quot_abs n (Z.pos d)) by lia.
    pose proof (Z.mul_quot_le (Z.abs n) (Z.abs (Z.pos d)) ltac:(lia) ltac:(lia)).
    lia.
Qed.

End Binary64Facts.

(** ** The weekly calorie normaliser *)

Lemma and_then_ok {A B} (r : result A) (k : A -> result B) (b : B) :
  and_then r k = Ok b -> exists a, r = Ok a /\ k a = Ok b.
Proof. destruct r as [a|e]; [|done]. intros H. by exists a. Qed.

Lemma bind_inv {A B} (m : M A) (k : A -> M B) (st st' : State) (b : B) :
  bind m k st = Ok (b, st') ->
  exists a st1, m st = Ok (a, st1) /\ k a st1 = Ok (b, st').
Proof.
  unfold bind. destruct (m st) as [[a st1]|e]; [|done]. intros H. by exists a, st1.
Qed.

Lemma lift_inv {A} (r : result A) (st st' : State) (a : A) :
  lift r st = Ok (a, st') -> r = Ok a /\ st' = st.
Proof. unfold lift. destruct r; [|done]. intros H. by injection H as -> ->. Qed.

Lemma lift_ok {A} (r : result A) (st : State) (a : A) :
  r = Ok a -> lift r st = Ok (a, st).
Proof. by intros ->. Qed.

Lemma with_store_same (st : State) : with_store st (store st) = st.
Proof. by destruct st. Qed.

Lemma valid_locs_same_length (st st' : State) (ls : list loc) :
  length (store st') = length (store st) ->
  valid_locs st ls -> valid_locs st' ls.
Proof.
  intros Hlen Hv. unfold valid_locs in *.
  eapply Forall_impl; [exact Hv|]. intros l.
  rewrite !lookup_lt_is_Some. lia.
Qed.

Lemma rescaled_store_refl (σ : list Recipe) : rescaled_store [] σ σ.
Proof.
  split; [done|]. split; [|split].
  - intros l r Hr. by exists r.
  - done.
  - intros l r' Hl. by apply elem_of_nil in Hl.
Qed.

Lemma rescaled_store_trans (L1 L2 : list loc) (σ1 σ2 σ3 : list Recipe) :
  rescaled_store L1 σ1 σ2 -> rescaled_store L2 σ2 σ3 ->
  rescaled_store (L1 ++ L2)%list σ1 σ3.
Proof.
  intros (Hlen1 & Hid1 & Hout1 & Hnn1) (Hlen2 & Hid2 & Hout2 & Hnn2).
  split; [congruence|]. split; [|split].
  - intros l r Hr. destruct (Hid1 l r Hr) as (r1 & Hr1 & ? & ? & ? & ?).
    destruct (Hid2 l r1 Hr1) as (r2 & Hr2 & ? & ? & ? & ?).
    exists r2. repeat split; congruence.
  - intros l Hl. rewrite elem_of_app in Hl.
    rewrite Hout2, Hout1; [done | tauto | tauto].
  - intros l r' Hl Hr'. destruct (decide (l ∈ L2)) as [Hin|Hnot].
    + by apply (Hnn2 l).
    + apply elem_of_app in Hl as [Hl|Hl]; [|done].
      apply (Hnn1 l); [done|]. by rewrite <- Hout2.
Qed.

(** *** What a scaling that returns has done *)

Lemma scale_value_nonneg (f : Binary64.float) (v z : Z) :
  scale_value f v = Ok z -> 0 <= z.
Proof.
  unfold scale_value. intros H. apply and_then_ok in H as [z0 [_ H]].
  injection H as <-. lia.
Qed.

Lemma scale_field_nonneg (f : Binary64.float) (v v' : option Z) :
  scale_field f v = Ok v' -> nonneg_field v'.
Proof.
  unfold scale_field, nonneg_field. destruct v as [z|].
  - intros H. apply and_then_ok in H as [z' [Hz H]]. injection H as <-.
    cbn. by apply (scale_value_nonneg f z).
  - intros H. by injection H as <-.
Qed.

Lemma scale_recipe_inv (f : Binary64.float) (r r' : Recipe) :
  scale_recipe f r = Ok r' ->
  exists c p cb ft,
    scale_field f (calories r) = Ok c /\ scale_field f (protein r) = Ok p
    /\ scale_field f (carbs r) = Ok cb /\ scale_field f (fat r) = Ok ft
    /\ r' = mkRecipe (name r) (ingredients r) c p cb ft (prep_time r) (type r).
Proof.
  unfold scale_recipe. intros H.
  apply and_then_ok in H as [c [Hc H]]. apply and_then_ok in H as [p [Hp H]].
  apply and_then_ok in H as [cb [Hcb H]]. apply and_then_ok in H as [ft [Hft H]].
  injection H as <-. by exists c, p, cb, ft.
Qed.

Lemma scale_recipe_frame (f : Binary64.float) (r r' : Recipe) :
  scale_recipe f r = Ok r' ->
  name r' = name r /\ ingredients r' = ingredients r
  /\ prep_time r' = prep_time r /\ type r' = type r /\ nonneg_recipe r'.
Proof.
  intros H. apply scale_recipe_inv in H as (c & p & cb & ft & Hc & Hp & Hcb & Hft & ->).
  cbn. repeat split; eauto using scale_field_nonneg.
Qed.

Lemma scale_meal_inv (f : Binary64.float) (m : MealSlot * loc) (st st' : State)
    (u : unit) :
  scale_meal f m st = Ok (u, st') ->
  exists r r', store st !! m.2 = Some r /\ scale_recipe f r = Ok r'
    /\ st' = with_store st (<[m.2 := r']> (store st)).
Proof.
  unfold scale_meal. intros H.
  apply bind_inv in H as (r & st1 & Hd & H).
  unfold deref in Hd. destruct (store st !! m.2) as [r0|] eqn:Hr; [|done].
  injection Hd as <- <-.
  apply bind_inv in H as (r' & st2 & Hl & H). apply lift_inv in Hl as [Hs ->].
  unfold write in H. rewrite Hr in H. injection H as <-.
  by exists r0, r'.
Qed.

Lemma scale_meals_through (f : Binary64.float) (ms : list (MealSlot * loc))
    (st st' : State) (us : list unit) :
  mapM (scale_meal f) ms st = Ok (us, st') ->
  scaled_through f (map snd ms) (store st) (store st')
  /\ st' = with_store st (store st').
Proof.
  revert st us. induction ms as [|m ms IH]; intros st us H.
  - injection H as <- <-. split; [constructor | by rewrite with_store_same].
  - cbn [mapM] in H. apply bind_inv in H as (u & st1 & Hm & H).
    apply bind_inv in H as (us' & st2 & Hms & H). injection H as <- <-.
    apply scale_meal_inv in Hm as (r & r' & Hr & Hs & ->).
    apply IH in Hms as [Ht Hst]. cbn [store with_store] in Ht. split.
    + cbn [map]. by apply (scaled_cons f _ _ _ r r').
    + rewrite Hst at 1. done.
Qed.

Lemma scaled_through_app (f : Binary64.float) (L1 L2 : list loc)
    (σ1 σ2 σ3 : list Recipe) :
  scaled_through f L1 σ1 σ2 -> scaled_through f L2 σ2 σ3 ->
  scaled_through f (L1 ++ L2) σ1 σ3.
Proof.
  induction 1 as [|l L σ r r' σ' Hr Hs _ IH]; intros H2; [done|].
  cbn. apply (scaled_cons f _ _ _ r r'); [done | done | by apply IH].
Qed.

Lemma scale_days_through (f : Binary64.float) (plan plan' : WeeklyPlan)
    (st st' : State) :
  scale_days f plan st = Ok (plan', st') ->
  scaled_through f (plan_refs plan) (store st) (store st')
  /\ st' = with_store st (store st')
  /\ rescaled_plan f plan plan'.
Proof.
  revert st plan'. induction plan as [|[day dp] plan IH]; intros st plan' H.
  - injection H as <- <-. split; [constructor|]. split; [by rewrite with_store_same|].
    constructor.
  - cbn [scale_days] in H. apply bind_inv in H as (dp' & st1 & Hd & H).
    apply bind_inv in H as (rest' & st2 & Hrest & H). injection H as <- <-.
    unfold scale_day in Hd. apply bind_inv in Hd as (us & st0 & Hms & Hd).
    apply bind_inv in Hd as (total & st0' & Ht & Hd). apply lift_inv in Ht as [Ht ->].
    injection Hd as <- <-.
    apply scale_meals_through in Hms as [Hthrough Hst0].
    apply IH in Hrest as (Hthrough' & Hst2 & Hplan).
    split; [|split].
    + unfold plan_refs. cbn [map concat]. by apply (scaled_through_app f _ _ _ (store st0)).
    + rewrite Hst2 at 1. rewrite Hst0 at 1. done.
    + constructor; [|done]. cbn. by repeat split.
Qed.

Lemma scaled_through_rescaled (f : Binary64.float) (L : list loc)
    (σ σ' : list Recipe) :
  scaled_through f L σ σ' -> rescaled_store L σ σ'.
Proof.
  induction 1 as [σ|l L σ r r' σ' Hr Hs _ IH]; [apply rescaled_store_refl|].
  apply (rescaled_store_trans [l] L σ (<[l := r']> σ) σ'); [|done].
  destruct (scale_recipe_frame f r r' Hs) as (Hn & Hi & Hp & Ht & Hnn).
  pose proof (lookup_lt_Some _ _ _ Hr) as Hlt.
  split; [by rewrite length_insert|]. split; [|split].
  - intros l0 r0 Hr0. destruct (decide (l0 = l)) as [->|Hne].
    + rewrite list_lookup_insert_eq by done.
      rewrite Hr in Hr0. injection Hr0 as <-. by exists r'.
    + rewrite list_lookup_insert_ne by done. by exists r0.
  - intros l0 Hl. apply list_lookup_insert_ne. intros <-. apply Hl.
    by apply list_elem_of_singleton.
  - intros l0 r0 Hl Hr0. apply list_elem_of_singleton in Hl as ->.
    rewrite list_lookup_insert_eq in Hr0 by done. by injection Hr0 as <-.
Qed.

Lemma int_true_div_inv (a b : Z) (x : Binary64.float) :
  Binary64.int_true_div a b = Ok x ->
  b <> 0 /\ x = Binary64.Finite (Binary64.round (inject_Z a / inject_Z b)).
Proof.
  unfold Binary64.int_true_div. destruct (b =? 0) eqn:Hb; [done|].
  apply Z.eqb_neq in Hb. unfold Binary64.rounded. cbv zeta.
  destruct (Qle_bool _ _); [done|]. intros H. by injection H as <-.
Qed.

(** What [_optimize_with_ai] has done when it returns: nothing when the
    weekly total is not positive; otherwise it has scaled every total by the
    factor [target * 7 / total] and written through every reference of the
    plan, in the order of the days and of the slots. *)
Lemma optimize_inv (plan plan' : WeeklyPlan) (prefs : Preferences) (st st' : State) :
  _optimize_with_ai plan prefs st = Ok (plan', st') ->
  (total_weekly plan <= 0 /\ plan' = plan /\ st' = st)
  \/ (0 < total_weekly plan
      /\ exists f,
           Binary64.int_true_div (default 2000 (calorie_target prefs) * 7)
             (total_weekly plan) = Ok (Binary64.Finite f)
           /\ scaled_through (Binary64.Finite f) (plan_refs plan) (store st) (store st')
           /\ st' = with_store st (store st')
           /\ rescaled_plan (Binary64.Finite f) plan plan').
Proof.
  unfold _optimize_with_ai. destruct (0 <? total_weekly plan) eqn:Hpos.
  - apply Z.ltb_lt in Hpos. intros H. right. split; [done|].
    apply bind_inv in H as (x & st1 & Hf & H). apply lift_inv in Hf as [Hf ->].
    destruct (int_true_div_inv _ _ _ Hf) as [_ ->].
    eexists. split; [exact Hf|]. by apply scale_days_through.
  - apply Z.ltb_ge in Hpos. intros H. injection H as <- <-. by left.
Qed.

(** The frame of the normaliser, when it returns: the plan keeps its days,
    meals and scores; when it scales, every recipe object keeps its name,
    ingredients, preparation time and type, the objects the plan does not
    refer to are untouched, and the objects it refers to hold nutrient
    values that are not negative. *)
Lemma normalisation_frame (plan plan' : WeeklyPlan) (prefs : Preferences)
    (st st' : State) :
  _optimize_with_ai plan prefs st = Ok (plan', st') ->
  st' = with_store st (store st')
  /\ length (store st') = length (store st)
  /\ map (fun d : string * DayPlan => (d.1, meals d.2)) plan'
     = map (fun d : string * DayPlan => (d.1, meals d.2)) plan
  /\ scores plan' = scores plan
  /\ (total_weekly plan <= 0 -> plan' = plan /\ st' = st)
  /\ (0 < total_weekly plan ->
      rescaled_store (plan_refs plan) (store st) (store st')).
Proof.
  intros H. apply optimize_inv in H as [(Hle & -> & ->)|(Hpos & f & Hf & Ht & Hst & Hp)].
  - split; [by rewrite with_store_same|]. split; [done|]. split; [done|].
    split; [done|]. split; [done | lia].
  - split; [done|].
    split; [by destruct (scaled_through_rescaled _ _ _ _ Ht) as [Hlen _]|].
    assert (map (fun d : string * DayPlan => (d.1, meals d.2)) plan'
            = map (fun d : string * DayPlan => (d.1, meals d.2)) plan
            /\ scores plan' = scores plan) as [Hm Hs].
    { clear -Hp. induction Hp as [|d d' plan plan' (H1 & H2 & H3 & H4 & _) _ [IH1 IH2]];
        [done|].
      unfold scores in *. cbn. rewrite IH1, IH2, H1, H2, H3, H4. done. }
    split; [done|]. split; [done|]. split; [lia|].
    intros _. by apply (scaled_through_rescaled (Binary64.Finite f)).
Qed.

(** *** When a scaling returns *)

Lemma float_range_pow2 : (inject_Z float_range == Binary64.pow2 1022)%Q.
Proof. unfold float_range. symmetry. by apply pow2_nonneg_exp. Qed.

Lemma Qabs_inject_Z (n : Z) : Qabs (inject_Z n) = inject_Z (Z.abs n).
Proof. reflexivity. Qed.

Lemma of_int_finite (n : Z) :
  Z.abs n <= float_range ->
  Binary64.of_int n = Ok (Binary64.Finite (Binary64.round (inject_Z n)))
  /\ (Qabs (Binary64.round (inject_Z n)) <= 2 * inject_Z (Z.abs n))%Q.
Proof.
  intros Hn. split.
  - unfold Binary64.of_int. rewrite rounded_finite; [done|].
    rewrite Qabs_inject_Z, <- float_range_pow2. by rewrite <- Zle_Qle.
  - rewrite <- Qabs_inject_Z. apply round_abs_le.
Qed.

Lemma Qabs_div_int (a b : Z) :
  b <> 0 -> (Qabs (inject_Z a / inject_Z b) <= inject_Z (Z.abs a))%Q.
Proof.
  intros Hb. destruct b as [|p|p]; [done| |];
    unfold Qle, Qabs, Qdiv, Qmult, Qinv, inject_Z; cbn; nia.
Qed.

Lemma int_true_div_finite (a b : Z) :
  b <> 0 -> Z.abs a <= float_range ->
  Binary64.int_true_div a b
  = Ok (Binary64.Finite (Binary64.round (inject_Z a / inject_Z b)))
  /\ (Qabs (Binary64.round (inject_Z a / inject_Z b)) <= 2 * inject_Z (Z.abs a))%Q.
Proof.
  intros Hb Ha. pose proof (Qabs_div_int a b Hb) as Hq. split.
  - unfold Binary64.int_true_div. apply Z.eqb_neq in Hb. rewrite Hb.
    rewrite rounded_finite; [done|]. rewrite <- float_range_pow2.
    eapply Qle_trans; [exact Hq|]. by rewrite <- Zle_Qle.
  - eapply Qle_trans; [apply round_abs_le|]. lra.
Qed.

Lemma int_of_product_returns (n F N : Z) (f : Q) :
  1 <= F -> Z.abs n <= N -> (Qabs f <= inject_Z F)%Q -> 4 * N * F <= float_range ->
  exists z, Binary64.int_of_product n (Binary64.Finite f) = Ok z
    /\ Z.abs z <= 4 * N * F.
Proof.
  intros HF Hn Hf Hrange.
  assert (Z.abs n <= float_range) as Hn' by nia.
  destruct (of_int_finite n Hn') as [Ex Hx].
  set (x := Binary64.round (inject_Z n)) in *.
  assert (Qabs (x * f) <= inject_Z (2 * N * F))%Q as Hxf.
  { rewrite Qabs_Qmult. rewrite !inject_Z_mult.
    apply Qle_trans with (2 * inject_Z (Z.abs n) * inject_Z F)%Q.
    - apply Qmult_le_compat_nonneg; split;
        [apply Qabs_nonneg | done | apply Qabs_nonneg | done].
    - apply Qmult_le_compat_r; [|by rewrite <- (Zle_Qle 0); lia].
      apply Qmult_le_l; [reflexivity|]. by rewrite <- Zle_Qle. }
  assert (Binary64.mul (Binary64.Finite x) (Binary64.Finite f)
          = Binary64.Finite (Binary64.round (x * f))) as Em.
  { cbn [Binary64.mul]. apply rounded_finite. rewrite <- float_range_pow2.
    eapply Qle_trans; [exact Hxf|]. rewrite <- Zle_Qle. lia. }
  destruct (to_int_spec (Binary64.round (x * f))) as [z [Ez [_ Hz]]].
  exists z. split.
  - unfold Binary64.int_of_product. rewrite Ex. cbn [and_then]. by rewrite Em.
  - rewrite Zle_Qle. eapply Qle_trans; [exact Hz|].
    eapply Qle_trans; [apply round_abs_le|].
    replace (4 * N * F) with (2 * (2 * N * F)) by lia.
    rewrite (inject_Z_mult 2). apply Qmult_le_l; [reflexivity | done].
Qed.

Lemma scale_field_returns (F B : Z) (f : Q) (v : option Z) :
  1 <= F -> (Qabs f <= inject_Z F)%Q -> field_le B v -> 4 * B * F <= float_range ->
  exists v', scale_field (Binary64.Finite f) v = Ok v' /\ field_le (4 * B * F) v'.
Proof.
  intros HF Hf Hv Hrange. unfold field_le in *. destruct v as [z|]; cbn in *.
  - destruct (int_of_product_returns z F B f HF Hv Hf Hrange) as [z' [Ez Hz]].
    exists (Some (Z.max 0 z')). unfold scale_value. rewrite Ez. cbn. split; [done | lia].
  - exists None. cbn. split; [done | lia].
Qed.

Lemma scale_recipe_returns (F B : Z) (f : Q) (r : Recipe) :
  1 <= F -> (Qabs f <= inject_Z F)%Q -> recipe_le B r -> 4 * B * F <= float_range ->
  exists r', scale_recipe (Binary64.Finite f) r = Ok r' /\ recipe_le (4 * B * F) r'.
Proof.
  intros HF Hf (Hc & Hp & Hcb & Hft) Hrange.
  destruct (scale_field_returns F B f _ HF Hf Hc Hrange) as [c [Ec Hc']].
  destruct (scale_field_returns F B f _ HF Hf Hp Hrange) as [p [Ep Hp']].
  destruct (scale_field_returns F B f _ HF Hf Hcb Hrange) as [cb [Ecb Hcb']].
  destruct (scale_field_returns F B f _ HF Hf Hft Hrange) as [ft [Eft Hft']].
  eexists. unfold scale_recipe. rewrite Ec, Ep, Ecb, Eft. cbn [and_then].
  split; [reflexivity|]. by repeat split.
Qed.

Lemma recipe_le_mono (B B' : Z) (r : Recipe) :
  B <= B' -> recipe_le B r -> recipe_le B' r.
Proof. unfold recipe_le, field_le. intros HB (? & ? & ? & ?). repeat split; lia. Qed.

Lemma pow_ge_1 (g : Z) (n : nat) : 1 <= g -> 1 <= g ^ Z.of_nat n.
Proof.
  intros Hg. induction n as [|n IH]; [done|].
  rewrite Nat2Z.inj_succ, Z.pow_succ_r by lia. nia.
Qed.

Lemma scale_meals_returns (F : Z) (f : Q) (ms : list (MealSlot * loc))
    (R : list loc) (st : State) (B : Z) :
  1 <= F -> (Qabs f <= inject_Z F)%Q -> 0 <= B ->
  valid_locs st (map snd ms) ->
  refs_le B (store st) (map snd ms ++ R) ->
  (4 * F) ^ Z.of_nat (length ms) * B <= float_range ->
  exists us st',
    mapM (scale_meal (Binary64.Finite f)) ms st = Ok (us, st')
    /\ length (store st') = length (store st)
    /\ refs_le ((4 * F) ^ Z.of_nat (length ms) * B) (store st') R.
Proof.
  intros HF Hf. revert st B. induction ms as [|m ms IH]; intros st B HB Hv Hle Hrange.
  - exists [], st. split; [done|]. split; [done|].
    cbn [length Z.of_nat]. rewrite Z.pow_0_r, Z.mul_1_l. exact Hle.
  - cbn [map] in Hv. apply valid_locs_cons in Hv as [[r Hr] Hms].
    cbn [map app] in Hle. apply Forall_cons in Hle as [Hhead Hrest].
    cbn [length] in Hrange. rewrite Nat2Z.inj_succ, Z.pow_succ_r in Hrange by lia.
    pose proof (pow_ge_1 (4 * F) (length ms) ltac:(lia)) as Hpow.
    assert (4 * B * F <= float_range) as Hstep by nia.
    destruct (scale_recipe_returns F B f r HF Hf (Hhead r Hr) Hstep) as [r' [Er Hr']].
    set (st1 := with_store st (<[m.2 := r']> (store st))).
    assert (scale_meal (Binary64.Finite f) m st = Ok (tt, st1)) as Em.
    { unfold scale_meal. rewrite (bind_ok _ _ _ _ _ (deref_ok _ _ _ Hr)).
      rewrite (bind_ok _ _ _ _ _ (lift_ok _ _ _ Er)). unfold write. by rewrite Hr. }
    assert (length (store st1) = length (store st)) as Hlen
      by (cbn; by rewrite length_insert).
    destruct (IH st1 (4 * B * F)) as [us [st2 [E2 [L2 R2]]]].
    + nia.
    + by apply (valid_locs_same_length st).
    + eapply Forall_impl; [exact Hrest|]. intros l Hl r0 Hr0. cbn in Hr0.
      destruct (decide (l = m.2)) as [->|Hne].
      * rewrite list_lookup_insert_eq in Hr0 by (by eapply lookup_lt_Some).
        by injection Hr0 as <-.
      * rewrite list_lookup_insert_ne in Hr0 by done.
        apply (recipe_le_mono B); [nia | by apply Hl].
    + nia.
    + exists (tt :: us), st2. split; [|split; [lia|]].
      * cbn [mapM]. by rewrite (bind_ok _ _ _ _ _ Em), (bind_ok _ _ _ _ _ E2).
      * cbn [length]. rewrite Nat2Z.inj_succ, Z.pow_succ_r by lia.
        by replace (4 * F * (4 * F) ^ Z.of_nat (length ms) * B)
          with ((4 * F) ^ Z.of_nat (length ms) * (4 * B * F)) by lia.
Qed.

Lemma scale_days_returns (F D : Z) (f : Q) (plan : WeeklyPlan) (st : State) (B : Z) :
  1 <= F -> (Qabs f <= inject_Z F)%Q -> 0 <= B ->
  plan_valid st plan ->
  refs_le B (store st) (plan_refs plan) ->
  Forall (fun d : string * DayPlan => Z.abs (total_calories d.2) <= D) plan ->
  4 * D * F <= float_range ->
  (4 * F) ^ Z.of_nat (length (plan_refs plan)) * B <= float_range ->
  exists plan' st', scale_days (Binary64.Finite f) plan st = Ok (plan', st').
Proof.
  intros HF Hf. revert st B.
  induction plan as [|[day dp] plan IH]; intros st B HB Hv Hle HD HDr Hrange.
  - by exists [], st.
  - apply Forall_cons in Hv as [Hd Hplan]. cbn [snd] in Hd.
    apply Forall_cons in HD as [Hday HD]. cbn [snd] in Hday.
    unfold plan_refs in Hle, Hrange. cbn [map concat snd] in Hle, Hrange.
    fold (plan_refs plan) in Hle, Hrange.
    rewrite length_app, Nat2Z.inj_add, Z.pow_add_r in Hrange by lia.
    pose proof (pow_ge_1 (4 * F) (length (plan_refs plan)) ltac:(lia)) as Hpow.
    pose proof (pow_ge_1 (4 * F) (length (meals dp)) ltac:(lia)) as Hpow'.
    rewrite length_map in Hrange.
    destruct (scale_meals_returns F f (meals dp) (plan_refs plan) st B HF Hf HB Hd Hle)
      as [us [st1 [E1 [L1 R1]]]]; [nia|].
    destruct (int_of_product_returns (total_calories dp) F D f HF Hday Hf HDr)
      as [total [Et _]].
    destruct (IH st1 ((4 * F) ^ Z.of_nat (length (meals dp)) * B))
      as [rest' [st2 E2]]; [nia| | done | done | done | nia |].
    { eapply Forall_impl; [exact Hplan|]. intros d. by apply valid_locs_same_length. }
    eexists _, st2. cbn [scale_days]. unfold scale_day, bind.
    rewrite E1. cbv beta iota. unfold lift. rewrite Et. cbv beta iota.
    unfold ret at 1. by rewrite E2.
Qed.

(** On a moderate plan, [_optimize_with_ai] returns. *)
Lemma optimize_returns (plan : WeeklyPlan) (prefs : Preferences) (st : State) :
  plan_valid st plan -> moderate st plan prefs ->
  exists plan' st', _optimize_with_ai plan prefs st = Ok (plan', st').
Proof.
  intros Hv (Ht & Hn & Hle & HD). unfold _optimize_with_ai.
  destruct (0 <? total_weekly plan) eqn:Hpos; [|by eexists _, _].
  apply Z.ltb_lt in Hpos.
  set (T := default 2000 (calorie_target prefs) * 7) in *.
  assert (Z.abs T <= 7 * 10 ^ 9) as HT by (unfold T; lia).
  destruct (int_true_div_finite T (total_weekly plan)) as [Ef Hf]; [lia| |].
  { unfold float_range. etrans; [exact HT|]. by vm_compute. }
  set (f := Binary64.round (inject_Z T / inject_Z (total_weekly plan))) in *.
  unfold true_div. rewrite (bind_ok _ _ _ _ _ (lift_ok _ _ _ Ef)).
  apply (scale_days_returns (14 * 10 ^ 9) (3 * 10 ^ 9) f plan st (10 ^ 9));
    [lia | | lia | done | done | done | by vm_compute |].
  - eapply Qle_trans; [exact Hf|]. rewrite <- (inject_Z_mult 2), <- Zle_Qle. lia.
  - etrans; [apply Z.mul_le_mono_nonneg_r; [lia|];
             apply (Z.pow_le_mono_r _ _ 21); lia|].
    by vm_compute.
Qed.

(** *** How near the scaled totals are *)

Lemma Qmult_le_compat_l (x y z : Q) : (0 <= z)%Q -> (x <= y)%Q -> (z * x <= z * y)%Q.
Proof. intros Hz Hxy. rewrite !(Qmult_comm z). by apply Qmult_le_compat_r. Qed.

Lemma approx_round (q : Q) :
  (q == 0)%Q \/ (Binary64.pow2 (-1022) <= Qabs q)%Q ->
  approx (Binary64.pow2 (-53)) (Binary64.round q) q.
Proof.
  unfold approx. intros [H0|Hn]; [|by apply round_error].
  rewrite (round_zero q H0). rewrite H0. apply Qmult_le_0_compat; [|done].
  apply Qlt_le_weak, pow2_pos.
Qed.

Lemma approx_mul (ε1 ε2 a' a b' b : Q) :
  (0 <= ε1)%Q -> (0 <= ε2)%Q -> approx ε1 a' a -> approx ε2 b' b ->
  approx (ε1 + ε2 + ε1 * ε2) (a' * b') (a * b).
Proof.
  unfold approx. intros H1 H2 Ha Hb.
  assert (a' * b' - a * b == (a' - a) * b + (a * (b' - b) + (a' - a) * (b' - b)))%Q
    as -> by ring.
  eapply Qle_trans; [apply Qabs_triangle|].
  eapply Qle_trans; [apply Qplus_le_r, Qabs_triangle|].
  rewrite !Qabs_Qmult.
  pose proof (Qabs_nonneg a). pose proof (Qabs_nonneg b).
  pose proof (Qabs_nonneg (a' - a)). pose proof (Qabs_nonneg (b' - b)).
  set (A := Qabs a) in *. set (B := Qabs b) in *.
  set (da := Qabs (a' - a)) in *. set (db := Qabs (b' - b)) in *.
  assert (da * B <= ε1 * A * B)%Q by (apply Qmult_le_compat_r; done).
  assert (A * db <= A * (ε2 * B))%Q by (apply Qmult_le_compat_l; done).
  assert (da * db <= (ε1 * A) * (ε2 * B))%Q
    by (apply Qmult_le_compat_nonneg; split; done).
  lra.
Qed.

Lemma approx_trans (ε1 ε2 x'' x' x : Q) :
  (0 <= ε1)%Q -> approx ε1 x'' x' -> approx ε2 x' x ->
  approx (ε1 + ε2 + ε1 * ε2) x'' x.
Proof.
  unfold approx. intros H1 Ha Hb.
  assert (x'' - x == (x'' - x') + (x' - x))%Q as -> by ring.
  eapply Qle_trans; [apply Qabs_triangle|].
  assert (Qabs x' <= Qabs x + Qabs (x' - x))%Q as Hx'.
  { assert (x' == x + (x' - x))%Q as Heq by ring.
    rewrite Heq at 1. apply Qabs_triangle. }
  pose proof (Qabs_nonneg x).
  set (X := Qabs x) in *. set (X' := Qabs x') in *.
  set (d1 := Qabs (x'' - x')) in *. set (d2 := Qabs (x' - x)) in *.
  assert (ε1 * X' <= ε1 * (X + ε2 * X))%Q by (apply Qmult_le_compat_l; [done | lra]).
  lra.
Qed.

Lemma approx_lower (ε x' x : Q) :
  (ε <= 1 # 2)%Q -> approx ε x' x -> ((1 # 2) * Qabs x <= Qabs x')%Q.
Proof.
  unfold approx. intros He Ha.
  assert (Qabs x <= Qabs x' + Qabs (x' - x))%Q as Hx.
  { assert (x == x' + - (x' - x))%Q as Heq by ring.
    rewrite Heq at 1. eapply Qle_trans; [apply Qabs_triangle|].
    rewrite Qabs_opp. apply Qle_refl. }
  pose proof (Qabs_nonneg x).
  set (X := Qabs x) in *. set (d := Qabs (x' - x)) in *.
  assert (ε * X <= (1 # 2) * X)%Q by (apply Qmult_le_compat_r; done).
  lra.
Qed.

Lemma of_int_inv (n : Z) (x : Binary64.float) :
  Binary64.of_int n = Ok x -> x = Binary64.Finite (Binary64.round (inject_Z n)).
Proof.
  unfold Binary64.of_int, Binary64.rounded. cbv zeta.
  destruct (Qle_bool _ _); [done|]. intros H. by injection H as <-.
Qed.

Lemma int_of_product_inv (n z : Z) (f : Q) :
  Binary64.int_of_product n (Binary64.Finite f) = Ok z ->
  Binary64.to_int
    (Binary64.Finite (Binary64.round (Binary64.round (inject_Z n) * f))) = Ok z.
Proof.
  unfold Binary64.int_of_product. intros H. apply and_then_ok in H as [x [Hx H]].
  apply of_int_inv in Hx as ->. cbn [Binary64.mul] in H.
  unfold Binary64.rounded in H. cbv zeta in H.
  by destruct (Qle_bool _ _).
Qed.

Lemma pow2_small (e : Z) : e <= 0 -> (Binary64.pow2 e <= 1)%Q.
Proof. intros H. apply (pow2_le e 0 H). Qed.

Lemma int_normal (d : Z) :
  (inject_Z d == 0)%Q \/ (Binary64.pow2 (-1022) <= Qabs (inject_Z d))%Q.
Proof.
  destruct (Z.eq_dec d 0) as [->|Hd]; [by left|]. right.
  eapply Qle_trans; [apply (pow2_small (-1022)); lia|].
  rewrite Qabs_inject_Z. change 1%Q with (inject_Z 1). rewrite <- Zle_Qle. lia.
Qed.

Lemma quotient_lower (T S : Z) :
  0 < S <= 2 ^ 60 -> T <> 0 ->
  (Binary64.pow2 (-60) <= Qabs (inject_Z T / inject_Z S))%Q.
Proof.
  intros [HS1 HS2] HT. destruct S as [|p|p]; try lia.
  assert (Binary64.pow2 (-60) == 1 # (2 ^ 60))%Q as -> by reflexivity.
  unfold Qle, Qabs, Qdiv, Qmult, Qinv, inject_Z. cbn [Qnum Qden].
  rewrite Z.mul_1_r, Pos.mul_1_l. change (Z.pos (2 ^ 60)) with (2 ^ 60). nia.
Qed.

(** The scaled total of a day is less than 9/8 away from the exact
    [total * target_weekly / total_weekly]. *)
Lemma scaled_total_near (T S d z : Z) (f : Q) :
  0 < S <= 2 ^ 60 ->
  Z.abs (d * T) <= 2 ^ 48 * S ->
  Binary64.int_true_div T S = Ok (Binary64.Finite f) ->
  Binary64.int_of_product d (Binary64.Finite f) = Ok z ->
  (Qabs (inject_Z z - exact_scaled d T S) <= 9 # 8)%Q.
Proof.
  intros HS Hd Hf Hz. unfold exact_scaled.
  apply int_true_div_inv in Hf as [_ Hf]. injection Hf as ->.
  apply int_of_product_inv in Hz.
  set (t := (inject_Z T / inject_Z S)%Q) in *.
  set (x := Binary64.round (inject_Z d)) in *.
  set (u := Binary64.pow2 (-53)).
  assert (0 <= u)%Q as Hu by apply Qlt_le_weak, pow2_pos.
  assert (approx u x (inject_Z d)) as Ax by apply approx_round, int_normal.
  assert (approx u (Binary64.round t) t) as At.
  { apply approx_round. destruct (Z.eq_dec T 0) as [->|HT]; [by left|]. right.
    eapply Qle_trans; [|by apply quotient_lower]. apply pow2_le. lia. }
  pose proof (approx_mul u u _ _ _ _ Hu Hu Ax At) as Am.
  set (e := (inject_Z d * t)%Q) in *.
  assert (Qabs e <= inject_Z (2 ^ 48))%Q as He.
  { unfold e, t. destruct S as [|p|p]; try lia.
    unfold Qle, Qabs, Qdiv, Qmult, Qinv, inject_Z. cbn [Qnum Qden].
    rewrite !Z.mul_1_r, Pos.mul_1_l. lia. }
  assert (approx u (Binary64.round (x * Binary64.round t)) (x * Binary64.round t)) as Ap.
  { apply approx_round. destruct (Qeq_dec e 0) as [H0|Hne].
    - left. unfold approx in Am.
      assert (Qabs (x * Binary64.round t - e) <= 0)%Q as Hz0.
      { eapply Qle_trans; [exact Am|]. rewrite H0. change (Qabs 0) with 0%Q.
        rewrite Qmult_0_r. apply Qle_refl. }
      apply Qabs_Qle_condition in Hz0. lra.
    - right.
      assert (Binary64.pow2 (-60) <= Qabs e)%Q as Hlow.
      { assert (~ (inject_Z d == 0)%Q /\ T <> 0) as [Hd0 HT0].
        { split.
          - intros H0. apply Hne. unfold e. rewrite H0. ring.
          - intros ->. apply Hne. unfold e, t. unfold Qdiv.
            change (inject_Z 0) with 0%Q. ring. }
        unfold e. rewrite Qabs_Qmult.
        pose proof (quotient_lower T S HS HT0) as Hq. fold t in Hq.
        assert (1 <= Qabs (inject_Z d))%Q as H1.
        { rewrite Qabs_inject_Z. change 1%Q with (inject_Z 1). rewrite <- Zle_Qle.
          assert (d <> 0) by (intros ->; by apply Hd0). lia. }
        pose proof (pow2_pos (-60)).
        assert (1 * Binary64.pow2 (-60) <= Qabs (inject_Z d) * Qabs t)%Q
          by (apply Qmult_le_compat_nonneg; split; lra).
        lra. }
      assert (u + u + u * u <= 1 # 2)%Q as Hsmall by (by vm_compute).
      pose proof (approx_lower _ _ _ Hsmall Am) as Hhalf.
      assert (Binary64.pow2 (-1022) <= (1 # 2) * Binary64.pow2 (-60))%Q
        as Hp by (assert ((1 # 2) * Binary64.pow2 (-60) == Binary64.pow2 (-61))%Q
                    as -> by reflexivity; apply pow2_le; lia).
      lra. }
  pose proof (approx_trans u _ _ _ _ Hu Ap Am) as Afinal.
  set (p := Binary64.round (x * Binary64.round t)) in *.
  destruct (to_int_spec p) as [z' [Ez [Hnear _]]].
  rewrite Ez in Hz. injection Hz as ->.
  unfold approx in Afinal.
  assert ((u + (u + u + u * u) + u * (u + u + u * u)) * Qabs e <= 1 # 8)%Q as Hbound.
  { apply Qle_trans with ((1 # 2 ^ 51) * inject_Z (2 ^ 48))%Q; [|by vm_compute].
    apply Qmult_le_compat_nonneg; split;
      [by vm_compute | by vm_compute | apply Qabs_nonneg | done]. }
  assert (inject_Z z - e == (inject_Z z - p) + (p - e))%Q as -> by ring.
  eapply Qle_trans; [apply Qabs_triangle|]. lra.
Qed.

Lemma total_weekly_cons (d : string * DayPlan) (plan : WeeklyPlan) :
  total_weekly (d :: plan) = total_calories d.2 + total_weekly plan.
Proof. reflexivity. Qed.

Lemma scaled_totals_near (T S : Z) (f : Q) (plan plan' : WeeklyPlan) :
  0 < S <= 2 ^ 60 ->
  Binary64.int_true_div T S = Ok (Binary64.Finite f) ->
  Forall (fun d : string * DayPlan => Z.abs (total_calories d.2 * T) <= 2 ^ 48 * S)
         plan ->
  rescaled_plan (Binary64.Finite f) plan plan' ->
  (Qabs (inject_Z (total_weekly plan')
         - inject_Z (total_weekly plan) * (inject_Z T / inject_Z S))
   <= inject_Z (Z.of_nat (length plan)) * (9 # 8))%Q.
Proof.
  intros HS Hf Hall Hp.
  induction Hp as [|d d' plan plan' (_ & _ & _ & _ & Hd) _ IH].
  - cbn. unfold total_weekly, sumZ. cbn. rewrite Qmult_0_l. done.
  - apply Forall_cons in Hall as [Hday Hall]. specialize (IH Hall).
    pose proof (scaled_total_near T S _ _ f HS Hday Hf Hd) as Hnear.
    unfold exact_scaled in Hnear.
    rewrite !total_weekly_cons, !inject_Z_plus. cbn [length].
    rewrite Nat2Z.inj_succ. unfold Z.succ. rewrite inject_Z_plus.
    set (t := (inject_Z T / inject_Z S)%Q) in *.
    assert (inject_Z (total_calories d'.2) + inject_Z (total_weekly plan')
            - (inject_Z (total_calories d.2) + inject_Z (total_weekly plan)) * t
            == (inject_Z (total_calories d'.2) - inject_Z (total_calories d.2) * t)
               + (inject_Z (total_weekly plan') - inject_Z (total_weekly plan) * t))%Q
      as -> by ring.
    eapply Qle_trans; [apply Qabs_triangle|].
    change (inject_Z 1) with 1%Q. lra.
Qed.

(** C2, as amended. On a seven-day plan whose weekly total is zero, [_optimize_with_ai]
    returns the plan and the store as they were.  When the weekly total [S]
    is positive and at most [2^60], and the exact scaled total
    [total * calorie_target * 7 / S] of every day has a magnitude of at most
    [2^48], every plan that [_optimize_with_ai] returns has daily totals whose
    sum is within 7 of [calorie_target * 7]; and it does return on a moderate
    plan (a target and nutrient values of magnitude at most [10^9], at most
    21 meals). *)
Theorem normalised_total_near_target (plan : WeeklyPlan) (prefs : Preferences)
    (st : State) :
  plan_valid st plan ->
  length plan = 7%nat ->
  let T := default 2000 (calorie_target prefs) * 7 in
  let S := total_weekly plan in
  (S = 0 -> _optimize_with_ai plan prefs st = Ok (plan, st))
  /\ (0 < S <= 2 ^ 60 ->
      Forall (fun d : string * DayPlan => Z.abs (total_calories d.2 * T) <= 2 ^ 48 * S)
             plan ->
      (forall plan' st',
         _optimize_with_ai plan prefs st = Ok (plan', st') ->
         Z.abs (total_weekly plan' - T) <= 7)
      /\ (moderate st plan prefs ->
          exists plan' st', _optimize_with_ai plan prefs st = Ok (plan', st'))).
Proof.
  intros Hv Hlen T S. split.
  - intros Hz. unfold _optimize_with_ai. fold S. by rewrite Hz.
  - intros HS Hall. split; [|by apply optimize_returns].
    intros plan' st' E.
    apply optimize_inv in E as [(Hle & _)|(_ & f & Hf & _ & _ & Hp)]; [fold S in Hle; lia|].
    fold T S in Hf.
    pose proof (scaled_totals_near T S f plan plan' HS Hf Hall Hp) as Hnear.
    fold S in Hnear. rewrite Hlen in Hnear.
    assert (inject_Z S * (inject_Z T / inject_Z S) == inject_Z T)%Q as Hexact.
    { field. intros H0. unfold Qeq in H0. cbn in H0. lia. }
    rewrite Hexact in Hnear. unfold Qminus in Hnear.
    rewrite <- inject_Z_opp, <- inject_Z_plus, Qabs_inject_Z in Hnear.
    unfold Qle in Hnear. cbn in Hnear. lia.
Qed.

(** C10. Every plan that [_optimize_with_ai] returns carries, day by day, the
    nutrition and variety scores it had before: the scores computed at
    assembly are kept as they are, whatever the scaling does to the recipes.
    On a moderate plan it returns. *)
Theorem normalisation_keeps_scores (plan : WeeklyPlan) (prefs : Preferences)
    (st : State) :
  plan_valid st plan ->
  (forall plan' st',
     _optimize_with_ai plan prefs st = Ok (plan', st') -> scores plan' = scores plan)
  /\ (moderate st plan prefs ->
      exists plan' st',
        _optimize_with_ai plan prefs st = Ok (plan', st')
        /\ scores plan' = scores plan).
Proof.
  intros Hv.
  assert (forall plan' st',
            _optimize_with_ai plan prefs st = Ok (plan', st') ->
            scores plan' = scores plan) as Hkeep.
  { intros plan' st' E.
    by destruct (normalisation_frame _ _ _ _ _ E) as (_ & _ & _ & Hs & _). }
  split; [exact Hkeep|]. intros Hm.
  destruct (optimize_returns plan prefs st Hv Hm) as [plan' [st' E]].
  exists plan', st'. split; [exact E | by apply (Hkeep plan' st')].
Qed.


(** ** The selector *)

Lemma random_choice_ok (rng : nat -> nat) {A} (l : list A) (st : State) :
  l <> [] ->
  exists x, x ∈ l
    /\ random_choice rng l st =
         Ok (x, mkState (store st) (used_breakfasts st) (used_lunches st)
                        (used_dinners st) (S (draws st))).
Proof.
  intros Hne. unfold random_choice.
  assert (rng (draws st) mod length l < length l)%nat as Hlt.
  { apply Nat.mod_upper_bound. destruct l; [done | cbn; lia]. }
  apply lookup_lt_is_Some in Hlt as [x Hx]. exists x. split.
  - apply list_elem_of_lookup. eauto.
  - by rewrite Hx.
Qed.

Lemma pick_recipe_empty (rng : nat -> nat) (s : MealSlot) (st : State) :
  pick_recipe rng [] s st = Ok (None, st).
Proof. done. Qed.

Lemma pick_recipe_ok (rng : nat -> nat) (pool : list loc) (s : MealSlot)
    (st : State) :
  pool <> [] ->
  valid_locs st pool ->
  exists l r st',
    pick_recipe rng pool s st = Ok (Some l, st')
    /\ (forall s', s' <> s -> used_of s' st' = used_of s' st)
    /\ l ∈ pool /\ store st !! l = Some r
    /\ store st' = store st
    /\ used_of s st' = {[name r]} ∪ used_of s st
    /\ (name r ∈ used_of s st ->
        forall l' r', l' ∈ pool -> store st !! l' = Some r' ->
          name r' ∈ used_of s st).
Proof.
  intros Hne Hv. unfold pick_recipe.
  destruct pool as [|l0 pool0] eqn:Hpool; [done|]. rewrite <- Hpool in *.
  unfold bind at 1, get_used at 1.
  rewrite (bind_ok _ _ _ _ _ (filter_pool_ok _ _ _ Hv)).
  set (U := used_of s st).
  set (cands := kept_of (store st) (fun r => bool_decide (name r ∉ U)) pool).
  assert (exists l r, l ∈ pool /\ store st !! l = Some r
            /\ match cands with
               | _ :: _ => random_choice rng cands
               | [] => random_choice rng pool
               end st
               = Ok (l, mkState (store st) (used_breakfasts st) (used_lunches st)
                                (used_dinners st) (S (draws st)))
            /\ (name r ∈ U ->
                forall l' r', l' ∈ pool -> store st !! l' = Some r' -> name r' ∈ U))
    as [l [r [Hl [Hr [E Hrep]]]]].
  { destruct cands as [|c cs] eqn:Hc.
    - destruct (random_choice_ok rng pool st Hne) as [l [Hl E]].
      destruct (valid_locs_elem _ _ _ Hv Hl) as [r Hr].
      exists l, r. repeat split; try done.
      intros _ l' r' Hl' Hr'. destruct (decide (name r' ∈ U)) as [|Hnot]; [done|].
      assert (l' ∈ cands) as Hin.
      { apply elem_of_kept_of. split; [done|]. exists r'. split; [done|].
        by apply bool_decide_eq_true. }
      rewrite Hc in Hin. by apply elem_of_nil in Hin.
    - destruct (random_choice_ok rng (c :: cs) st ltac:(done)) as [l [Hl E]].
      rewrite <- Hc in Hl. apply elem_of_kept_of in Hl as [Hl [r [Hr Hfresh]]].
      apply bool_decide_eq_true in Hfresh.
      exists l, r. repeat split; try done. }
  rewrite (bind_ok _ _ _ _ _ E).
  rewrite (bind_ok _ _ _ _ _
             (deref_ok (mkState (store st) (used_breakfasts st) (used_lunches st)
                                (used_dinners st) (S (draws st))) l r Hr)).
  unfold bind, add_used, ret.
  eexists l, r, _. split; [reflexivity|].
  destruct s; cbn; repeat split; try done;
    intros s' Hs'; by destruct s'.
Qed.

Lemma pick_or_fallback_ok (rng : nat -> nat) (pools : RecipeDb) (s : MealSlot)
    (st : State) :
  valid_locs st (pools s) ->
  exists l st',
    pick_or_fallback rng pools s st = Ok (l, st')
    /\ slot_step (pools s) s st l st'.
Proof.
  intros Hv. unfold pick_or_fallback, slot_step.
  destruct (pools s) as [|l0 pool0] eqn:Hpool.
  - rewrite (bind_ok _ _ _ _ _ (pick_recipe_empty rng s st)).
    unfold alloc. eexists _, _. split; [reflexivity|]. cbn.
    split; [by intros s' _; destruct s'|]. repeat split; by destruct s.
  - destruct (pick_recipe_ok rng (l0 :: pool0) s st ltac:(done) Hv)
      as [l [r [st' [E [Hoth [Hl [Hr [Hst [Hu Hrep]]]]]]]]].
    rewrite (bind_ok _ _ _ _ _ E). exists l, st'. split; [done|].
    split; [done|]. exists r. by repeat split.
Qed.

Lemma extends_refl (st : State) : extends st st.
Proof. exists []. by rewrite app_nil_r. Qed.

Lemma extends_trans (st1 st2 st3 : State) :
  extends st1 st2 -> extends st2 st3 -> extends st1 st3.
Proof.
  intros [e1 H1] [e2 H2]. exists (e1 ++ e2)%list.
  by rewrite H2, H1, <- app_assoc.
Qed.

Lemma extends_lookup (st st' : State) (l : loc) (r : Recipe) :
  extends st st' -> store st !! l = Some r -> store st' !! l = Some r.
Proof. intros [ext ->] Hr. by apply lookup_app_l_Some. Qed.

Lemma extends_lookup_old (st st' : State) (l : loc) (r : Recipe) :
  extends st st' -> is_Some (store st !! l) ->
  store st' !! l = Some r -> store st !! l = Some r.
Proof.
  intros Hext [r0 Hr0] Hr.
  rewrite (extends_lookup _ _ _ _ Hext Hr0) in Hr. congruence.
Qed.

Lemma valid_locs_extends (st st' : State) (ls : list loc) :
  extends st st' -> valid_locs st ls -> valid_locs st' ls.
Proof.
  intros Hext Hv. unfold valid_locs in *.
  eapply Forall_impl; [exact Hv|]. intros l [r Hr].
  exists r. by apply (extends_lookup st).
Qed.

Lemma slot_step_extends (pool : list loc) (s : MealSlot) (st st' : State) (l : loc) :
  slot_step pool s st l st' -> extends st st'.
Proof.
  intros [_ H]. destruct pool.
  - destruct H as [_ [H _]]. by eexists.
  - destruct H as [r [_ [_ [H _]]]]. exists []. by rewrite app_nil_r.
Qed.

Lemma slot_step_lookup (pool : list loc) (s : MealSlot) (st st' : State) (l : loc) :
  slot_step pool s st l st' -> is_Some (store st' !! l).
Proof.
  intros [_ H]. destruct pool.
  - destruct H as [-> [-> _]]. eexists. apply list_lookup_middle. done.
  - destruct H as [r [_ [Hr [-> _]]]]. eauto.
Qed.

Lemma meal_values_ok (st : State) (b l d : loc) (rb rl rd : Recipe) :
  store st !! b = Some rb -> store st !! l = Some rl -> store st !! d = Some rd ->
  meal_values [(breakfast, b); (lunch, l); (dinner, d)] st = Ok ([rb; rl; rd], st).
Proof.
  intros Hb Hl Hd. unfold meal_values, mapM, bind, deref, ret. cbn [snd].
  by rewrite Hb, Hl, Hd.
Qed.

Lemma generate_daily_plan_ok (rng : nat -> nat) (pools : RecipeDb) (i : nat)
    (target : Z) (history_file : option (list HistoryEntry)) (st : State) :
  db_valid st pools ->
  exists dp st',
    _generate_daily_plan rng pools i target history_file st = Ok (dp, st')
    /\ day_step pools (_get_user_meal_history_scores history_file) st dp st'.
Proof.
  intros Hv. unfold _generate_daily_plan.
  destruct (pick_or_fallback_ok rng pools breakfast st (Hv breakfast))
    as [b [st1 [Eb Sb]]].
  pose proof (slot_step_extends _ _ _ _ _ Sb) as X1.
  destruct (pick_or_fallback_ok rng pools lunch st1
              (valid_locs_extends _ _ _ X1 (Hv lunch))) as [l [st2 [El Sl]]].
  pose proof (slot_step_extends _ _ _ _ _ Sl) as X2.
  destruct (pick_or_fallback_ok rng pools dinner st2
              (valid_locs_extends _ _ _ (extends_trans _ _ _ X1 X2) (Hv dinner)))
    as [d [st3 [Ed Sd]]].
  pose proof (slot_step_extends _ _ _ _ _ Sd) as X3.
  destruct (slot_step_lookup _ _ _ _ _ Sb) as [rb Hb].
  destruct (slot_step_lookup _ _ _ _ _ Sl) as [rl Hl].
  destruct (slot_step_lookup _ _ _ _ _ Sd) as [rd Hd].
  apply (extends_lookup _ _ _ _ (extends_trans _ _ _ X2 X3)) in Hb.
  apply (extends_lookup _ _ _ _ X3) in Hl.
  rewrite (bind_ok _ _ _ _ _ Eb), (bind_ok _ _ _ _ _ El), (bind_ok _ _ _ _ _ Ed).
  rewrite (bind_ok _ _ _ _ _ (deref_ok _ _ _ Hb)).
  rewrite (bind_ok _ _ _ _ _ (deref_ok _ _ _ Hl)).
  rewrite (bind_ok _ _ _ _ _ (deref_ok _ _ _ Hd)).
  unfold _calculate_nutrition_score, _calculate_variety_score.
  rewrite (bind_ok _ _ _ _ _ (bind_ok _ _ _ _ _ (meal_values_ok _ _ _ _ _ _ _ Hb Hl Hd))).
  unfold ret at 1.
  rewrite (bind_ok _ _ _ _ _ (bind_ok _ _ _ _ _ (meal_values_ok _ _ _ _ _ _ _ Hb Hl Hd))).
  unfold ret. eexists _, st3. split; [reflexivity|].
  exists b, l, d, st1, st2, rb, rl, rd.
  repeat (split; [eassumption|]). reflexivity.
Qed.

Lemma day_step_extends (pools : RecipeDb) (recent : list (option string))
    (st st' : State) (dp : DayPlan) :
  day_step pools recent st dp st' -> extends st st'.
Proof.
  intros (b & l & d & st1 & st2 & rb & rl & rd & Sb & Sl & Sd & _).
  eapply extends_trans; [by eapply slot_step_extends|].
  eapply extends_trans; by eapply slot_step_extends.
Qed.

Lemma week_steps_extends (pools : RecipeDb) (recent : list (option string))
    (st st' : State) (plan : WeeklyPlan) :
  week_steps pools recent st plan st' -> extends st st'.
Proof.
  induction 1 as [st | st day dp st1 plan st2 Hd _ IH].
  - apply extends_refl.
  - eapply extends_trans; [by eapply day_step_extends | done].
Qed.

Lemma db_valid_extends (st st' : State) (db : RecipeDb) :
  extends st st' -> db_valid st db -> db_valid st' db.
Proof. intros Hext Hv s. by apply (valid_locs_extends st). Qed.

Lemma generate_days_ok (rng : nat -> nat) (pools : RecipeDb) (target : Z)
    (history_file : option (list HistoryEntry)) (ds : list string) (i : nat)
    (st : State) :
  db_valid st pools ->
  exists plan st',
    generate_days rng pools target history_file i ds st = Ok (plan, st')
    /\ map fst plan = ds
    /\ week_steps pools (_get_user_meal_history_scores history_file) st plan st'.
Proof.
  revert i st. induction ds as [|day ds IH]; intros i st Hv.
  - exists [], st. repeat split. constructor.
  - destruct (generate_daily_plan_ok rng pools i target history_file st Hv)
      as [dp [st1 [Ed Sd]]].
    destruct (IH (S i) st1) as [plan [st2 [Ep [Hdays Sp]]]].
    { eapply db_valid_extends; [by eapply day_step_extends | done]. }
    exists ((day, dp) :: plan), st2. cbn [generate_days].
    rewrite (bind_ok _ _ _ _ _ Ed), (bind_ok _ _ _ _ _ Ep).
    split; [done|]. split; [by rewrite <- Hdays|]. by econstructor.
Qed.

(** ** A day and a week, slot by slot *)

Lemma slot_step_view (pools : RecipeDb) (s : MealSlot) (st sta stb st' : State)
    (l : loc) (dp : DayPlan) :
  valid_locs st (pools s) ->
  extends st sta -> used_of s sta = used_of s st ->
  slot_step (pools s) s sta l stb ->
  extends stb st' -> used_of s st' = used_of s stb ->
  meal_at s dp = Some l ->
  slot_outcome pools s st dp st'.
Proof.
  intros Hv Xa Ua [_ Hstep] Xb Ub Hmeal. exists l. split; [done|].
  destruct (pools s) as [|l0 pool0] eqn:Hpool.
  - destruct Hstep as [-> [Hst Hu]]. split; [|congruence].
    apply (extends_lookup stb); [done|]. rewrite Hst.
    by apply list_lookup_middle.
  - destruct Hstep as [r [Hl [Hr [Hst [Hu Hrep]]]]].
    assert (store st !! l = Some r) as Hr0.
    { apply (extends_lookup_old st sta); [done| |done].
      by apply (valid_locs_elem st (l0 :: pool0)). }
    exists r. split; [done|]. split; [done|]. split; [congruence|].
    rewrite <- Ua. intros Hin l' r' Hl' Hr'. apply (Hrep Hin l' r' Hl').
    by apply (extends_lookup st).
Qed.

Lemma day_slot_outcome (pools : RecipeDb) (recent : list (option string))
    (st st' : State) (dp : DayPlan) (s : MealSlot) :
  db_valid st pools ->
  day_step pools recent st dp st' ->
  slot_outcome pools s st dp st'.
Proof.
  intros Hv (b & l & d & st1 & st2 & rb & rl & rd & Sb & Sl & Sd & _ & _ & _ & ->).
  pose proof (slot_step_extends _ _ _ _ _ Sb) as X1.
  pose proof (slot_step_extends _ _ _ _ _ Sl) as X2.
  pose proof (slot_step_extends _ _ _ _ _ Sd) as X3.
  pose proof (proj1 Sb) as Ob. pose proof (proj1 Sl) as Ol.
  pose proof (proj1 Sd) as Od.
  destruct s.
  - apply (slot_step_view pools breakfast st st st1 st' b); try done.
    + apply extends_refl.
    + by eapply extends_trans.
    + rewrite Od, Ol; done.
  - apply (slot_step_view pools lunch st st1 st2 st' l); try done.
    by rewrite Ob.
    by rewrite Od.
  - apply (slot_step_view pools dinner st st2 st' st' d); try done.
    + by eapply extends_trans.
    + rewrite Ol, Ob; done.
    + apply extends_refl.
Qed.

Lemma day_step_complete (pools : RecipeDb) (recent : list (option string))
    (st st' stF : State) (dp : DayPlan) :
  day_step pools recent st dp st' -> extends st' stF ->
  day_complete (store stF) dp.
Proof.
  intros (b & l & d & st1 & st2 & rb & rl & rd & _ & _ & _ & Hb & Hl & Hd & ->) X.
  exists b, l, d, rb, rl, rd.
  repeat split; try done; by apply (extends_lookup st').
Qed.

Lemma week_steps_complete (pools : RecipeDb) (recent : list (option string))
    (st st' : State) (plan : WeeklyPlan) :
  week_steps pools recent st plan st' ->
  forall stF, extends st' stF ->
  Forall (fun d : string * DayPlan => day_complete (store stF) d.2) plan.
Proof.
  induction 1 as [st | st day dp st1 plan st2 Hd Hw IH]; intros stF X.
  - constructor.
  - constructor; [|by apply IH].
    apply (day_step_complete pools recent st st1 stF dp Hd).
    eapply extends_trans; [by eapply week_steps_extends | done].
Qed.

Lemma elem_of_names_of (σ : list Recipe) (ls : list loc) (n : string) :
  n ∈ names_of σ ls <-> exists l r, l ∈ ls /\ σ !! l = Some r /\ name r = n.
Proof.
  unfold names_of. rewrite list_elem_of_omap. split.
  - intros [l [Hl Hn]]. destruct (σ !! l) as [r|] eqn:Hr; [|done].
    exists l, r. cbn in Hn. by injection Hn as <-.
  - intros [l [r [Hl [Hr <-]]]]. exists l. by rewrite Hr.
Qed.

Lemma names_of_extends (st st' : State) (ls : list loc) :
  extends st st' -> valid_locs st ls ->
  names_of (store st') ls = names_of (store st) ls.
Proof.
  intros X Hv. induction ls as [|l ls IH]; [done|].
  apply valid_locs_cons in Hv as [[r Hr] Hls]. unfold names_of in *.
  cbn [omap list_omap]. rewrite Hr, (extends_lookup _ _ _ _ X Hr).
  cbn. by rewrite IH.
Qed.

Lemma names_of_length (st : State) (ls : list loc) :
  valid_locs st ls -> length (names_of (store st) ls) = length ls.
Proof.
  intros Hv. induction ls as [|l ls IH]; [done|].
  apply valid_locs_cons in Hv as [[r Hr] Hls]. unfold names_of in *.
  cbn [omap list_omap]. rewrite Hr. cbn. by rewrite IH.
Qed.

Lemma slot_outcome_recipe (pools : RecipeDb) (s : MealSlot) (st st' stF : State)
    (dp : DayPlan) :
  slot_outcome pools s st dp st' -> extends st st' -> extends st' stF ->
  exists r, recipe_at (store stF) s dp = Some r
    /\ match pools s with
       | [] => r = _create_fallback_meal s "vegetarian"
               /\ used_of s st' = used_of s st
       | _ :: _ =>
           name r ∈ names_of (store st) (pools s)
           /\ used_of s st' = {[name r]} ∪ used_of s st
           /\ (name r ∈ used_of s st ->
               forall m, m ∈ names_of (store st) (pools s) -> m ∈ used_of s st)
       end.
Proof.
  intros [l [Hmeal Hout]] X XF. unfold recipe_at. rewrite Hmeal.
  destruct (pools s) as [|l0 pool0] eqn:Hpool.
  - destruct Hout as [Hl Hu]. eexists. split; [|done].
    by apply (extends_lookup st').
  - destruct Hout as [r [Hl [Hr [Hu Hrep]]]]. exists r. split.
    { apply (extends_lookup st'); [done|]. by apply (extends_lookup st). }
    split; [|split; [done|]].
    + apply elem_of_names_of. by exists l, r.
    + intros Hin m Hm. apply elem_of_names_of in Hm as [l' [r' [Hl' [Hr' <-]]]].
      by apply (Hrep Hin l' r').
Qed.

(** The picks of a slot with a pool avoid repeats as long as they can. *)
Lemma week_steps_avoiding (pools : RecipeDb) (recent : list (option string))
    (s : MealSlot) (st st' : State) (plan : WeeklyPlan) :
  week_steps pools recent st plan st' ->
  db_valid st pools -> pools s <> [] ->
  forall stF, extends st' stF ->
  length (slot_names (store stF) s plan) = length plan
  /\ avoiding (names_of (store st) (pools s)) (used_of s st)
       (slot_names (store stF) s plan).
Proof.
  induction 1 as [st | st day dp st1 plan st2 Hd Hw IH]; intros Hv Hne stF XF.
  - done.
  - pose proof (day_step_extends _ _ _ _ _ Hd) as X1.
    pose proof (week_steps_extends _ _ _ _ _ Hw) as X2.
    destruct (slot_outcome_recipe pools s st st1 stF dp
                (day_slot_outcome pools recent st st1 dp s Hv Hd) X1
                (extends_trans _ _ _ X2 XF)) as [r [Hr Hout]].
    destruct (IH (db_valid_extends _ _ _ X1 Hv) Hne stF XF) as [Hlen Hav].
    rewrite (names_of_extends st st1 _ X1 (Hv s)) in Hav.
    destruct (pools s) as [|l0 pool0] eqn:Hpool; [done|].
    destruct Hout as [Hin [Hu Hrep]]. rewrite Hu in Hav.
    unfold slot_names in *. cbn [omap list_omap snd]. rewrite Hr. cbn.
    split; [by rewrite Hlen|]. done.
Qed.

(** The slot of an empty pool holds the placeholder every day, and its used
    set does not move. *)
Lemma week_steps_fallback (pools : RecipeDb) (recent : list (option string))
    (s : MealSlot) (st st' : State) (plan : WeeklyPlan) :
  week_steps pools recent st plan st' ->
  db_valid st pools -> pools s = [] ->
  forall stF, extends st' stF ->
  used_of s st' = used_of s st
  /\ Forall (fun d : string * DayPlan =>
               recipe_at (store stF) s d.2
               = Some (_create_fallback_meal s "vegetarian")) plan.
Proof.
  induction 1 as [st | st day dp st1 plan st2 Hd Hw IH]; intros Hv He stF XF.
  - done.
  - pose proof (day_step_extends _ _ _ _ _ Hd) as X1.
    pose proof (week_steps_extends _ _ _ _ _ Hw) as X2.
    destruct (slot_outcome_recipe pools s st st1 stF dp
                (day_slot_outcome pools recent st st1 dp s Hv Hd) X1
                (extends_trans _ _ _ X2 XF)) as [r [Hr Hout]].
    destruct (IH (db_valid_extends _ _ _ X1 Hv) He stF XF) as [Hu Hall].
    rewrite He in Hout. destruct Hout as [-> Hu1].
    split; [congruence|]. by constructor.
Qed.

(** ** Sequences of picks *)

Lemma avoiding_repeat (P : list string) (picks : list string) :
  forall (U : gset string) (k : nat) (n : string),
  avoiding P U picks ->
  picks !! k = Some n ->
  n ∈ U \/ n ∈ take k picks ->
  forall m, m ∈ P -> m ∈ U \/ m ∈ take k picks.
Proof.
  induction picks as [|a rest IH]; intros U k n Hav Hk Hn m Hm; [done|].
  destruct Hav as [Ha [Hrep Hav]]. destruct k as [|k].
  - cbn in Hk. injection Hk as ->. cbn in Hn. destruct Hn as [Hn|Hn].
    + left. by apply Hrep.
    + by apply elem_of_nil in Hn.
  - cbn in Hk. cbn [take] in *.
    assert (n ∈ {[a]} ∪ U \/ n ∈ take k rest) as Hn'.
    { destruct Hn as [Hn|Hn]; [left; set_solver|].
      apply elem_of_cons in Hn as [->|Hn]; [left; set_solver | by right]. }
    destruct (IH ({[a]} ∪ U) k n Hav Hk Hn' m Hm) as [Hin|Hin].
    + apply elem_of_union in Hin as [Hin|Hin]; [|by left].
      apply elem_of_singleton in Hin as ->. right. apply elem_of_cons. by left.
    + right. apply elem_of_cons. by right.
Qed.

Lemma avoiding_NoDup (P : list string) (picks : list string) :
  forall U : gset string,
  avoiding P U picks ->
  (size U + length picks <= size (list_to_set P : gset string))%nat ->
  NoDup picks /\ forall n, n ∈ picks -> n ∉ U.
Proof.
  induction picks as [|a rest IHrest]; intros U Hav Hsize.
  - split; [constructor | intros n Hn; by apply elem_of_nil in Hn].
  - destruct Hav as [Ha [Hrep Hav]]. cbn [length] in Hsize.
    assert (a ∉ U) as HaU.
    { intros Hin.
      assert ((list_to_set P : gset string) ⊆ U) as Hsub.
      { intros m Hm. apply elem_of_list_to_set in Hm. by apply Hrep. }
      apply subseteq_size in Hsub. lia. }
    assert (size ({[a]} ∪ U) = S (size U)) as Hs.
    { rewrite size_union by (by apply disjoint_singleton_l).
      by rewrite size_singleton. }
    destruct (IHrest ({[a]} ∪ U) Hav ltac:(lia)) as [Hnd Hfresh].
    split.
    + constructor; [|done]. intros Hin. apply (Hfresh a Hin).
      apply elem_of_union. left. by apply elem_of_singleton.
    + intros n Hn. apply elem_of_cons in Hn as [->|Hn]; [done|].
      intros HU. apply (Hfresh n Hn). apply elem_of_union. by right.
Qed.

(** ** Loading the catalog and assembling the week *)

Lemma mapM_alloc_ok (rs : list Recipe) (st : State) :
  mapM alloc rs st =
    Ok (seq (length (store st)) (length rs),
        mkState (store st ++ rs) (used_breakfasts st) (used_lunches st)
                (used_dinners st) (draws st)).
Proof.
  revert st. induction rs as [|r rs IH]; intros st.
  - cbn. rewrite app_nil_r. by destruct st.
  - cbn [mapM]. unfold bind at 1, alloc at 1. rewrite (bind_ok _ _ _ _ _ (IH _)).
    cbn. rewrite length_app, <- app_assoc. cbn. unfold ret.
    by rewrite Nat.add_1_r.
Qed.



Lemma kept_of_valid (st : State) (cond : Recipe -> bool) (pool : list loc) :
  valid_locs st pool -> valid_locs st (kept_of (store st) cond pool).
Proof.
  unfold valid_locs, kept_of. rewrite !Forall_forall. intros Hv l Hl.
  apply list_elem_of_In, filter_In in Hl as [Hl _].
  by apply Hv, list_elem_of_In.
Qed.

Lemma pools_of_at (σ : list Recipe) (db : RecipeDb) (prefs : Preferences)
    (s : MealSlot) :
  pools_of σ db prefs s
  = kept_of σ (keeps (default "vegetarian" (diet_type prefs))
                     (default [] (allergies prefs))) (db s).
Proof. by destruct s. Qed.

Lemma pools_of_valid (st : State) (db : RecipeDb) (prefs : Preferences) :
  db_valid st db -> db_valid st (pools_of (store st) db prefs).
Proof. intros Hv s. rewrite pools_of_at. by apply kept_of_valid. Qed.

Lemma assemble_week_ok (rng : nat -> nat) (db : RecipeDb) (prefs : Preferences)
    (history_file : option (list HistoryEntry)) (st : State) :
  db_valid st db ->
  exists plan st',
    assemble_week rng db prefs history_file st = Ok (plan, st')
    /\ map fst plan = days
    /\ week_steps (pools_of (store st) db prefs)
         (_get_user_meal_history_scores history_file)
         (mkState (store st) ∅ ∅ ∅ (draws st)) plan st'.
Proof.
  intros Hv. unfold assemble_week, filtered_pools.
  assert (db_valid (mkState (store st) ∅ ∅ ∅ (draws st)) db) as Hv0 by exact Hv.
  unfold bind, fresh_used, ret.
  rewrite (filter_pool_ok _ _ _ (Hv0 breakfast)).
  rewrite (filter_pool_ok _ _ _ (Hv0 lunch)).
  rewrite (filter_pool_ok _ _ _ (Hv0 dinner)).
  apply (generate_days_ok rng (pools_of (store st) db prefs)).
  apply (pools_of_valid _ db prefs Hv0).
Qed.

Lemma week_plan_length (plan : WeeklyPlan) :
  map fst plan = days -> length plan = 7%nat.
Proof. intros H. by rewrite <- (length_map fst), H. Qed.

(** C3. The loop over the seven days picks seven names for a slot.  When
    the filtered pool of the slot has at least seven recipes, with names
    that differ from each other (the data model), the seven names differ
    from each other.  For every pool, the name of a day is one of the names
    of the days before only if every name of the pool is among them. *)
Theorem picks_avoid_repeats (rng : nat -> nat) (db : RecipeDb)
    (prefs : Preferences) (history_file : option (list HistoryEntry))
    (st : State) (s : MealSlot) :
  db_valid st db ->
  exists plan st',
    assemble_week rng db prefs history_file st = Ok (plan, st')
    /\ let pool := pools_of (store st) db prefs s in
       let picks := slot_names (store st') s plan in
       length picks = 7%nat
       /\ ((7 <= length pool)%nat -> NoDup (names_of (store st) pool) -> NoDup picks)
       /\ (forall k n, picks !! k = Some n -> n ∈ take k picks ->
             forall m, m ∈ names_of (store st) pool -> m ∈ take k picks).
Proof.
  intros Hv.
  destruct (assemble_week_ok rng db prefs history_file st Hv)
    as [plan [st' [E [Hdays Hw]]]].
  exists plan, st'. split; [done|]. cbv zeta.
  pose proof (week_plan_length plan Hdays) as Hlen.
  pose proof (pools_of_valid _ db prefs Hv) as Hpv.
  destruct (pools_of (store st) db prefs s) as [|l0 pool0] eqn:Hpool.
  - destruct (week_steps_fallback _ _ s _ _ _ Hw Hpv Hpool st' (extends_refl st'))
      as [_ Hall].
    split; [|split].
    + rewrite <- Hlen. clear -Hall. unfold slot_names.
      induction Hall as [|d plan Hd _ IH]; [done|].
      cbn [omap list_omap]. rewrite Hd. cbn. by rewrite IH.
    + cbn. lia.
    + intros k n _ _ m Hm. by apply elem_of_nil in Hm.
  - destruct (week_steps_avoiding _ _ s _ _ _ Hw Hpv ltac:(by rewrite Hpool)
                st' (extends_refl st')) as [Hl Hav].
    rewrite Hpool in Hav. cbn [store] in Hav.
    replace (used_of s _) with (∅ : gset string) in Hav by (by destruct s).
    split; [lia | split].
    + intros Hseven Hnd.
      apply (avoiding_NoDup _ _ ∅ Hav).
      rewrite size_empty, size_list_to_set by done.
      rewrite (names_of_length st) by (rewrite <- Hpool; apply (Hpv s)).
      lia.
    + intros k n Hk Hn m Hm.
      destruct (avoiding_repeat _ _ ∅ k n Hav Hk (or_intror Hn) m Hm) as [H|H];
        [by apply elem_of_empty in H | done].
Qed.

(** ** Completeness of the generated plan *)


Lemma day_complete_valid (st : State) (plan : WeeklyPlan) :
  Forall (fun d : string * DayPlan => day_complete (store st) d.2) plan ->
  plan_valid st plan.
Proof.
  intros H. eapply Forall_impl; [exact H|].
  intros d (b & l & d' & rb & rl & rd & Hms & Hb & Hl & Hd & _).
  rewrite Hms. cbn. repeat constructor; eauto.
Qed.


(** *** The sizes of the values of an assembled plan *)

Lemma fallback_le (B : Z) (s : MealSlot) (diet : string) :
  300 <= B -> recipe_le B (_create_fallback_meal s diet).
Proof. intros HB. unfold recipe_le, field_le. cbn. lia. Qed.

Lemma refs_le_elem (B : Z) (σ : list Recipe) (L : list loc) (l : loc) (r : Recipe) :
  refs_le B σ L -> l ∈ L -> σ !! l = Some r -> recipe_le B r.
Proof. unfold refs_le. rewrite Forall_forall. intros H Hl Hr. by apply (H l). Qed.

Lemma slot_step_le (B : Z) (pool : list loc) (s : MealSlot) (st0 st st' : State)
    (l : loc) :
  300 <= B ->
  slot_step pool s st l st' -> extends st0 st ->
  valid_locs st0 pool -> refs_le B (store st0) pool ->
  exists r, store st' !! l = Some r /\ recipe_le B r.
Proof.
  intros HB [_ H] X Hv Hle. destruct pool as [|l0 pool0].
  - destruct H as (-> & -> & _). eexists. split; [by apply list_lookup_middle|].
    by apply fallback_le.
  - destruct H as (r & Hl & Hr & -> & _). exists r. split; [done|].
    apply (refs_le_elem B (store st0) (l0 :: pool0) l); [done | done|].
    apply (extends_lookup_old st0 st); [done | by apply (valid_locs_elem st0 (l0 :: pool0)) | done].
Qed.

Lemma day_step_le (B : Z) (pools : RecipeDb) (recent : list (option string))
    (st0 st st' stF : State) (dp : DayPlan) :
  400 <= B ->
  day_step pools recent st dp st' -> extends st0 st -> extends st' stF ->
  db_valid st0 pools -> (forall s, refs_le B (store st0) (pools s)) ->
  refs_le B (store stF) (map snd (meals dp))
  /\ Z.abs (total_calories dp) <= 3 * B.
Proof.
  intros HB (b & l & d & st1 & st2 & rb & rl & rd & Sb & Sl & Sd & Hb & Hl & Hd & ->)
    X XF Hv Hle.
  pose proof (slot_step_extends _ _ _ _ _ Sb) as X1.
  pose proof (slot_step_extends _ _ _ _ _ Sl) as X2.
  pose proof (slot_step_extends _ _ _ _ _ Sd) as X3.
  destruct (slot_step_le B _ _ st0 _ _ _ ltac:(lia) Sb X (Hv breakfast) (Hle breakfast))
    as [rb' [Hb' Lb]].
  destruct (slot_step_le B _ _ st0 _ _ _ ltac:(lia) Sl (extends_trans _ _ _ X X1)
              (Hv lunch) (Hle lunch)) as [rl' [Hl' Ll]].
  destruct (slot_step_le B _ _ st0 _ _ _ ltac:(lia) Sd
              (extends_trans _ _ _ X (extends_trans _ _ _ X1 X2))
              (Hv dinner) (Hle dinner)) as [rd' [Hd' Ld]].
  assert (rb' = rb) as ->.
  { pose proof (extends_lookup _ _ _ _ (extends_trans _ _ _ X2 X3) Hb'). congruence. }
  assert (rl' = rl) as ->.
  { pose proof (extends_lookup _ _ _ _ X3 Hl'). congruence. }
  assert (rd' = rd) as -> by congruence.
  split.
  - cbn [meals map snd]. unfold refs_le.
    repeat (apply Forall_cons; split); [| | |by apply Forall_nil];
      intros r Hr.
    + pose proof (extends_lookup _ _ _ _ XF Hb). congruence.
    + pose proof (extends_lookup _ _ _ _ XF Hl). congruence.
    + pose proof (extends_lookup _ _ _ _ XF Hd). congruence.
  - cbn [total_calories].
    destruct Lb as [Lb _], Ll as [Ll _], Ld as [Ld _]. unfold field_le in *.
    destruct (calories rb), (calories rl), (calories rd); cbn in *; lia.
Qed.

Lemma week_steps_le (B : Z) (pools : RecipeDb) (recent : list (option string))
    (st0 st st' : State) (plan : WeeklyPlan) :
  400 <= B ->
  week_steps pools recent st plan st' -> extends st0 st ->
  db_valid st0 pools -> (forall s, refs_le B (store st0) (pools s)) ->
  forall stF, extends st' stF ->
  refs_le B (store stF) (plan_refs plan)
  /\ Forall (fun d : string * DayPlan => Z.abs (total_calories d.2) <= 3 * B) plan.
Proof.
  intros HB Hw. revert st0.
  induction Hw as [st | st day dp st1 plan st2 Hd Hw IH]; intros st0 X Hv Hle stF XF.
  - split; constructor.
  - pose proof (day_step_extends _ _ _ _ _ Hd) as X1.
    pose proof (week_steps_extends _ _ _ _ _ Hw) as X2.
    destruct (day_step_le B pools recent st0 st st1 stF dp HB Hd X
                (extends_trans _ _ _ X2 XF) Hv Hle) as [Hr Ht].
    destruct (IH st0 (extends_trans _ _ _ X X1) Hv Hle stF XF) as [Hrs Hts].
    split; [|by constructor].
    unfold plan_refs. cbn [map concat snd]. by apply Forall_app.
Qed.

Lemma refs_le_kept (B : Z) (σ : list Recipe) (cond : Recipe -> bool) (pool : list loc) :
  refs_le B σ pool -> refs_le B σ (kept_of σ cond pool).
Proof.
  unfold refs_le, kept_of. rewrite !Forall_forall. intros H l Hl.
  apply list_elem_of_In, filter_In in Hl as [Hl _]. by apply H, list_elem_of_In.
Qed.



Lemma plan_refs_length (σ : list Recipe) (plan : WeeklyPlan) :
  Forall (fun d : string * DayPlan => day_complete σ d.2) plan ->
  length (plan_refs plan) = (3 * length plan)%nat.
Proof.
  induction 1 as [|d plan (b & l & dd & rb & rl & rd & Hm & _) _ IH]; [done|].
  unfold plan_refs in *. cbn [map concat]. rewrite length_app, IH, Hm. cbn. lia.
Qed.

(** A week assembled from a catalog with moderate values is moderate. *)
Lemma assembled_moderate (rng : nat -> nat) (db : RecipeDb) (prefs : Preferences)
    (history_file : option (list HistoryEntry)) (st st' : State) (plan : WeeklyPlan) :
  db_valid st db ->
  Z.abs (default 2000 (calorie_target prefs)) <= 10 ^ 9 ->
  (forall s, refs_le (10 ^ 9) (store st) (db s)) ->
  assemble_week rng db prefs history_file st = Ok (plan, st') ->
  plan_valid st' plan /\ moderate st' plan prefs.
Proof.
  intros Hv Ht Hle E.
  destruct (assemble_week_ok rng db prefs history_file st Hv)
    as [plan0 [st0 [E0 [Hdays Hw]]]].
  rewrite E in E0. injection E0 as <- <-.
  pose proof (week_steps_complete _ _ _ _ _ Hw st' (extends_refl st')) as Hc.
  split; [by apply day_complete_valid|].
  destruct (week_steps_le (10 ^ 9) _ _ (mkState (store st) ∅ ∅ ∅ (draws st)) _ _ _
              ltac:(lia) Hw (extends_refl _) (pools_of_valid _ db prefs Hv)) with (stF := st')
    as [Hr Hts].
  { intros s. rewrite pools_of_at. by apply refs_le_kept. }
  { apply extends_refl. }
  split; [done|]. split; [|by split].
  rewrite (plan_refs_length _ _ Hc), (week_plan_length plan Hdays). lia.
Qed.

(** *** The placeholders of an empty pool in the returned plan *)

Lemma extends_length (st st' : State) :
  extends st st' -> (length (store st) <= length (store st'))%nat.
Proof. intros [ext ->]. rewrite length_app. lia. Qed.

Lemma scaled_through_split (f : Binary64.float) (L1 L2 : list loc)
    (σ σ' : list Recipe) :
  scaled_through f (L1 ++ L2) σ σ' ->
  exists σ1, scaled_through f L1 σ σ1 /\ scaled_through f L2 σ1 σ'.
Proof.
  revert σ. induction L1 as [|l L1 IH]; intros σ H.
  - exists σ. split; [constructor | exact H].
  - cbn [app] in H. inversion H as [|? ? ? r r' ? Hl Hs Hrest]; subst.
    destruct (IH _ Hrest) as [σ1 [H1 H2]].
    exists σ1. split; [by econstructor | exact H2].
Qed.

(** The object behind a reference that the plan holds once is scaled
    once. *)
Lemma scaled_through_once (f : Binary64.float) (L1 L2 : list loc) (l : loc)
    (σ σ' : list Recipe) (r : Recipe) :
  scaled_through f (L1 ++ l :: L2) σ σ' ->
  l ∉ L1 -> l ∉ L2 -> σ !! l = Some r ->
  exists r', scale_recipe f r = Ok r' /\ σ' !! l = Some r'.
Proof.
  intros H Hn1 Hn2 Hr.
  destruct (scaled_through_split _ _ _ _ _ H) as [σ1 [H1 H2]].
  destruct (scaled_through_rescaled _ _ _ _ H1) as (_ & _ & Hout1 & _).
  inversion H2 as [|? ? ? r0 r' ? Hl Hs Hrest]; subst.
  rewrite (Hout1 l Hn1), Hr in Hl. injection Hl as <-.
  destruct (scaled_through_rescaled _ _ _ _ Hrest) as (_ & _ & Hout2 & _).
  exists r'. split; [exact Hs|].
  rewrite (Hout2 l Hn2). apply list_lookup_insert_eq.
  apply lookup_lt_is_Some. rewrite (Hout1 l Hn1), Hr. by eexists.
Qed.

(** The reference of a slot step is live after the step; it is a reference
    of the catalog or the new object of the step. *)
Lemma slot_step_ref (pool : list loc) (s : MealSlot) (st0 st st' : State) (l : loc) :
  slot_step pool s st l st' -> valid_locs st0 pool -> extends st0 st ->
  (l < length (store st'))%nat
  /\ ((l < length (store st0))%nat \/ (length (store st) <= l)%nat)
  /\ (pool = [] ->
      l = length (store st) /\ length (store st') = S (length (store st))
      /\ store st' !! l = Some (_create_fallback_meal s "vegetarian")).
Proof.
  intros [_ H] Hv X. destruct pool as [|l0 pool0].
  - destruct H as (-> & Hst & _). rewrite Hst, length_app. cbn [length].
    split; [lia|]. split; [right; lia|]. intros _.
    split; [done|]. split; [lia|]. by apply list_lookup_middle.
  - destruct H as (r & Hl & Hr & Hst & _). rewrite Hst.
    split; [by eapply lookup_lt_Some|].
    split; [|discriminate]. left.
    apply lookup_lt_is_Some. by apply (valid_locs_elem st0 (l0 :: pool0)).
Qed.

Lemma day_step_refs (pools : RecipeDb) (recent : list (option string))
    (st0 st st' : State) (dp : DayPlan) :
  day_step pools recent st dp st' -> db_valid st0 pools -> extends st0 st ->
  Forall (fun l => (l < length (store st'))%nat
                   /\ ((l < length (store st0))%nat \/ (length (store st) <= l)%nat))
         (map snd (meals dp))
  /\ (forall s, pools s = [] ->
        exists l L1 L2,
          meal_at s dp = Some l /\ map snd (meals dp) = (L1 ++ l :: L2)%list
          /\ (l ∉ L1) /\ (l ∉ L2)
          /\ (length (store st) <= l < length (store st'))%nat
          /\ store st' !! l = Some (_create_fallback_meal s "vegetarian")).
Proof.
  intros (b & l & d & st1 & st2 & rb & rl & rd & Sb & Sl & Sd & Hb & Hl & Hd & ->)
    Hv X.
  pose proof (slot_step_extends _ _ _ _ _ Sb) as X1.
  pose proof (slot_step_extends _ _ _ _ _ Sl) as X2.
  pose proof (slot_step_extends _ _ _ _ _ Sd) as X3.
  pose proof (extends_length _ _ X) as N0.
  pose proof (extends_length _ _ X1) as N1.
  pose proof (extends_length _ _ X2) as N2.
  pose proof (extends_length _ _ X3) as N3.
  destruct (slot_step_ref _ _ st0 _ _ _ Sb (Hv breakfast) X) as (Bl & Bo & Be).
  destruct (slot_step_ref _ _ st0 _ _ _ Sl (Hv lunch) (extends_trans _ _ _ X X1))
    as (Ll & Lo & Le).
  destruct (slot_step_ref _ _ st0 _ _ _ Sd (Hv dinner)
              (extends_trans _ _ _ X (extends_trans _ _ _ X1 X2)))
    as (Dl & Do & De).
  split.
  - cbn [meals map snd].
    repeat (apply Forall_cons; split); [| | |by apply Forall_nil]; lia.
  - intros s Hs. destruct s.
    + destruct (Be Hs) as (Eb & Nb & Fb).
      exists b, [], [l; d]. split; [reflexivity|]. split; [reflexivity|].
      split; [apply not_elem_of_nil|].
      split; [rewrite !not_elem_of_cons; repeat split;
              [lia | lia | apply not_elem_of_nil]|].
      split; [lia|].
      apply (extends_lookup _ _ _ _ (extends_trans _ _ _ X2 X3) Fb).
    + destruct (Le Hs) as (El & Nl & Fl).
      exists l, [b], [d]. split; [reflexivity|]. split; [reflexivity|].
      split; [rewrite !not_elem_of_cons; split; [lia | apply not_elem_of_nil]|].
      split; [rewrite !not_elem_of_cons; split; [lia | apply not_elem_of_nil]|].
      split; [lia|].
      apply (extends_lookup _ _ _ _ X3 Fl).
    + destruct (De Hs) as (Ed & Nd & Fd).
      exists d, [b; l], []. split; [reflexivity|]. split; [reflexivity|].
      split; [rewrite !not_elem_of_cons; repeat split;
              [lia | lia | apply not_elem_of_nil]|].
      split; [apply not_elem_of_nil|].
      split; [lia | exact Fd].
Qed.

(** In the week assembled from pools of which the one of [s] is empty, the
    reference that a day holds for [s] is held nowhere else in the plan, and
    a placeholder is behind it. *)
Lemma week_steps_refs (pools : RecipeDb) (recent : list (option string))
    (st0 st st' : State) (plan : WeeklyPlan) :
  week_steps pools recent st plan st' -> db_valid st0 pools -> extends st0 st ->
  Forall (fun l => (l < length (store st'))%nat
                   /\ ((l < length (store st0))%nat \/ (length (store st) <= l)%nat))
         (plan_refs plan)
  /\ (forall s, pools s = [] ->
        forall i day dp, plan !! i = Some (day, dp) ->
          exists l L1 L2,
            meal_at s dp = Some l /\ plan_refs plan = (L1 ++ l :: L2)%list
            /\ (l ∉ L1) /\ (l ∉ L2) /\ (length (store st) <= l)%nat
            /\ store st' !! l = Some (_create_fallback_meal s "vegetarian")).
Proof.
  intros Hw Hv. induction Hw as [st | st day dp st1 plan st2 Hd Hw IH]; intros X.
  - split; [constructor|]. intros s _ i day dp Hi. destruct i; discriminate Hi.
  - pose proof (day_step_extends _ _ _ _ _ Hd) as X1.
    pose proof (week_steps_extends _ _ _ _ _ Hw) as X2.
    pose proof (extends_length _ _ X) as N0.
    pose proof (extends_length _ _ X1) as N1.
    pose proof (extends_length _ _ X2) as N2.
    destruct (day_step_refs _ _ st0 _ _ _ Hd Hv X) as [Hday Hfresh].
    destruct (IH (extends_trans _ _ _ X X1)) as [Hrest Hlater].
    assert (plan_refs ((day, dp) :: plan)
            = (map snd (meals dp) ++ plan_refs plan)%list) as Hrefs by reflexivity.
    split.
    + rewrite Hrefs. apply Forall_app. split.
      * eapply Forall_impl; [exact Hday|]. intros l0 Hl0. cbn beta in *. lia.
      * eapply Forall_impl; [exact Hrest|]. intros l0 Hl0. cbn beta in *. lia.
    + intros s Hs i day' dp' Hi. destruct i as [|i].
      * injection Hi as <- <-.
        destruct (Hfresh s Hs) as (l & L1 & L2 & Hm & Hsplit & Hn1 & Hn2 & Hb & Hf).
        exists l, L1, (L2 ++ plan_refs plan)%list.
        split; [exact Hm|].
        split; [by rewrite Hrefs, Hsplit, <- app_assoc|].
        split; [exact Hn1|]. split.
        { rewrite not_elem_of_app. split; [exact Hn2|]. intros Hin.
          rewrite Forall_forall in Hrest. specialize (Hrest l Hin). lia. }
        split; [lia|]. apply (extends_lookup _ _ _ _ X2 Hf).
      * cbn [lookup list_lookup] in Hi.
        destruct (Hlater s Hs i day' dp' Hi)
          as (l & L1 & L2 & Hm & Hsplit & Hn1 & Hn2 & Hb & Hf).
        exists l, (map snd (meals dp) ++ L1)%list, L2.
        split; [exact Hm|].
        split; [by rewrite Hrefs, Hsplit, <- app_assoc|].
        split.
        { rewrite not_elem_of_app. split; [|exact Hn1]. intros Hin.
          rewrite Forall_forall in Hday. specialize (Hday l Hin). lia. }
        split; [exact Hn2|]. split; [lia | exact Hf].
Qed.

(** C9, as amended. When the filtered pool of a slot is empty, the week is
    assembled and
    every one of its seven days holds in that slot a placeholder of
    [_create_fallback_meal] (300 kcal, 15 g protein, 40 g carbs, 8 g fat,
    15 minutes, two generic ingredients, the name of the slot); the used set
    of the slot is empty when the loop ends.  In the plan that
    [generate_personalized_plan] returns, the seven days hold in that slot
    one and the same recipe: the placeholder itself when the total of the
    week is not positive, and otherwise the placeholder scaled once by the
    adjustment factor, with the name, the ingredients, the preparation time
    and the type of the placeholder.  The plan is returned when the target
    and the nutrient values of the catalog have a magnitude of at most
    [10^9].  The placeholder of main_agent.py, served for a slot whose
    filtered list is empty, has 10 g of protein and 10 minutes. *)
Theorem empty_pool_gives_fallback (rng : nat -> nat) (db : RecipeDb)
    (prefs : Preferences) (history_file : option (list HistoryEntry))
    (st : State) (s : MealSlot) :
  db_valid st db ->
  pools_of (store st) db prefs s = [] ->
  let fallback := _create_fallback_meal s "vegetarian" in
  (exists plan0 st0,
     assemble_week rng db prefs history_file st = Ok (plan0, st0)
     /\ length plan0 = 7%nat
     /\ Forall (fun d : string * DayPlan =>
                  recipe_at (store st0) s d.2 = Some fallback) plan0
     /\ name fallback = "Fallback " ++ PyStr.title (slot_key s)
     /\ calories fallback = Some 300 /\ protein fallback = Some 15
     /\ carbs fallback = Some 40 /\ fat fallback = Some 8
     /\ prep_time fallback = Some 15
     /\ ingredients fallback = Some [("basic_food", 100); ("vegetables", 50)]
     /\ used_of s st0 = ∅
     /\ (forall plan st',
           generate_personalized_plan rng db prefs history_file st = Ok (plan, st') ->
           length plan = 7%nat /\ used_of s st' = ∅
           /\ exists served,
                Forall (fun d : string * DayPlan =>
                          recipe_at (store st') s d.2 = Some served) plan
                /\ name served = name fallback
                /\ ingredients served = ingredients fallback
                /\ prep_time served = prep_time fallback
                /\ type served = type fallback
                /\ ((total_weekly plan0 <= 0 /\ served = fallback)
                    \/ (0 < total_weekly plan0
                        /\ exists adjustment_factor,
                             Binary64.int_true_div
                               (default 2000 (calorie_target prefs) * 7)
                               (total_weekly plan0) = Ok adjustment_factor
                             /\ scale_recipe adjustment_factor fallback = Ok served)))
     /\ (Z.abs (default 2000 (calorie_target prefs)) <= 10 ^ 9 ->
         (forall s', refs_le (10 ^ 9) (store st) (db s')) ->
         exists plan st',
           generate_personalized_plan rng db prefs history_file st = Ok (plan, st')))
  /\ (forall diet st1,
        SimpleMealGenerator.filtered_recipes diet
          (SimpleMealGenerator.create_sample_recipes s) st1 = Ok ([], st1) ->
        exists r,
          SimpleMealGenerator.select_meal rng diet s st1 = Ok ((r, 300), st1)
          /\ name r = "Simple " ++ slot_key s
          /\ calories r = Some 300 /\ protein r = Some 10 /\ carbs r = Some 40
          /\ fat r = Some 8 /\ prep_time r = Some 10
          /\ ingredients r = Some [("basic_food", 100)]).
Proof.
  intros Hv Hempty fallback. split.
  2:{ intros diet st1 E. eexists. split.
      - unfold SimpleMealGenerator.select_meal. rewrite (bind_ok _ _ _ _ _ E).
        reflexivity.
      - by repeat split. }
  destruct (assemble_week_ok rng db prefs history_file st Hv)
    as [plan0 [st0 [Ea [Hdays Hw]]]].
  pose proof (week_plan_length _ Hdays) as Hlen.
  pose proof (pools_of_valid _ db prefs Hv) as Hpv.
  destruct (week_steps_fallback _ _ s _ _ _ Hw Hpv Hempty st0 (extends_refl st0))
    as [Hu Hall].
  assert (used_of s st0 = ∅) as Hu0 by (rewrite Hu; by destruct s).
  exists plan0, st0. split; [exact Ea|]. split; [exact Hlen|].
  split; [exact Hall|]. do 7 (split; [reflexivity|]). split; [exact Hu0|].
  split.
  2:{ intros Ht Hle.
      destruct (assembled_moderate rng db prefs history_file st st0 plan0 Hv Ht Hle Ea)
        as [Hpl Hmod].
      destruct (optimize_returns plan0 prefs st0 Hpl Hmod) as [plan [st' Eo]].
      exists plan, st'. unfold generate_personalized_plan.
      by rewrite (bind_ok _ _ _ _ _ Ea). }
  intros plan st' Eg. unfold generate_personalized_plan in Eg.
  rewrite (bind_ok _ _ _ _ _ Ea) in Eg.
  apply optimize_inv in Eg as [(Hle & -> & ->)|(Hpos & f & Hf & Ht & Hst & Hp)].
  { split; [exact Hlen|]. split; [exact Hu0|]. exists fallback.
    split; [exact Hall|]. do 4 (split; [reflexivity|]). by left. }
  destruct (week_steps_refs _ _ (mkState (store st) ∅ ∅ ∅ (draws st)) _ _ _ Hw Hpv
              (extends_refl _)) as [_ Hrefs].
  specialize (Hrefs s Hempty).
  assert (forall i day dp, plan0 !! i = Some (day, dp) ->
            exists l r', meal_at s dp = Some l
              /\ scale_recipe (Binary64.Finite f) fallback = Ok r'
              /\ store st' !! l = Some r') as Hscaled.
  { intros i day dp Hi.
    destruct (Hrefs i day dp Hi) as (l & L1 & L2 & Hm & Hsplit & Hn1 & Hn2 & _ & Hfb).
    rewrite Hsplit in Ht.
    destruct (scaled_through_once _ _ _ _ _ _ _ Ht Hn1 Hn2 Hfb) as [r' [Hs Hr']].
    by exists l, r'. }
  destruct plan0 as [|[day0 dp0] rest0] eqn:Hplan0; [discriminate Hlen|].
  destruct (Hscaled 0%nat day0 dp0 eq_refl) as (l0 & served & _ & Hserved & _).
  rewrite <- Hplan0 in *.
  split; [by rewrite <- (Forall2_length _ _ _ Hp)|].
  split; [rewrite Hst; rewrite <- Hu0; by destruct s|].
  exists served. split.
  { apply Forall_forall. intros d' Hd'.
    apply list_elem_of_lookup in Hd' as [i Hi].
    destruct (Forall2_lookup_r _ _ _ _ _ Hp Hi) as ([day dp] & Hi0 & _ & Hmeals & _).
    destruct (Hscaled i day dp Hi0) as (l & r' & Hm & Hs & Hr').
    assert (r' = served) as -> by congruence.
    unfold recipe_at, meal_at in *. rewrite Hmeals. cbn [snd] in *.
    by rewrite Hm. }
  destruct (scale_recipe_frame _ _ _ Hserved) as (Hn & Hi & Hpt & Hty & _).
  split; [exact Hn|]. split; [exact Hi|]. split; [exact Hpt|]. split; [exact Hty|].
  right. split; [exact Hpos|]. by exists (Binary64.Finite f).
Qed.

(** C9, counterexample.  Without a recipe file and with the target 2000,
    every pool is empty; the plan that is returned holds for Monday's lunch
    a placeholder with 666 kcal, 33 g of protein, 88 g of carbs and 17 g of
    fat: the normaliser has scaled the 300, 15, 40 and 8 of the placeholder
    by 14000/6300.  The placeholder of main_agent.py has 10 g of protein
    and 10 minutes of preparation. *)
Lemma returned_fallback_is_scaled :
  pools_of (store initial_state) (fun _ => []) (prefs_with_target 2000) lunch = []
  /\ (exists plan st' dp r,
        generate_personalized_plan first_draw (fun _ => []) (prefs_with_target 2000)
          None initial_state = Ok (plan, st')
        /\ plan !! 0%nat = Some ("Monday", dp)
        /\ recipe_at (store st') lunch dp = Some r
        /\ name r = "Fallback Lunch"
        /\ (calories r, protein r, carbs r, fat r)
           = (Some 666, Some 33, Some 88, Some 17)
        /\ calories r <> Some 300 /\ protein r <> Some 15
        /\ carbs r <> Some 40 /\ fat r <> Some 8)
  /\ protein (SimpleMealGenerator.fallback_recipe lunch "vegan") = Some 10
  /\ prep_time (SimpleMealGenerator.fallback_recipe lunch "vegan") = Some 10.
Proof.
  split; [reflexivity|]. split; [|by split].
  eexists _, _, _, _.
  split; [vm_compute; reflexivity|]. split; [reflexivity|].
  split; [reflexivity|]. split; [reflexivity|]. split; [reflexivity|].
  by repeat split.
Qed.


(** ** The two scores of a day *)

Lemma sumZ_nonneg (l : list Z) : Forall (fun x => 0 <= x) l -> 0 <= sumZ l.
Proof. induction 1 as [|x l Hx _ IH]; cbn; [lia|]. unfold sumZ in IH. lia. Qed.

Lemma nutrition_score_of_spec (ms : list Recipe) :
  Forall nonneg_recipe ms -> nutrition_score_of ms = nutrition_score_spec ms.
Proof.
  intros Hnn. unfold nutrition_score_of, nutrition_score_spec.
  assert (forall g : Recipe -> option Z,
            (forall r, nonneg_recipe r -> 0 <= default 0 (g r)) ->
            0 <= sumZ (map (fun m => default 0 (g m)) ms)) as Hsum.
  { intros g Hg. apply sumZ_nonneg, Forall_map.
    eapply Forall_impl; [exact Hnn|]. exact Hg. }
  pose proof (Hsum protein ltac:(by intros r (_ & H & _))) as Hp.
  pose proof (Hsum carbs ltac:(by intros r (_ & _ & H & _))) as Hc.
  pose proof (Hsum fat ltac:(by intros r (_ & _ & _ & H))) as Hf.
  cbv zeta.
  set (p := sumZ (map (fun m => default 0 (protein m)) ms)) in *.
  set (c := sumZ (map (fun m => default 0 (carbs m)) ms)) in *.
  set (f := sumZ (map (fun m => default 0 (fat m)) ms)) in *.
  destruct (0 <? p + c + f) eqn:Hlt, (p + c + f =? 0) eqn:Heq; try done.
  - apply Z.ltb_lt in Hlt. apply Z.eqb_eq in Heq. lia.
  - apply Z.ltb_ge in Hlt. apply Z.eqb_neq in Heq. lia.
Qed.

Lemma fallback_nonneg (s : MealSlot) (diet : string) :
  nonneg_recipe (_create_fallback_meal s diet).
Proof. unfold nonneg_recipe, nonneg_field. cbn. lia. Qed.

Lemma slot_step_nonneg (pool : list loc) (s : MealSlot) (st st' : State) (l : loc) :
  slot_step pool s st l st' ->
  Forall nonneg_recipe (store st) -> Forall nonneg_recipe (store st').
Proof.
  intros [_ H] Hnn. destruct pool.
  - destruct H as [_ [-> _]]. apply Forall_app. split; [done|].
    constructor; [apply fallback_nonneg | constructor].
  - destruct H as [r [_ [_ [-> _]]]]. done.
Qed.

Lemma recipe_at_day (σ : list Recipe) (b l d : loc) (t : Z) (n v : Q) :
  recipe_at σ breakfast (mkDayPlan [(breakfast, b); (lunch, l); (dinner, d)] t n v)
  = σ !! b
  /\ recipe_at σ lunch (mkDayPlan [(breakfast, b); (lunch, l); (dinner, d)] t n v)
     = σ !! l
  /\ recipe_at σ dinner (mkDayPlan [(breakfast, b); (lunch, l); (dinner, d)] t n v)
     = σ !! d.
Proof. done. Qed.

(** C7. The nutrition score of an assembled day is
    [min(10, |ratio - 0.3| * 100)], where [ratio] is the protein of the
    three meals over their protein, carbs and fat, and 0.33 when that sum
    is zero; nutrient values are not negative (data model). *)
Theorem nutrition_score_formula (rng : nat -> nat) (pools : RecipeDb) (i : nat)
    (target : Z) (history_file : option (list HistoryEntry)) (st : State) :
  db_valid st pools ->
  Forall nonneg_recipe (store st) ->
  exists dp st' rb rl rd,
    _generate_daily_plan rng pools i target history_file st = Ok (dp, st')
    /\ recipe_at (store st') breakfast dp = Some rb
    /\ recipe_at (store st') lunch dp = Some rl
    /\ recipe_at (store st') dinner dp = Some rd
    /\ nutrition_score dp = nutrition_score_spec [rb; rl; rd].
Proof.
  intros Hv Hnn.
  destruct (generate_daily_plan_ok rng pools i target history_file st Hv)
    as [dp [st' [E Hd]]].
  destruct Hd as (b & l & d & st1 & st2 & rb & rl & rd
                  & Sb & Sl & Sd & Hb & Hl & Hd & ->).
  eexists _, st', rb, rl, rd. split; [exact E|].
  destruct (recipe_at_day (store st') b l d
              (default 300 (calories rb) + default 400 (calories rl)
               + default 350 (calories rd))
              (nutrition_score_of [rb; rl; rd])
              (variety_score_of [rb; rl; rd]
                 (_get_user_meal_history_scores history_file)))
    as (-> & -> & ->).
  repeat (split; [done|]). cbn [nutrition_score].
  apply nutrition_score_of_spec.
  pose proof (slot_step_nonneg _ _ _ _ _ Sd
                (slot_step_nonneg _ _ _ _ _ Sl
                   (slot_step_nonneg _ _ _ _ _ Sb Hnn))) as Hnn'.
  rewrite Forall_forall in Hnn'.
  repeat constructor; apply Hnn'; apply list_elem_of_lookup; eauto.
Qed.

(** C6, as amended. The variety score of the three meals of a day is
    [min(10, |new| / 3 * 10)]: [new] is the set of the names of the day
    that are not among the recent names the scorer is given, and the
    divisor is the number of meals of the day, 3, also when two meals have
    the same name.  When the three names differ it is the score of the
    specification for the same recent names; on no meal at all the score
    is 5. *)
Theorem variety_score_counts_meals (st : State) (b l d : loc) (rb rl rd : Recipe)
    (recent_list : list (option string)) :
  store st !! b = Some rb -> store st !! l = Some rl -> store st !! d = Some rd ->
  let new_meals : gset (option string) :=
    list_to_set [Some (name rb); Some (name rl); Some (name rd)]
    ∖ list_to_set recent_list in
  _calculate_variety_score [(breakfast, b); (lunch, l); (dinner, d)] recent_list st
  = Ok (Qmin 10 (inject_Z (Z.of_nat (size new_meals)) / inject_Z 3 * 10)%Q, st)
  /\ (NoDup [name rb; name rl; name rd] ->
      Qmin 10 (inject_Z (Z.of_nat (size new_meals)) / inject_Z 3 * 10)%Q
      = variety_score_spec [name rb; name rl; name rd] recent_list)
  /\ variety_score_of [] recent_list = 5%Q.
Proof.
  intros Hb Hl Hd new_meals. split; [|split].
  - unfold _calculate_variety_score.
    by rewrite (bind_ok _ _ _ _ _ (meal_values_ok _ _ _ _ _ _ _ Hb Hl Hd)).
  - intros Hnd. unfold variety_score_spec.
    assert (size (list_to_set (map Some [name rb; name rl; name rd])
                  : gset (option string)) = 3%nat) as Hsize.
    { rewrite size_list_to_set; [done|]. apply (NoDup_fmap_2 Some), Hnd. }
    rewrite Hsize. done.
  - done.
Qed.

(** ** [SimpleMealGenerator] *)

Lemma mapM_total {A B} (f : A -> M B) (P : A -> B -> Prop) (l : list A) :
  (forall a st, exists b st', f a st = Ok (b, st') /\ P a b) ->
  forall st, exists bs st', mapM f l st = Ok (bs, st') /\ Forall2 P l bs.
Proof.
  intros Hf. induction l as [|a l IH]; intros st.
  - exists [], st. split; [done | constructor].
  - destruct (Hf a st) as [b [st1 [E1 Hb]]].
    destruct (IH st1) as [bs [st2 [E2 Hbs]]].
    exists (b :: bs), st2. cbn [mapM].
    rewrite (bind_ok _ _ _ _ _ E1), (bind_ok _ _ _ _ _ E2).
    split; [done | by constructor].
Qed.

Lemma sample_recipes_fields (s : MealSlot) :
  Forall (fun r => is_Some (type r) /\ is_Some (calories r))
         (SimpleMealGenerator.create_sample_recipes s).
Proof. destruct s; repeat constructor; eauto. Qed.






(** ** The code on concrete inputs *)

(** C1. On a catalog with one breakfast and a target of 1700, the plan's
    breakfast of every day is the catalog's own object, and the scaling
    writes to it once per day: the catalog entry, loaded with 250 kcal,
    12 g protein, 40 g carbs and 6 g fat, holds 32000, 1536, 5120 and 768
    when the plan is returned. *)
Theorem catalog_entry_rescaled :
  exists db st1 plan st2,
    _load_recipes oats_only initial_state = Ok (db, st1)
    /\ db breakfast = [0%nat]
    /\ store st1 !! 0%nat = Some masala_oats
    /\ generate_personalized_plan first_draw db (prefs_with_target 1700) None st1
       = Ok (plan, st2)
    /\ map (fun d : string * DayPlan => meal_at breakfast d.2) plan
       = [Some 0%nat; Some 0%nat; Some 0%nat; Some 0%nat; Some 0%nat;
          Some 0%nat; Some 0%nat]
    /\ store st2 !! 0%nat
       = Some (mkRecipe "Masala Oats"
                 (Some [("oats", 50); ("vegetables", 100); ("spices", 10); ("oil", 5)])
                 (Some 32000) (Some 1536) (Some 5120) (Some 768) (Some 15)
                 (Some "vegetarian")).
Proof.
  eexists _, _, _, _.
  split; [vm_compute; reflexivity|].
  split; [reflexivity|]. split; [reflexivity|].
  split; [vm_compute; reflexivity|].
  split; reflexivity.
Qed.

(** C5. Without a recipe file and with a calorie target of -900, the
    returned plan has a total of -900 calories on each of its seven days;
    the nutrient fields of the recipes go through [max(0, _)] and are never
    negative after a scaling. *)
Theorem negative_target_negative_totals :
  (exists plan st',
     run_planner first_draw None (prefs_with_target (-900)) None initial_state
     = Ok (plan, st')
     /\ map (fun d : string * DayPlan => total_calories d.2) plan
        = [-900; -900; -900; -900; -900; -900; -900])
  /\ (forall f v z, scale_value f v = Ok z -> 0 <= z).
Proof.
  split; [|apply scale_value_nonneg].
  eexists _, _. split; [vm_compute; reflexivity | reflexivity].
Qed.

(** C2, counterexample.  Without a recipe file and with a calorie target of
    [2^54 + 2], the assembled week has a total of 6300, which is positive,
    and the normaliser gives every day a total of [2^54 + 4]: the quotient
    of the weekly target by 6300 and the product by 900 are rounded to 53
    bits, where the last bit is worth 4.  The sum of the seven days is 14
    above seven times the target. *)
Lemma normalised_total_far_from_target :
  exists plan0 st0 plan st',
    run_assembly first_draw None (prefs_with_target (2 ^ 54 + 2)) None initial_state
    = Ok (plan0, st0)
    /\ length plan0 = 7%nat
    /\ total_weekly plan0 = 6300
    /\ _optimize_with_ai plan0 (prefs_with_target (2 ^ 54 + 2)) st0 = Ok (plan, st')
    /\ map (fun d : string * DayPlan => total_calories d.2) plan
       = replicate 7 (2 ^ 54 + 4)
    /\ total_weekly plan - (2 ^ 54 + 2) * 7 = 14
    /\ ~ Z.abs (total_weekly plan - (2 ^ 54 + 2) * 7) <= 7.
Proof.
  eexists _, _, _, _.
  split; [vm_compute; reflexivity|]. split; [reflexivity|].
  split; [reflexivity|]. split; [vm_compute; reflexivity|].
  split; [vm_compute; reflexivity|]. split; [vm_compute; reflexivity|].
  intros H. vm_compute in H. by apply H.
Qed.


(** C6, counterexample. On a catalog whose lunch and dinner have the same
    name, and with an empty history, the variety score of Monday is 20/3,
    where the specification has 10. *)
Lemma variety_score_differs_on_shared_name :
  exists plan st' dp,
    run_assembly first_draw khichdi_twice (prefs_with_target 2000) None initial_state
    = Ok (plan, st')
    /\ plan !! 0%nat = Some ("Monday", dp)
    /\ (name <$> recipe_at (store st') breakfast dp,
        name <$> recipe_at (store st') lunch dp,
        name <$> recipe_at (store st') dinner dp)
       = (Some "Masala Oats", Some "Vegetable Khichdi", Some "Vegetable Khichdi")
    /\ (variety_score dp == 20 # 3)%Q
    /\ (variety_score_spec ["Masala Oats"; "Vegetable Khichdi"; "Vegetable Khichdi"]
          (recent_names_spec None "user") == 10)%Q
    /\ ~ (variety_score dp
          == variety_score_spec
               ["Masala Oats"; "Vegetable Khichdi"; "Vegetable Khichdi"]
               (recent_names_spec None "user"))%Q.
Proof.
  eexists _, _, _.
  split; [vm_compute; reflexivity|].
  split; [reflexivity|]. split; [reflexivity|].
  split; [vm_compute; reflexivity|]. split; [vm_compute; reflexivity|].
  intros H. vm_compute in H. discriminate.
Qed.

(** The recent names of the scorer come from the last entries of the
    history file, whoever they belong to: a plan stored for another user
    makes the names of this user's day old. *)
Lemma recent_names_of_all_users :
  _get_user_meal_history_scores others_history
  = [Some "Masala Oats"; Some "Cashew Shake"; Some "Vegetable Khichdi"]
  /\ recent_names_spec others_history "me" = []
  /\ (variety_score_of [masala_oats; cashew_shake; vegetable_khichdi]
        (_get_user_meal_history_scores others_history) == 0)%Q.
Proof. split; [reflexivity|]. split; [reflexivity | vm_compute; reflexivity]. Qed.

(** The placeholder of [SimpleMealGenerator] is another one: 10 g of
    protein and 10 minutes, under the name of the slot in lower case. *)
Lemma simple_fallback_values (s : MealSlot) (diet : string) :
  let r := SimpleMealGenerator.fallback_recipe s diet in
  name r = "Simple " ++ slot_key s
  /\ calories r = Some 300 /\ protein r = Some 10 /\ carbs r = Some 40
  /\ fat r = Some 8 /\ prep_time r = Some 10
  /\ ingredients r = Some [("basic_food", 100)].
Proof. by repeat split. Qed.

(** ** Instances *)

Lemma three_recipes_valid : db_valid three_recipes one_each.
Proof. intros []; repeat constructor; by eexists. Defined.

Lemma same_week_valid : plan_valid three_recipes same_week.
Proof. repeat constructor; by eexists. Defined.

Lemma filter_keeps_iff_witness :
  valid_locs three_recipes [0; 1; 2]%nat
  /\ filter_pool (keeps "vegetarian" ["MILK"]) [0; 1; 2]%nat three_recipes
     = Ok ([0; 2]%nat, three_recipes)
  /\ (1%nat ∈ [0; 2]%nat <->
      1%nat ∈ [0; 1; 2]%nat
      /\ exists r, store three_recipes !! 1%nat = Some r
           /\ (default "vegetarian" (type r) = "vegetarian"
               \/ "vegetarian" = "mixed")
           /\ forall a, a ∈ ["MILK"] ->
                ~ PyStr.occurs_in (PyStr.lower a)
                    (PyStr.lower (Json.dumps (default [] (ingredients r)))))
  /\ ~ PyStr.occurs_in "milk"
         (PyStr.lower (Json.dumps (default [] (ingredients vegetable_khichdi)))).
Proof.
  assert (valid_locs three_recipes [0; 1; 2]%nat) as Hv
    by (repeat constructor; by eexists).
  split; [exact Hv|].
  destruct (filter_keeps_iff three_recipes "vegetarian" ["MILK"] [0; 1; 2]%nat Hv)
    as [kept [E [Hiff Hno]]].
  assert (filter_pool (keeps "vegetarian" ["MILK"]) [0; 1; 2]%nat three_recipes
          = Ok ([0; 2]%nat, three_recipes)) as E'
    by (vm_compute; reflexivity).
  rewrite E' in E. injection E as <-.
  split; [exact E'|]. split; [apply Hiff|].
  apply (Hno 2%nat vegetable_khichdi "MILK").
  - apply list_elem_of_further, list_elem_of_here.
  - reflexivity.
  - apply list_elem_of_here.
Defined.

Lemma same_week_moderate :
  moderate three_recipes same_week (prefs_with_target 2000).
Proof.
  split; [vm_compute; discriminate|]. split; [vm_compute; lia|]. split.
  - apply Forall_forall. intros l _ r Hr.
    destruct l as [|[|[|l]]]; [| | |discriminate Hr];
      injection Hr as <-; unfold recipe_le, field_le; cbn; lia.
  - apply Forall_forall. intros d Hd. unfold same_week in Hd.
    apply list_elem_of_fmap in Hd as [day [-> _]]. cbn. lia.
Defined.

Lemma normalised_total_near_target_witness :
  plan_valid three_recipes same_week /\ length same_week = 7%nat
  /\ exists plan' st',
       _optimize_with_ai same_week (prefs_with_target 2000) three_recipes
       = Ok (plan', st')
       /\ Z.abs (total_weekly plan' - 2000 * 7) <= 7.
Proof.
  split; [exact same_week_valid|]. split; [reflexivity|].
  pose proof (normalised_total_near_target same_week (prefs_with_target 2000)
                three_recipes same_week_valid eq_refl) as H.
  cbv zeta in H. destruct H as [_ H].
  destruct H as [Hnear Hret].
  { vm_compute. split; [reflexivity | discriminate]. }
  { apply Forall_forall. intros d Hd. unfold same_week in Hd.
    apply list_elem_of_fmap in Hd as [day [-> _]]. vm_compute. discriminate. }
  destruct (Hret same_week_moderate) as [plan' [st' E]].
  exists plan', st'. split; [exact E | exact (Hnear _ _ E)].
Defined.

Lemma normalisation_keeps_scores_witness :
  plan_valid three_recipes same_week
  /\ exists plan' st',
       _optimize_with_ai same_week (prefs_with_target 2000) three_recipes
       = Ok (plan', st')
       /\ scores plan' = scores same_week.
Proof.
  split; [exact same_week_valid|].
  destruct (normalisation_keeps_scores same_week (prefs_with_target 2000)
              three_recipes same_week_valid) as [_ H].
  exact (H same_week_moderate).
Defined.


Lemma seven_breakfasts_valid : db_valid seven_breakfasts seven_breakfasts_db.
Proof. intros []; repeat constructor; by eexists. Defined.

Lemma picks_avoid_repeats_witness :
  db_valid seven_breakfasts seven_breakfasts_db
  /\ exists plan st',
       assemble_week first_draw seven_breakfasts_db (prefs_with_target 2000) None
         seven_breakfasts = Ok (plan, st')
       /\ length (slot_names (store st') breakfast plan) = 7%nat
       /\ NoDup (slot_names (store st') breakfast plan).
Proof.
  split; [exact seven_breakfasts_valid|].
  destruct (picks_avoid_repeats first_draw seven_breakfasts_db
              (prefs_with_target 2000) None seven_breakfasts breakfast
              seven_breakfasts_valid) as [plan [st' [E [Hlen [Hnd _]]]]].
  exists plan, st'. split; [exact E|]. split; [exact Hlen|].
  apply Hnd.
  - vm_compute. lia.
  - apply (bool_decide_unpack _). vm_compute. exact I.
Defined.

Lemma empty_pool_gives_fallback_witness :
  db_valid three_recipes breakfast_only
  /\ pools_of (store three_recipes) breakfast_only (prefs_with_target 2000) lunch = []
  /\ exists plan0 st0,
       assemble_week first_draw breakfast_only (prefs_with_target 2000) None
         three_recipes = Ok (plan0, st0)
       /\ length plan0 = 7%nat
       /\ used_of lunch st0 = ∅
       /\ exists plan st' served,
            generate_personalized_plan first_draw breakfast_only
              (prefs_with_target 2000) None three_recipes = Ok (plan, st')
            /\ Forall (fun d : string * DayPlan =>
                         recipe_at (store st') lunch d.2 = Some served) plan
            /\ name served = "Fallback Lunch".
Proof.
  assert (db_valid three_recipes breakfast_only) as Hv
    by (intros []; repeat constructor; by eexists).
  split; [exact Hv|]. split; [reflexivity|].
  pose proof (empty_pool_gives_fallback first_draw breakfast_only
                (prefs_with_target 2000) None three_recipes lunch Hv eq_refl) as H.
  cbv zeta in H.
  destruct H as [(plan0 & st0 & E & Hlen & _ & _ & _ & _ & _ & _ & _ & _ & Hu
                  & Hret & Hex) _].
  exists plan0, st0. split; [exact E|]. split; [exact Hlen|]. split; [exact Hu|].
  destruct Hex as (plan & st' & Eg).
  { vm_compute. discriminate. }
  { intros s'. destruct s'; [|constructor..].
    apply Forall_forall. intros l _ r Hr.
    destruct l as [|[|[|l]]]; [| | |discriminate Hr];
      injection Hr as <-; unfold recipe_le, field_le; cbn; lia. }
  destruct (Hret plan st' Eg) as (_ & _ & served & Hall & Hname & _).
  exists plan, st', served. split; [exact Eg|]. split; [exact Hall|]. exact Hname.
Defined.

Lemma nutrition_score_formula_witness :
  db_valid three_recipes one_each
  /\ Forall nonneg_recipe (store three_recipes)
  /\ exists dp st' rb rl rd,
       _generate_daily_plan first_draw one_each 0 2000 None three_recipes
       = Ok (dp, st')
       /\ recipe_at (store st') breakfast dp = Some rb
       /\ recipe_at (store st') lunch dp = Some rl
       /\ recipe_at (store st') dinner dp = Some rd
       /\ nutrition_score dp = nutrition_score_spec [rb; rl; rd].
Proof.
  assert (Forall nonneg_recipe (store three_recipes)) as Hnn.
  { unfold three_recipes. cbn [store].
    repeat (apply Forall_cons; split); [..|apply Forall_nil];
      unfold nonneg_recipe, nonneg_field; cbn; lia. }
  split; [exact three_recipes_valid|]. split; [exact Hnn|].
  apply (nutrition_score_formula first_draw one_each 0 2000 None three_recipes
           three_recipes_valid Hnn).
Defined.

Lemma variety_score_counts_meals_witness :
  store three_recipes !! 0%nat = Some masala_oats
  /\ store three_recipes !! 1%nat = Some cashew_shake
  /\ store three_recipes !! 2%nat = Some vegetable_khichdi
  /\ _calculate_variety_score [(breakfast, 0%nat); (lunch, 1%nat); (dinner, 2%nat)]
       [Some "Masala Oats"] three_recipes
     = Ok (Qmin 10
             (inject_Z
                (Z.of_nat
                   (size (list_to_set
                            [Some "Masala Oats"; Some "Cashew Shake";
                             Some "Vegetable Khichdi"]
                          ∖ list_to_set [Some "Masala Oats"]
                          : gset (option string))))
              / inject_Z 3 * 10)%Q, three_recipes).
Proof.
  split; [reflexivity|]. split; [reflexivity|]. split; [reflexivity|].
  apply (variety_score_counts_meals three_recipes 0%nat 1%nat 2%nat
           masala_oats cashew_shake vegetable_khichdi [Some "Masala Oats"]
           eq_refl eq_refl eq_refl).
Defined.

(** * More of the planner *)

#[local] Set Warnings "-clear-no-such-hyp".

Lemma kept_of_idempotent (σ : list Recipe) (cond : Recipe -> bool) (pool : list loc) :
  kept_of σ cond (kept_of σ cond pool) = kept_of σ cond pool.
Proof.
  unfold kept_of. induction pool as [|l pool IH]; [done|].
  cbn [List.filter].
  destruct (match σ !! l with Some r => cond r | None => false end) eqn:Hc; [|done].
  cbn [List.filter]. by rewrite Hc, IH.
Qed.

(** X1. Filtering a filtered pool by the same preferences changes nothing:
    the second pass returns the pool of the first, in the same order. *)
Theorem filter_pool_idempotent (st : State) (diet : string)
    (allergy_list : list string) (pool : list loc) :
  valid_locs st pool ->
  exists kept,
    filter_pool (keeps diet allergy_list) pool st = Ok (kept, st)
    /\ filter_pool (keeps diet allergy_list) kept st = Ok (kept, st).
Proof.
  intros Hv. exists (kept_of (store st) (keeps diet allergy_list) pool).
  split; [by apply filter_pool_ok|].
  rewrite filter_pool_ok by (by apply kept_of_valid).
  by rewrite kept_of_idempotent.
Qed.

Lemma nutrition_score_range (ms : list Recipe) :
  (0 <= nutrition_score_of ms /\ nutrition_score_of ms <= 10)%Q.
Proof.
  unfold nutrition_score_of. cbv zeta. split.
  - apply Q.min_glb; [done|].
    apply Qmult_le_0_compat; [apply Qabs_nonneg | done].
  - apply Q.le_min_l.
Qed.

Lemma variety_score_range (ms : list Recipe) (recent : list (option string)) :
  (0 <= variety_score_of ms recent /\ variety_score_of ms recent <= 10)%Q.
Proof.
  unfold variety_score_of. cbv zeta. split; [|apply Q.le_min_l].
  apply Q.min_glb; [done|]. destruct (map name ms) as [|n ns] eqn:Hn; [done|].
  apply Qmult_le_0_compat; [|done]. apply Qle_shift_div_l.
  - cbn. unfold Qlt. cbn. lia.
  - rewrite Qmult_0_l. unfold Qle. cbn. lia.
Qed.

(** X2. Whatever the recipes and the history, the day that
    [_generate_daily_plan] returns carries a nutrition score and a variety
    score between 0 and 10. *)
Theorem day_scores_in_range (rng : nat -> nat) (pools : RecipeDb) (i : nat)
    (target : Z) (history_file : option (list HistoryEntry)) (st : State) :
  db_valid st pools ->
  exists dp st',
    _generate_daily_plan rng pools i target history_file st = Ok (dp, st')
    /\ (0 <= nutrition_score dp /\ nutrition_score dp <= 10)%Q
    /\ (0 <= variety_score dp /\ variety_score dp <= 10)%Q.
Proof.
  intros Hv.
  destruct (generate_daily_plan_ok rng pools i target history_file st Hv)
    as [dp [st' [E Hd]]].
  exists dp, st'. split; [done|].
  destruct Hd as (b & l & d & st1 & st2 & rb & rl & rd & _ & _ & _ & _ & _ & _ & ->).
  cbn [nutrition_score variety_score].
  split; [apply nutrition_score_range | apply variety_score_range].
Qed.

(** X3. Only the last three entries of the history file feed the variety
    score: with three entries after them, older entries contribute no
    recent name, whoever the entries belong to. *)
Theorem history_window_is_three (older : list HistoryEntry) (e1 e2 e3 : HistoryEntry) :
  _get_user_meal_history_scores (Some (older ++ [e1; e2; e3])%list)
  = (concat (meal_plan e1) ++ concat (meal_plan e2) ++ concat (meal_plan e3))%list.
Proof.
  unfold _get_user_meal_history_scores, last3.
  rewrite length_app. cbn [length].
  replace (length older + 3 - 3)%nat with (length older + 0)%nat by lia.
  rewrite drop_app_add. cbn. by rewrite app_nil_r.
Qed.

(** X4. [_load_recipes] makes one new object per recipe of the file: the
    objects of the three pools are pairwise different, reading them gives
    the recipes of the file in order, and the objects that existed before
    are as they were.  Without the file the three pools are empty and
    nothing is created. *)
Theorem load_recipes_round_trip (data : MealSlot -> list Recipe) (st : State) :
  (exists db st',
     _load_recipes (Some data) st = Ok (db, st')
     /\ (forall s, map (fun l => store st' !! l) (db s) = map Some (data s))
     /\ NoDup (db breakfast ++ db lunch ++ db dinner)%list
     /\ (forall l r, store st !! l = Some r -> store st' !! l = Some r)
     /\ (forall s l, l ∈ db s -> store st !! l = None))
  /\ _load_recipes None st = Ok (fun _ => [], st).
Proof.
  split; [|done]. cbn [_load_recipes].
  rewrite (bind_ok _ _ _ _ _ (mapM_alloc_ok _ _)).
  rewrite (bind_ok _ _ _ _ _ (mapM_alloc_ok _ _)).
  rewrite (bind_ok _ _ _ _ _ (mapM_alloc_ok _ _)).
  eexists _, _. split; [reflexivity|]. cbn [store].
  set (σ := store st). set (B := data breakfast). set (L := data lunch).
  set (D := data dinner).
  assert (forall (pre rs post : list Recipe),
            map (fun l => ((pre ++ rs) ++ post)%list !! l)
                (seq (length pre) (length rs)) = map Some rs) as Hread.
  { intros pre rs post. apply list_eq. intros i.
    rewrite !list_lookup_fmap. destruct (decide (i < length rs)%nat) as [Hi|Hi].
    - rewrite lookup_seq_lt by done. cbn.
      rewrite lookup_app_l by (rewrite length_app; lia).
      rewrite lookup_app_r by lia.
      replace (length pre + i - length pre)%nat with i by lia.
      apply lookup_lt_is_Some in Hi as [r Hr]. by rewrite Hr.
    - rewrite lookup_seq_ge by lia. cbn.
      by rewrite (lookup_ge_None_2 rs i) by lia. }
  split; [|split; [|split]].
  - intros s. destruct s; rewrite ?length_app.
    + rewrite <- (app_assoc (σ ++ B) L D). apply (Hread σ B (L ++ D)%list).
    + pose proof (Hread (σ ++ B)%list L D) as H. by rewrite length_app in H.
    + pose proof (Hread ((σ ++ B) ++ L)%list D []) as H.
      rewrite app_nil_r, !length_app in H. exact H.
  - rewrite !length_app.
    replace (seq (length σ) (length B) ++ seq (length σ + length B) (length L)
             ++ seq (length σ + length B + length L) (length D))%list
      with (seq (length σ) (length B + length L + length D)).
    + apply NoDup_seq.
    + by rewrite <- !seq_app, Nat.add_assoc.
  - intros l r Hr. rewrite <- !app_assoc. by apply lookup_app_l_Some.
  - intros s l Hl. apply lookup_ge_None.
    destruct s; rewrite ?length_app in Hl; apply elem_of_seq in Hl; lia.
Qed.

(** * The other classes of main_agent.py *)

Lemma filtered_recipes_eq (diet : string) (l : list Recipe) (st : State) :
  Forall (fun r => is_Some (type r)) l ->
  SimpleMealGenerator.filtered_recipes diet l st
  = Ok (List.filter
          (fun r => bool_decide (type r = Some diet) || bool_decide (diet = "mixed")) l,
        st).
Proof.
  induction 1 as [|r l [t Ht] _ IH]; [done|].
  cbn [SimpleMealGenerator.filtered_recipes List.filter]. rewrite Ht.
  unfold SimpleMealGenerator.getitem at 1, bind at 1, ret at 1.
  rewrite (bind_ok _ _ _ _ _ IH). unfold ret.
  assert (bool_decide (Some t = Some diet) = bool_decide (t = diet)) as ->.
  { apply bool_decide_ext. split; [by intros [= ->] | by intros ->]. }
  by destruct (bool_decide (t = diet) || bool_decide (diet = "mixed")).
Qed.

Lemma matches_diet_bool (diet : string) (r : Recipe) :
  bool_decide (type r = Some diet) || bool_decide (diet = "mixed") = true
  <-> matches_diet diet r.
Proof. unfold matches_diet. by rewrite orb_true_iff, !bool_decide_eq_true. Qed.

Lemma select_meal_sound (rng : nat -> nat) (diet : string) (s : MealSlot) (st : State) :
  exists r st',
    SimpleMealGenerator.select_meal rng diet s st
    = Ok ((r, default 0 (calories r)), st')
    /\ served_by_simple diet s r.
Proof.
  unfold SimpleMealGenerator.select_meal.
  assert (Forall (fun r => is_Some (type r)) (SimpleMealGenerator.create_sample_recipes s))
    as Ht.
  { eapply Forall_impl; [apply sample_recipes_fields|]. by intros r [H _]. }
  rewrite (bind_ok _ _ _ _ _ (filtered_recipes_eq diet _ st Ht)).
  set (kept := List.filter _ _).
  assert (forall r, r ∈ kept <->
            r ∈ SimpleMealGenerator.create_sample_recipes s /\ matches_diet diet r)
    as Hkept.
  { intros r. unfold kept. rewrite !list_elem_of_In, filter_In.
    by rewrite matches_diet_bool. }
  destruct kept as [|r0 kept0] eqn:Hk.
  - exists (SimpleMealGenerator.fallback_recipe s diet), st.
    split; [reflexivity|]. right. split; [done|].
    intros r' Hr' Hm. assert (r' ∈ []) as Hin by (by apply Hkept).
    by apply elem_of_nil in Hin.
  - rewrite <- Hk in *.
    destruct (random_choice_ok rng kept st ltac:(by rewrite Hk)) as [r [Hr Er]].
    rewrite (bind_ok _ _ _ _ _ Er). apply Hkept in Hr as [Hr Hm].
    pose proof (sample_recipes_fields s) as Hf. rewrite Forall_forall in Hf.
    destruct (Hf r Hr) as [_ [c Hc]].
    eexists r, _. split; [rewrite Hc; reflexivity|]. by left.
Qed.

Lemma simple_daily_plan_sound (rng : nat -> nat) (diet : string) (st : State) :
  exists p st',
    SimpleMealGenerator.generate_daily_meal_plan rng diet st = Ok (p, st')
    /\ simple_day_sound diet p.
Proof.
  unfold SimpleMealGenerator.generate_daily_meal_plan.
  destruct (select_meal_sound rng diet breakfast st) as [b [st1 [Eb Hb]]].
  destruct (select_meal_sound rng diet lunch st1) as [l [st2 [El Hl]]].
  destruct (select_meal_sound rng diet dinner st2) as [d [st3 [Ed Hd]]].
  rewrite (bind_ok _ _ _ _ _ Eb), (bind_ok _ _ _ _ _ El), (bind_ok _ _ _ _ _ Ed).
  eexists _, st3. split; [reflexivity|]. exists b, l, d. cbn.
  repeat (split; [done|]). lia.
Qed.

Lemma simple_weekly_plan_sound (rng : nat -> nat) (diet : string) (st : State) :
  exists plan st',
    SimpleMealGenerator.generate_weekly_plan rng diet st = Ok (plan, st')
    /\ map fst plan = days
    /\ Forall (fun d : string * SimpleMealGenerator.DailyMealPlan =>
                 simple_day_sound diet d.2) plan.
Proof.
  unfold SimpleMealGenerator.generate_weekly_plan.
  destruct (mapM_total
              (fun day => p <- SimpleMealGenerator.generate_daily_meal_plan rng diet ;;
                          ret (day, p))
              (fun day (d : string * SimpleMealGenerator.DailyMealPlan) =>
                 d.1 = day /\ simple_day_sound diet d.2)
              days) with (st := st) as [plan [st' [E Hall]]].
  { intros day st0.
    destruct (simple_daily_plan_sound rng diet st0) as [p [st1 [Ep Hp]]].
    exists (day, p), st1. by rewrite (bind_ok _ _ _ _ _ Ep). }
  exists plan, st'. split; [done|]. clear E.
  induction Hall as [|day d ds plan [Hday Hm] _ [IH1 IH2]]; [by split|].
  split; [cbn; by rewrite Hday, IH1 | by constructor].
Qed.

(** X5. Every day of the week that [SimpleMealGenerator] generates serves,
    in each slot, a sample recipe of the slot whose type is the diet type
    (any sample recipe when the diet type is ["mixed"]), or the placeholder
    when the slot has no such recipe; and the day's total is the sum of the
    calories of its three meals. *)
Theorem simple_week_is_sound (rng : nat -> nat) (diet : string) (st : State) :
  exists plan st',
    SimpleMealGenerator.generate_weekly_plan rng diet st = Ok (plan, st')
    /\ map fst plan = days
    /\ Forall (fun d : string * SimpleMealGenerator.DailyMealPlan =>
                 simple_day_sound diet d.2) plan.
Proof. apply simple_weekly_plan_sound. Qed.

Lemma sample_recipe_types (s : MealSlot) (r : Recipe) :
  r ∈ SimpleMealGenerator.create_sample_recipes s ->
  type r = Some "vegetarian" \/ type r = Some "non-vegetarian".
Proof.
  intros Hr. destruct s; cbn in Hr;
    repeat (apply elem_of_cons in Hr as [->|Hr]; [cbn; by auto|]);
    by apply elem_of_nil in Hr.
Qed.

Lemma sample_recipes_cover (s : MealSlot) (diet : string) :
  diet ∈ ["vegetarian"; "non-vegetarian"; "mixed"] ->
  exists r, r ∈ SimpleMealGenerator.create_sample_recipes s /\ matches_diet diet r.
Proof.
  intros Hd. unfold matches_diet.
  repeat (apply elem_of_cons in Hd as [->|Hd]); [| | |by apply elem_of_nil in Hd].
  - destruct s; eexists; (split; [apply list_elem_of_here | by left]).
  - destruct s; eexists;
      (split; [do 2 apply list_elem_of_further; apply list_elem_of_here
              | by left])
      || (split; [apply list_elem_of_further; apply list_elem_of_here | by left]).
  - destruct s; eexists; (split; [apply list_elem_of_here | by right]).
Qed.

Lemma served_known_diet (diet : string) (s : MealSlot) (r : Recipe) :
  diet ∈ ["vegetarian"; "non-vegetarian"; "mixed"] ->
  served_by_simple diet s r ->
  r ∈ SimpleMealGenerator.create_sample_recipes s /\ matches_diet diet r.
Proof.
  intros Hd [H|[_ Hnone]]; [done|].
  destruct (sample_recipes_cover s diet Hd) as [r' [Hr' Hm]].
  by destruct (Hnone r' Hr').
Qed.

Lemma served_unknown_diet (diet : string) (s : MealSlot) (r : Recipe) :
  diet ∉ ["vegetarian"; "non-vegetarian"; "mixed"] ->
  served_by_simple diet s r ->
  r = SimpleMealGenerator.fallback_recipe s diet.
Proof.
  intros Hd [[Hr Hm]|[H _]]; [|done]. exfalso. apply Hd.
  destruct Hm as [Ht| ->]; [|set_solver].
  destruct (sample_recipe_types s r Hr) as [Ht'|Ht']; rewrite Ht' in Ht;
    injection Ht as <-; set_solver.
Qed.

(** X6. For the diet types ["vegetarian"], ["non-vegetarian"] and ["mixed"]
    [SimpleMealGenerator] never serves a placeholder: every meal of the week
    is a sample recipe of its slot that matches the diet type.  For any
    other diet type every day is the three placeholders, 900 calories. *)
Theorem simple_placeholders_only_for_unknown_diet (rng : nat -> nat)
    (diet : string) (st : State) :
  exists plan st',
    SimpleMealGenerator.generate_weekly_plan rng diet st = Ok (plan, st')
    /\ (diet ∈ ["vegetarian"; "non-vegetarian"; "mixed"] ->
        Forall (fun d : string * SimpleMealGenerator.DailyMealPlan =>
                  Forall (fun m : MealSlot * Recipe =>
                            m.2 ∈ SimpleMealGenerator.create_sample_recipes m.1
                            /\ matches_diet diet m.2)
                         (SimpleMealGenerator.meals d.2)) plan)
    /\ (diet ∉ ["vegetarian"; "non-vegetarian"; "mixed"] ->
        Forall (fun d : string * SimpleMealGenerator.DailyMealPlan =>
                  SimpleMealGenerator.meals d.2
                  = [(breakfast, SimpleMealGenerator.fallback_recipe breakfast diet);
                     (lunch, SimpleMealGenerator.fallback_recipe lunch diet);
                     (dinner, SimpleMealGenerator.fallback_recipe dinner diet)]
                  /\ SimpleMealGenerator.total_calories d.2 = 900) plan).
Proof.
  destruct (simple_weekly_plan_sound rng diet st) as [plan [st' [E [_ Hall]]]].
  exists plan, st'. split; [done|]. split; intros Hd.
  - eapply Forall_impl; [exact Hall|].
    intros d (b & l & dn & -> & Hb & Hl & Hdn & _).
    repeat (apply Forall_cons; split; [by apply served_known_diet|]).
    by apply Forall_nil.
  - eapply Forall_impl; [exact Hall|].
    intros d (b & l & dn & -> & Hb & Hl & Hdn & ->).
    apply (served_unknown_diet _ _ _ Hd) in Hb as ->.
    apply (served_unknown_diet _ _ _ Hd) in Hl as ->.
    apply (served_unknown_diet _ _ _ Hd) in Hdn as ->. done.
Qed.

Lemma sumZ_app (l k : list Z) : sumZ (l ++ k) = sumZ l + sumZ k.
Proof. unfold sumZ. induction l as [|x l IH]; cbn; [done | rewrite IH; lia]. Qed.


Lemma sound_week_sums (diet : string)
    (plan : list (string * SimpleMealGenerator.DailyMealPlan)) :
  Forall (fun d : string * SimpleMealGenerator.DailyMealPlan =>
            simple_day_sound diet d.2) plan ->
  length (NutritionCalculator.plan_recipes plan) = (3 * length plan)%nat
  /\ sumZ (map (fun r => default 0 (calories r)) (NutritionCalculator.plan_recipes plan))
     = sumZ (map (fun d : string * SimpleMealGenerator.DailyMealPlan =>
                    SimpleMealGenerator.total_calories d.2) plan).
Proof.
  unfold NutritionCalculator.plan_recipes.
  induction 1 as [|d plan (b & l & dn & Hm & _ & _ & _ & Ht) _ [IHl IHs]]; [done|].
  cbn [map concat]. rewrite Hm, length_app, map_app, sumZ_app, IHl, IHs, Ht.
  unfold sumZ. cbn. split; lia.
Qed.

(** X7. On a week generated by [SimpleMealGenerator], the analysis of
    [NutritionCalculator] counts 21 meals, and its average of daily calories
    is the sum of the seven daily totals divided by 7. *)
Theorem analysis_of_generated_week (rng : nat -> nat) (diet : string) (st : State) :
  exists plan st',
    SimpleMealGenerator.generate_weekly_plan rng diet st = Ok (plan, st')
    /\ NutritionCalculator.total_meals
         (NutritionCalculator.analyze_meal_plan_nutrition plan) = 21
    /\ (NutritionCalculator.avg_daily_calories
          (NutritionCalculator.analyze_meal_plan_nutrition plan)
        == inject_Z (sumZ (map (fun d : string * SimpleMealGenerator.DailyMealPlan =>
                                  SimpleMealGenerator.total_calories d.2) plan))
           / 7)%Q.
Proof.
  destruct (simple_weekly_plan_sound rng diet st) as [plan [st' [E [Hdays Hall]]]].
  exists plan, st'. split; [done|].
  destruct (sound_week_sums diet plan Hall) as [Hlen Hsum].
  assert (length plan = 7%nat) as H7 by (by rewrite <- (length_map fst), Hdays).
  unfold NutritionCalculator.analyze_meal_plan_nutrition. cbv zeta.
  rewrite Hlen, Hsum, H7. cbn [Z.of_nat Z.ltb Z.compare Nat.mul Nat.add].
  split; [done|]. cbn. reflexivity.
Qed.

(** The empty plan is analysed without a division: no meal, averages 0. *)
Lemma analysis_of_empty_plan :
  NutritionCalculator.analyze_meal_plan_nutrition []
  = NutritionCalculator.mkAnalysis 0 0 0.
Proof. reflexivity. Qed.



Lemma size_list_to_set_le (l : list (option string)) :
  (size (list_to_set l : gset (option string)) <= length l)%nat.
Proof.
  induction l as [|x l IH]; cbn [list_to_set length].
  - by rewrite size_empty.
  - rewrite size_union_alt, size_singleton.
    pose proof (subseteq_size (list_to_set l ∖ {[x]}) (list_to_set l : gset (option string))
                  ltac:(set_solver)).
    lia.
Qed.

(** X9. The variety score of a day is 0 exactly when the name of each of
    its three meals is among the recent names. *)
Theorem variety_zero_iff_all_recent (rb rl rd : Recipe)
    (recent_list : list (option string)) :
  (variety_score_of [rb; rl; rd] recent_list == 0)%Q
  <-> Some (name rb) ∈ recent_list /\ Some (name rl) ∈ recent_list
      /\ Some (name rd) ∈ recent_list.
Proof.
  unfold variety_score_of. cbv zeta. cbn [map length].
  set (new := (list_to_set [Some (name rb); Some (name rl); Some (name rd)]
               ∖ list_to_set recent_list : gset (option string))).
  assert (size new <= 3)%nat as Hle.
  { pose proof (size_list_to_set_le [Some (name rb); Some (name rl); Some (name rd)]).
    pose proof (subseteq_size new
                  (list_to_set [Some (name rb); Some (name rl); Some (name rd)])
                  ltac:(set_solver)).
    cbn in *. lia. }
  assert (size new = 0%nat <->
          Some (name rb) ∈ recent_list /\ Some (name rl) ∈ recent_list
          /\ Some (name rd) ∈ recent_list) as <-.
  { rewrite size_empty_iff. unfold new. rewrite set_equiv.
    setoid_rewrite elem_of_difference. setoid_rewrite elem_of_list_to_set.
    split.
    - intros Hall.
      assert (forall n, n ∈ [Some (name rb); Some (name rl); Some (name rd)] ->
                n ∈ recent_list) as Hin.
      { intros n Hn. destruct (decide (n ∈ recent_list)) as [|Hnot]; [done|].
        exfalso. by apply (not_elem_of_empty (C := gset (option string)) n), Hall. }
      repeat split; apply Hin.
      + apply list_elem_of_here.
      + apply list_elem_of_further, list_elem_of_here.
      + do 2 apply list_elem_of_further. apply list_elem_of_here.
    - intros (Hb & Hl & Hd) x. split; [|by intros H%not_elem_of_empty].
      intros [Hx Hnot]. exfalso. apply Hnot.
      repeat (apply elem_of_cons in Hx as [->|Hx]; [done|]).
      by apply elem_of_nil in Hx. }
  destruct (size new) as [|[|[|[|n]]]]; [..|lia].
  - split; [done | intros _; by vm_compute].
  - split; [intros H; vm_compute in H; discriminate | discriminate].
  - split; [intros H; vm_compute in H; discriminate | discriminate].
  - split; [intros H; vm_compute in H; discriminate | discriminate].
Qed.

Lemma last_in_last3 {A} (l : list A) (e : A) : e ∈ last3 (l ++ [e])%list.
Proof.
  unfold last3. rewrite length_app. cbn [length].
  destruct (decide (length l + 1 - 3 <= length l)%nat) as [Hle|]; [|lia].
  rewrite drop_app_le by done. apply elem_of_app. right. apply list_elem_of_here.
Qed.

Lemma elem_of_concat {A} (x : A) (ls : list (list A)) :
  x ∈ concat ls <-> exists l, x ∈ l /\ l ∈ ls.
Proof.
  rewrite list_elem_of_In, in_concat. split.
  - intros [l [Hl Hx]]. exists l. by rewrite !list_elem_of_In.
  - intros [l [Hx Hl]]. exists l. by rewrite <- !list_elem_of_In.
Qed.

Lemma saved_names_are_recent (h : list MemoryBank.Entry) (e : MemoryBank.Entry)
    (n : string) :
  n ∈ map name (NutritionCalculator.plan_recipes (MemoryBank.meal_plan e)) ->
  Some n ∈ _get_user_meal_history_scores
             (Some (map MemoryBank.names_view (h ++ [e])%list)).
Proof.
  intros Hn. unfold _get_user_meal_history_scores.
  rewrite map_app. cbn [map]. apply elem_of_concat.
  exists (concat (meal_plan (MemoryBank.names_view e))). split.
  - unfold MemoryBank.names_view. cbn [meal_plan].
    unfold NutritionCalculator.plan_recipes in Hn.
    apply list_elem_of_fmap in Hn as [r [-> Hr]].
    apply elem_of_concat in Hr as [rs [Hr Hrs]].
    apply list_elem_of_fmap in Hrs as [d [-> Hd]].
    apply list_elem_of_fmap in Hr as [m [-> Hm]].
    apply elem_of_concat.
    exists (map (fun m : MealSlot * Recipe => Some (name m.2))
                (SimpleMealGenerator.meals d.2)).
    split.
    + apply list_elem_of_fmap. by exists m.
    + apply list_elem_of_fmap. by exists d.
  - apply list_elem_of_fmap. exists (MemoryBank.names_view e). split; [done|].
    apply last_in_last3.
Qed.

(** X10. A plan that [save_meal_history] has just appended to a readable
    history file is inside the variety window of the planner: a day made of
    meals whose names all occur in that plan gets the variety score 0,
    whoever the plan was saved for. *)
Theorem saved_plan_makes_names_old (h : list MemoryBank.Entry) (uid now : string)
    (plan : list (string * SimpleMealGenerator.DailyMealPlan)) (rb rl rd : Recipe) :
  (forall r, r ∈ [rb; rl; rd] ->
     name r ∈ map name (NutritionCalculator.plan_recipes plan)) ->
  exists h',
    MemoryBank.save_meal_history (Some h) uid plan now = (true, Some h')
    /\ (variety_score_of [rb; rl; rd]
          (_get_user_meal_history_scores (Some (map MemoryBank.names_view h')))
        == 0)%Q.
Proof.
  intros Hnames. eexists. split; [reflexivity|].
  apply variety_zero_iff_all_recent.
  repeat split; apply saved_names_are_recent; cbn [MemoryBank.meal_plan];
    apply Hnames; set_solver.
Qed.

(** X11. [sequential_workflow] returns for every request, also when the
    history file cannot be read.  Its plan has the seven days, its analysis
    and shopping list are those of that plan, with 21 meals.  A readable
    history gets one entry more, the last, holding the plan under the
    request's user id, or under ["default"] without one, while the session
    id then says ["user"]; an unreadable history stays unreadable and the
    plan is not saved. *)
Theorem workflow_returns_and_saves (rng : nat -> nat) (format_1f : Q -> string)
    (user_input : MealPlannerAgent.UserInput)
    (history_file : option (list MemoryBank.Entry)) (now : string) (seconds : Z)
    (st : State) :
  exists res history_file' st',
    MealPlannerAgent.sequential_workflow rng format_1f user_input history_file
      now seconds st = Ok ((res, history_file'), st')
    /\ map fst (MealPlannerAgent.meal_plan res) = days
    /\ NutritionCalculator.total_meals (MealPlannerAgent.nutrition_analysis res) = 21
    /\ MealPlannerAgent.nutrition_analysis res
       = NutritionCalculator.analyze_meal_plan_nutrition (MealPlannerAgent.meal_plan res)
    /\ MealPlannerAgent.shopping_list res
       = ShoppingListGenerator.generate_shopping_list format_1f
           (MealPlannerAgent.meal_plan res)
    /\ history_file'
       = match history_file with
         | Some h =>
             Some (h ++ [MemoryBank.mkEntry
                           (default "default" (MealPlannerAgent.input_user_id user_input))
                           now (MealPlannerAgent.meal_plan res)])%list
         | None => None
         end
    /\ MealPlannerAgent.session_id res
       = "sess_" ++ default "user" (MealPlannerAgent.input_user_id user_input)
         ++ "_" ++ pretty seconds.
Proof.
  unfold MealPlannerAgent.sequential_workflow.
  destruct (simple_weekly_plan_sound rng
              (default "vegetarian" (MealPlannerAgent.input_diet_type user_input)) st)
    as [plan [st' [E [Hdays Hall]]]].
  rewrite (bind_ok _ _ _ _ _ E). eexists _, _, st'. split; [reflexivity|].
  cbn [MealPlannerAgent.meal_plan MealPlannerAgent.nutrition_analysis
       MealPlannerAgent.shopping_list MealPlannerAgent.session_id].
  split; [done|]. split.
  { destruct (sound_week_sums _ plan Hall) as [Hlen _].
    assert (length plan = 7%nat) as H7 by (by rewrite <- (length_map fst), Hdays).
    unfold NutritionCalculator.analyze_meal_plan_nutrition. cbv zeta.
    rewrite Hlen, H7. done. }
  split; [done|]. split; [done|]. split; [by destruct history_file | done].
Qed.

(** * The nutrition analyser *)


Import NutritionAnalyzerSpecialist.

Lemma size_names_le (l : list string) :
  (size (list_to_set l : gset string) <= length l)%nat.
Proof.
  induction l as [|x l IH]; cbn [list_to_set length].
  - by rewrite size_empty.
  - rewrite size_union_alt, size_singleton.
    pose proof (subseteq_size (list_to_set l ∖ {[x]}) (list_to_set l : gset string)
                  ltac:(set_solver)).
    lia.
Qed.

Lemma size_names_full (l : list string) :
  size (list_to_set l : gset string) = length l <-> NoDup l.
Proof.
  split; [|apply size_list_to_set].
  induction l as [|x l IH]; intros Hsize; [constructor|].
  cbn [list_to_set length] in Hsize.
  pose proof (size_names_le l) as Hle.
  destruct (decide (x ∈ l)) as [Hin|Hnot].
  - exfalso.
    assert ({[x]} ∪ list_to_set l = (list_to_set l : gset string)) as Heq
      by set_solver.
    rewrite Heq in Hsize. lia.
  - constructor; [done|]. apply IH.
    rewrite size_union, size_singleton in Hsize by set_solver. lia.
Qed.

Section ProteinFlag.

Import Binary64.

Lemma ilog2_le (q : Q) (k : Z) :
  ~ (q == 0)%Q -> (Qabs q <= pow2 k)%Q -> ilog2 q <= k.
Proof.
  intros Hq Hk. destruct (ilog2_spec q Hq) as [Hlo _].
  destruct (Z_le_gt_dec (ilog2 q) k) as [|Hgt]; [done|]. exfalso.
  pose proof (pow2_le (k + 1) (ilog2 q) ltac:(lia)) as Hle.
  pose proof (pow2_add k 1) as Hadd. pose proof (pow2_pos k) as Hpos.
  change (pow2 1) with 2%Q in Hadd. lra.
Qed.

(** The error of a rounding is at most half of the last bit. *)
Lemma round_abs_error (q : Q) (k : Z) :
  -1022 <= k -> (Qabs q <= pow2 k)%Q ->
  (Qabs (round q - q) <= pow2 (k - 53))%Q.
Proof.
  intros Hk Hq. destruct (Qeq_dec q 0) as [H0|Hn].
  - rewrite (round_zero q H0).
    pose proof (pow2_pos (k - 53)) as Hpos.
    apply Qabs_Qle_condition. lra.
  - pose proof (round_half_ulp q Hn) as Herr.
    pose proof (ilog2_le q k Hn Hq) as Hl.
    pose proof (pow2_le (ulp_exp q) (k - 52) ltac:(unfold ulp_exp; lia)) as Hle.
    pose proof (pow2_add (k - 53) 1) as Hadd.
    replace (k - 53 + 1) with (k - 52) in Hadd by lia.
    change (pow2 1) with 2%Q in Hadd. lra.
Qed.

Lemma rounded_small (q : Q) : (Qabs q <= 512)%Q -> rounded q = Finite (round q).
Proof.
  intros H. apply rounded_finite.
  pose proof (pow2_le 9 1022 ltac:(lia)) as Hle.
  change (pow2 9) with 512%Q in Hle. lra.
Qed.

(** The [float] of the protein compliance is within [2^-42] of its exact
    value, for ratios of magnitude at most 1. *)
Lemma protein_compliance_float_near (r t : Q) :
  (Qabs r <= 1)%Q -> (Qabs t <= 1)%Q ->
  exists c,
    Binary64.sub (Finite 10)
      (Binary64.mul (Binary64.abs (Binary64.sub (rounded r) (rounded t))) (Finite 100))
    = Finite c
    /\ (Qabs (c - (10 - Qabs (r - t) * 100)) <= pow2 (-42))%Q.
Proof.
  intros Hr Ht.
  assert (pow2 0 == 1 /\ pow2 2 == 4 /\ pow2 9 == 512)%Q as (P0 & P2 & P9)
    by (repeat split; reflexivity).
  assert (pow2 (-53) == 1 # 9007199254740992
          /\ pow2 (-51) == 1 # 2251799813685248
          /\ pow2 (-44) == 1 # 17592186044416
          /\ pow2 (-42) == 1 # 4398046511104)%Q as (E53 & E51 & E44 & E42)
    by (repeat split; reflexivity).
  pose proof (round_abs_error r 0 ltac:(lia) ltac:(lra)) as Hx.
  pose proof (round_abs_error t 0 ltac:(lia) ltac:(lra)) as Hy.
  change (0 - 53) with (-53) in Hx, Hy.
  set (x := round r) in *. set (y := round t) in *.
  apply Qabs_Qle_condition in Hr, Ht, Hx, Hy.
  assert (Qabs (x - y) <= pow2 2)%Q as Hxy by (apply Qabs_Qle_condition; lra).
  pose proof (round_abs_error (x - y) 2 ltac:(lia) Hxy) as Hd.
  change (2 - 53) with (-51) in Hd.
  set (d := round (x - y)) in *.
  apply Qabs_Qle_condition in Hxy, Hd.
  assert (Qabs (Qabs d - Qabs (r - t)) <= 1 # 1125899906842624)%Q as Habs.
  { apply Qabs_Qle_condition.
    pose proof (Qabs_triangle_reverse d (r - t)) as T1.
    pose proof (Qabs_triangle_reverse (r - t) d) as T2.
    assert (Qabs (d - (r - t)) <= 1 # 1125899906842624)%Q as T3
      by (apply Qabs_Qle_condition; lra).
    assert (Qabs (r - t - d) <= 1 # 1125899906842624)%Q as T4
      by (apply Qabs_Qle_condition; lra).
    lra. }
  apply Qabs_Qle_condition in Habs.
  pose proof (Qabs_nonneg d) as Hd0. pose proof (Qabs_nonneg (r - t)) as Hrt0.
  assert (Qabs (r - t) <= 2)%Q as Hrt2 by (apply Qabs_Qle_condition; lra).
  assert (Qabs (Qabs d * 100) <= pow2 9)%Q as Hm9 by (apply Qabs_Qle_condition; lra).
  pose proof (round_abs_error (Qabs d * 100) 9 ltac:(lia) Hm9) as Hm.
  change (9 - 53) with (-44) in Hm.
  set (m := round (Qabs d * 100)) in *.
  apply Qabs_Qle_condition in Hm9, Hm.
  assert (Qabs (10 - m) <= pow2 9)%Q as Hc9 by (apply Qabs_Qle_condition; lra).
  pose proof (round_abs_error (10 - m) 9 ltac:(lia) Hc9) as Hc.
  change (9 - 53) with (-44) in Hc.
  apply Qabs_Qle_condition in Hc.
  exists (round (10 - m)). split.
  - rewrite (rounded_small r), (rounded_small t) by (apply Qabs_Qle_condition; lra).
    fold x y. cbn [Binary64.sub]. rewrite (rounded_small (x - y)) by
      (apply Qabs_Qle_condition; lra).
    fold d. cbn [Binary64.abs Binary64.mul].
    rewrite (rounded_small (Qabs d * 100)) by (apply Qabs_Qle_condition; lra).
    fold m. cbn [Binary64.sub]. apply rounded_small. apply Qabs_Qle_condition. lra.
  - apply Qabs_Qle_condition. lra.
Qed.

Lemma meets_protein_target_near (r t : Q) :
  (Qabs r <= 1)%Q -> (Qabs t <= 1)%Q ->
  ((Qabs (r - t) <= (3 # 100) - (1 # 2 ^ 40))%Q ->
   Binary64.ge (protein_compliance_float r t) (Finite 7) = true)
  /\ (((3 # 100) + (1 # 2 ^ 40) <= Qabs (r - t))%Q ->
      Binary64.ge (protein_compliance_float r t) (Finite 7) = false).
Proof.
  intros Hr Ht. unfold protein_compliance_float. cbv zeta.
  destruct (protein_compliance_float_near r t Hr Ht) as (c & -> & Hc).
  assert (pow2 (-42) == 1 # 4398046511104)%Q as E42 by reflexivity.
  apply Qabs_Qle_condition in Hc.
  change (1 # 2 ^ 40)%Q with (1 # 1099511627776)%Q.
  unfold max0, gt. split; intros H.
  - assert (7 <= c)%Q as H7 by lra.
    destruct (Qle_bool c 0) eqn:E0.
    + apply Qle_bool_iff in E0. lra.
    + cbn [negb ge]. by apply Qle_bool_iff.
  - assert (c < 7)%Q as H7 by lra.
    destruct (Qle_bool c 0) eqn:E0; cbn [negb ge].
    + reflexivity.
    + apply not_true_is_false. intros E. apply Qle_bool_iff in E. lra.
Qed.

End ProteinFlag.

Lemma goal_score_range (nutrition : BasicNutrition) (goal : string) :
  (0 <= protein_compliance_score (_analyze_goal_compliance nutrition goal)
   /\ protein_compliance_score (_analyze_goal_compliance nutrition goal) <= 10)%Q.
Proof.
  unfold _analyze_goal_compliance. cbn [protein_compliance_score]. split.
  - apply Q.min_glb; [done | apply Q.le_max_l].
  - apply Q.le_min_l.
Qed.

Lemma standard_ratio_le_1 (goal : string) :
  (Qabs (std_protein_ratio
           (default (mkStandards (25 # 100) (45 # 100) (3 # 10))
                    (_load_nutrition_standards goal))) <= 1)%Q.
Proof.
  unfold _load_nutrition_standards.
  repeat case_bool_decide; cbn; unfold Qle; cbn; lia.
Qed.

(** X12. For a protein ratio of magnitude at most 1: the protein compliance
    score lies between 0 and 10; the plan meets the protein target when its
    protein ratio is within [0.03 - 2^-40] of the target ratio of the goal,
    and does not meet it when the ratio is [0.03 + 2^-40] or more away (the
    test is made on the [float], whose roundings decide in between); a goal
    that is not one of the four known ones is measured against the
    maintenance target, 0.25. *)
Theorem goal_compliance_meaning (nutrition : BasicNutrition) (goal : string) :
  (Qabs (protein_ratio nutrition) <= 1)%Q ->
  let g := _analyze_goal_compliance nutrition goal in
  (0 <= protein_compliance_score g /\ protein_compliance_score g <= 10)%Q
  /\ ((Qabs (actual_protein_ratio g - target_protein_ratio g)
       <= (3 # 100) - (1 # 2 ^ 40))%Q ->
      meets_protein_target g = true)
  /\ (((3 # 100) + (1 # 2 ^ 40)
       <= Qabs (actual_protein_ratio g - target_protein_ratio g))%Q ->
      meets_protein_target g = false)
  /\ actual_protein_ratio g = protein_ratio nutrition
  /\ (_load_nutrition_standards goal = None -> target_protein_ratio g = (25 # 100)%Q).
Proof.
  intros Hr. cbv zeta. split; [apply goal_score_range|].
  destruct (meets_protein_target_near (protein_ratio nutrition) _ Hr
              (standard_ratio_le_1 goal)) as [Hyes Hno].
  split; [exact Hyes|]. split; [exact Hno|]. split; [done|].
  intros Hnone. unfold _analyze_goal_compliance. by rewrite Hnone.
Qed.

Lemma goal_compliance_meaning_witness :
  (Qabs (protein_ratio (mkBasicNutrition 0 0 0 0 0 (26 # 100))) <= 1)%Q
  /\ meets_protein_target
       (_analyze_goal_compliance (mkBasicNutrition 0 0 0 0 0 (26 # 100)) "maintenance")
     = true.
Proof.
  assert (Qabs (protein_ratio (mkBasicNutrition 0 0 0 0 0 (26 # 100))) <= 1)%Q as Hr
    by (vm_compute; discriminate).
  split; [exact Hr|].
  pose proof (goal_compliance_meaning (mkBasicNutrition 0 0 0 0 0 (26 # 100))
                "maintenance" Hr) as H.
  cbv zeta in H. destruct H as (_ & Hyes & _).
  apply Hyes. vm_compute. discriminate.
Defined.

(** At a distance of exactly 0.03 the roundings decide: with 28 % of
    protein the maintenance target 0.25 is missed (the [float] of the
    compliance is below 7), with 27 % the weight-loss target 0.3 is met;
    the exact compliance is 7 in both cases. *)
Lemma protein_target_at_the_boundary :
  let above := _analyze_goal_compliance (mkBasicNutrition 0 0 0 0 0 (28 # 100))
                 "maintenance" in
  let below := _analyze_goal_compliance (mkBasicNutrition 0 0 0 0 0 (27 # 100))
                 "weight_loss" in
  meets_protein_target above = false
  /\ (Qabs (actual_protein_ratio above - target_protein_ratio above) == 3 # 100)%Q
  /\ (protein_compliance_score above == 7)%Q
  /\ meets_protein_target below = true
  /\ (Qabs (actual_protein_ratio below - target_protein_ratio below) == 3 # 100)%Q
  /\ (protein_compliance_score below == 7)%Q.
Proof. cbv zeta. repeat split; vm_compute; reflexivity. Qed.

Lemma variety_range (meal_plan : MealPlan) :
  (0 <= variety_score (_analyze_variety meal_plan)
   /\ variety_score (_analyze_variety meal_plan) <= 10)%Q.
Proof.
  unfold _analyze_variety. cbv zeta. cbn [variety_score].
  set (names := map name (all_recipes meal_plan)).
  pose proof (size_names_le names) as Hle.
  destruct (0 <? length names)%nat eqn:Hpos; [|done].
  apply Nat.ltb_lt in Hpos.
  assert (0 < inject_Z (Z.of_nat (length names)))%Q as Hq.
  { unfold Qlt. cbn. lia. }
  assert (0 <= inject_Z (Z.of_nat (size (list_to_set names : gset string))))%Q as H0.
  { unfold Qle. cbn. lia. }
  assert (inject_Z (Z.of_nat (size (list_to_set names : gset string)))
          <= inject_Z (Z.of_nat (length names)))%Q as H1.
  { rewrite <- Zle_Qle. lia. }
  set (u := inject_Z (Z.of_nat (size (list_to_set names : gset string)))) in *.
  set (t := inject_Z (Z.of_nat (length names))) in *.
  assert (0 <= u / t /\ u / t <= 1)%Q as [Ha Hb].
  { split.
    - apply Qle_shift_div_l; [done | lra].
    - apply Qle_shift_div_r; [done | lra]. }
  split; lra.
Qed.

(** X13. The variety analysis counts no more different meals than meals;
    its variety score lies between 0 and 10, is 0 on a plan without meals,
    and on a plan with meals it is 10 exactly when no meal name occurs
    twice in the plan. *)
Theorem variety_analysis_meaning (meal_plan : MealPlan) :
  let v := _analyze_variety meal_plan in
  (unique_meals v <= variety_total_meals v)%nat
  /\ variety_total_meals v = length (all_recipes meal_plan)
  /\ (0 <= variety_score v /\ variety_score v <= 10)%Q
  /\ (all_recipes meal_plan = [] -> variety_score v = 0%Q)
  /\ (all_recipes meal_plan <> [] ->
      (variety_score v == 10)%Q <-> NoDup (map name (all_recipes meal_plan))).
Proof.
  cbv zeta. split; [|split; [|split; [|split]]].
  - unfold _analyze_variety. cbn [unique_meals variety_total_meals].
    apply size_names_le.
  - unfold _analyze_variety. cbn [variety_total_meals]. apply length_map.
  - apply variety_range.
  - intros He. unfold _analyze_variety. cbn [variety_score]. by rewrite He.
  - intros Hne. unfold _analyze_variety. cbv zeta. cbn [variety_score].
    set (names := map name (all_recipes meal_plan)).
    assert (0 < length names)%nat as Hpos.
    { unfold names. rewrite length_map. destruct (all_recipes meal_plan); [done|].
      cbn. lia. }
    rewrite (proj2 (Nat.ltb_lt _ _) Hpos).
    rewrite <- size_names_full.
    pose proof (size_names_le names) as Hle.
    assert (0 < inject_Z (Z.of_nat (length names)))%Q as Hq.
    { unfold Qlt. cbn. lia. }
    split.
    + intros H.
      assert (inject_Z (Z.of_nat (size (list_to_set names : gset string)))
              == inject_Z (Z.of_nat (length names)))%Q as Heq.
      { set (u := inject_Z (Z.of_nat (size (list_to_set names : gset string)))) in *.
        set (t := inject_Z (Z.of_nat (length names))) in *.
        assert (u / t == 1)%Q as H1 by lra.
        rewrite <- (Qmult_div_r u t) by lra. rewrite H1. lra. }
      unfold Qeq in Heq. cbn in Heq. lia.
    + intros ->. field. lra.
Qed.

(** X14. Whatever the plan, the goal and the answer of the text service,
    the overall score of the report lies between 0 and 10. *)
Theorem overall_score_in_range {A} (insights : A) (meal_plan : MealPlan)
    (user_goal : string) :
  (0 <= overall_score (analyze_meal_plan insights meal_plan user_goal)
   /\ overall_score (analyze_meal_plan insights meal_plan user_goal) <= 10)%Q.
Proof.
  unfold analyze_meal_plan. cbn [overall_score]. unfold _calculate_overall_score.
  destruct (goal_score_range (_calculate_basic_nutrition meal_plan) user_goal)
    as [Hg0 Hg1].
  destruct (variety_range meal_plan) as [Hv0 Hv1].
  assert (0 <= ingredient_diversity (_analyze_variety meal_plan)
          /\ ingredient_diversity (_analyze_variety meal_plan) <= 10)%Q as [Hi0 Hi1].
  { unfold _analyze_variety. cbn [ingredient_diversity]. split.
    - apply Q.min_glb; [done|]. apply Qle_shift_div_l; [done|].
      rewrite Qmult_0_l. unfold Qle. cbn. lia.
    - apply Q.le_min_l. }
  split; lra.
Qed.

Lemma recommendations_cases (a b c : bool) :
  let recs :=
    ((if a then [] else [more_protein]) ++ (if b then [] else [more_variety])
     ++ (if c then [more_ingredients] else []))%list in
  let final := match recs with [] => [great_job] | _ :: _ => recs end in
  final <> []
  /\ (great_job ∈ final <-> a = true /\ b = true /\ c = false)
  /\ (great_job ∈ final -> final = [great_job])
  /\ (more_protein ∈ final <-> a = false)
  /\ (more_variety ∈ final <-> b = false)
  /\ (more_ingredients ∈ final <-> c = true).
Proof.
  destruct a, b, c; cbn;
    unfold great_job, more_protein, more_variety, more_ingredients;
    rewrite ?elem_of_cons, ?elem_of_nil; naive_solver.
Qed.

(** X15. The recommendations are never empty.  The congratulation is given
    exactly when the protein target is met, the variety score is at least 6
    and the plan has at least 15 different ingredients, and then it is the
    only recommendation; each of the three remarks is given exactly when its
    condition fails. *)
Theorem recommendations_meaning (g : GoalCompliance) (v : VarietyAnalysis) :
  let recs := _generate_recommendations g v in
  recs <> []
  /\ (great_job ∈ recs
      <-> meets_protein_target g = true
          /\ (6 <= NutritionAnalyzerSpecialist.variety_score v)%Q
          /\ (15 <= unique_ingredients v)%nat)
  /\ (great_job ∈ recs -> recs = [great_job])
  /\ (more_protein ∈ recs <-> meets_protein_target g = false)
  /\ (more_variety ∈ recs <-> ~ (6 <= NutritionAnalyzerSpecialist.variety_score v)%Q)
  /\ (more_ingredients ∈ recs <-> (unique_ingredients v < 15)%nat).
Proof.
  cbv zeta. unfold _generate_recommendations.
  destruct (recommendations_cases (meets_protein_target g)
              (Qle_bool 6 (NutritionAnalyzerSpecialist.variety_score v))
              (unique_ingredients v <? 15)%nat)
    as (Hne & Hgreat & Honly & Hp & Hv & Hi).
  cbv zeta in *.
  split; [done|]. split; [|split; [done|]; split; [done|]; split].
  - rewrite Hgreat, Qle_bool_iff, Nat.ltb_ge. done.
  - rewrite Hv, <- Qle_bool_iff. by destruct (Qle_bool _ _).
  - by rewrite Hi, Nat.ltb_lt.
Qed.

Lemma min_max_complement (x : Q) :
  (0 <= x -> Qmin 10 x + Qmin 10 (Qmax 0 (10 - x)) == 10)%Q.
Proof.
  intros Hx.
  pose proof (Q.min_spec 10 x) as H1.
  pose proof (Q.max_spec 0 (10 - x)) as H2.
  pose proof (Q.min_spec 10 (Qmax 0 (10 - x))) as H3.
  set (a := Qmin 10 x) in *. set (b := Qmax 0 (10 - x)) in *.
  set (c := Qmin 10 b) in *.
  destruct H1 as [[? ?]|[? ?]], H2 as [[? ?]|[? ?]], H3 as [[? ?]|[? ?]]; lra.
Qed.

(** X16. The nutrition score that the planner gives to the meals of a day
    and the protein compliance score that the analyser gives to the same
    meals for the goal ["weight_loss"] always add up to 10, as soon as the
    meals have some protein, carbs or fat: the planner's score grows as the
    analyser's compliance falls. *)
Theorem planner_score_complements_compliance (ms : list Recipe) :
  0 < sumZ (map (fun m => default 0 (protein m)) ms)
      + sumZ (map (fun m => default 0 (carbs m)) ms)
      + sumZ (map (fun m => default 0 (fat m)) ms) ->
  (nutrition_score_of ms
   + protein_compliance_score
       (_analyze_goal_compliance (_calculate_basic_nutrition [("Monday", ms)])
          "weight_loss")
   == 10)%Q.
Proof.
  intros Hpos. unfold nutrition_score_of, _analyze_goal_compliance,
    _calculate_basic_nutrition, total_of, all_recipes.
  cbv zeta. cbn [map snd concat protein_ratio protein_compliance_score].
  rewrite app_nil_r. rewrite (proj2 (Z.ltb_lt _ _) Hpos).
  change (_load_nutrition_standards "weight_loss")
    with (Some (mkStandards (3 # 10) (4 # 10) (3 # 10))).
  cbn [default std_protein_ratio from_option id].
  apply min_max_complement.
  apply Qmult_le_0_compat; [apply Qabs_nonneg | done].
Qed.

Lemma planner_score_complements_compliance_witness :
  0 < sumZ (map (fun m => default 0 (protein m)) [masala_oats; vegetable_khichdi])
      + sumZ (map (fun m => default 0 (carbs m)) [masala_oats; vegetable_khichdi])
      + sumZ (map (fun m => default 0 (fat m)) [masala_oats; vegetable_khichdi])
  /\ (nutrition_score_of [masala_oats; vegetable_khichdi]
      + protein_compliance_score
          (_analyze_goal_compliance
             (_calculate_basic_nutrition
                [("Monday", [masala_oats; vegetable_khichdi])])
             "weight_loss")
      == 10)%Q.
Proof.
  split; [reflexivity|].
  apply (planner_score_complements_compliance [masala_oats; vegetable_khichdi]).
  reflexivity.
Defined.

(** * The memory tools *)

(** X17. After [save_user_preferences] of [AdvancedMemoryTools],
    [get_user_preferences] gives the user every preference that was saved,
    except that the keys [last_updated] and [preference_strength] hold the
    time of the save and the strength labels, whatever the preferences had
    under these keys.  The preferences of the other users are as before
    when the file could be read; when it could not, the save still
    succeeds, on a file that holds this user only. *)
Theorem preferences_round_trip
    (file : option (gmap string (gmap string pyval))) (uid : string)
    (preferences : gmap string pyval) (now : string) :
  exists file',
    AdvancedMemoryTools.save_user_preferences file uid preferences now
    = (true, Some file')
    /\ (forall k, k <> "last_updated" -> k <> "preference_strength" ->
          AdvancedMemoryTools.get_user_preferences (Some file') uid !! k
          = preferences !! k)
    /\ AdvancedMemoryTools.get_user_preferences (Some file') uid !! "last_updated"
       = Some (PStr now)
    /\ AdvancedMemoryTools.get_user_preferences (Some file') uid
         !! "preference_strength"
       = Some (PDict (PStr <$> AdvancedMemoryTools._calc_strength preferences))
    /\ (forall other, other <> uid ->
          AdvancedMemoryTools.get_user_preferences (Some file') other
          = AdvancedMemoryTools.get_user_preferences file other)
    /\ (file = None -> dom file' = {[uid]}).
Proof.
  eexists. split; [reflexivity|].
  unfold AdvancedMemoryTools.get_user_preferences, AdvancedMemoryTools._safe_load.
  cbn [default from_option id]. rewrite lookup_insert_eq. cbn [default from_option id].
  unfold AdvancedMemoryTools.stored_preferences.
  split; [|split; [|split; [|split]]].
  - intros k H1 H2. by rewrite !lookup_insert_ne.
  - by rewrite lookup_insert_ne, lookup_insert_eq.
  - by rewrite lookup_insert_eq.
  - intros other Hne. rewrite lookup_insert_ne by done. by destruct file.
  - intros ->. cbn. rewrite dom_insert_L, dom_empty_L. set_solver.
Qed.

(** X18. The strength labels have the keys of the preferences.  A label is
    ["strong"] exactly for [True] and for a list that is not empty,
    ["medium"] exactly for a string that is neither empty nor ["any"] nor
    ["flexible"], and ["weak"] for everything else: a number, such as a
    calorie target, is always weak. *)
Theorem strength_labels (preferences : gmap string pyval) (k : string) :
  dom (AdvancedMemoryTools._calc_strength preferences) = dom preferences
  /\ (forall v, preferences !! k = Some v ->
        exists label,
          AdvancedMemoryTools._calc_strength preferences !! k = Some label
          /\ (label = "strong" \/ label = "medium" \/ label = "weak")
          /\ (label = "strong"
              <-> v = PBool true \/ exists l, v = PList l /\ l <> [])
          /\ (label = "medium"
              <-> exists s, v = PStr s /\ s <> EmptyString /\ s <> "any"
                            /\ s <> "flexible")
          /\ (forall z, v = PInt z -> label = "weak")).
Proof.
  unfold AdvancedMemoryTools._calc_strength. split; [apply dom_fmap_L|].
  intros v Hv. rewrite lookup_fmap, Hv. eexists. split; [reflexivity|].
  destruct v as [|[]|z|s|[|x l]|d]; cbn; try by naive_solver.
  destruct (decide (s = EmptyString)) as [->|He]; [cbn; naive_solver|].
  rewrite (bool_decide_eq_false_2 (s = EmptyString)) by done.
  destruct (decide (s ∈ ["any"; "flexible"])) as [Ha|Ha].
  - rewrite bool_decide_eq_true_2 by done. cbn.
    split; [by auto|]. split; [naive_solver|]. split; [|done].
    split; [done|]. intros (s' & [= <-] & _ & H1 & H2).
    apply elem_of_cons in Ha as [->|Ha]; [done|].
    apply list_elem_of_singleton in Ha as ->. done.
  - rewrite bool_decide_eq_false_2 by done. cbn.
    split; [by auto|]. split; [naive_solver|]. split; [|done].
    split; [|done]. intros _. exists s. repeat split; try done.
    + intros ->. apply Ha. apply list_elem_of_here.
    + intros ->. apply Ha. apply list_elem_of_further, list_elem_of_here.
Qed.

(** X19. [create_session] names the session after the user and the second
    of the call, and [get_session] then gives a session that belongs to the
    user, with an empty context; the sessions stored under other ids are as
    before.  Two calls for one user within one second give one id: the
    second session replaces the first. *)
Theorem created_session_is_stored
    (file : option (gmap string (gmap string pyval))) (uid : string)
    (seconds : Z) (now : string) :
  exists file',
    AdvancedMemoryTools.create_session file uid seconds now
    = (AdvancedMemoryTools.session_name uid seconds, Some file')
    /\ AdvancedMemoryTools.get_session (Some file')
         (AdvancedMemoryTools.session_name uid seconds) !! "user_id"
       = Some (PStr uid)
    /\ AdvancedMemoryTools.get_session (Some file')
         (AdvancedMemoryTools.session_name uid seconds) !! "context"
       = Some (PDict ∅)
    /\ (forall other, other <> AdvancedMemoryTools.session_name uid seconds ->
          AdvancedMemoryTools.get_session (Some file') other
          = AdvancedMemoryTools.get_session file other)
    /\ (forall later,
          (AdvancedMemoryTools.create_session (Some file') uid seconds later).1
          = AdvancedMemoryTools.session_name uid seconds
          /\ exists file'',
               (AdvancedMemoryTools.create_session (Some file') uid seconds later).2
               = Some file''
               /\ dom file'' = dom file'
               /\ AdvancedMemoryTools.get_session (Some file'')
                    (AdvancedMemoryTools.session_name uid seconds) !! "created_at"
                  = Some (PStr later)).
Proof.
  eexists. split; [reflexivity|].
  unfold AdvancedMemoryTools.get_session, AdvancedMemoryTools._safe_load.
  cbn [default from_option id]. rewrite lookup_insert_eq. cbn [default from_option id].
  split; [by rewrite lookup_insert_ne, lookup_insert_eq|].
  split; [do 4 (rewrite lookup_insert_ne by done); by rewrite lookup_insert_eq|].
  split.
  - intros other Hne. rewrite lookup_insert_ne by done. by destruct file.
  - intros later. split; [done|].
    unfold AdvancedMemoryTools.create_session, AdvancedMemoryTools._safe_load.
    cbn [fst snd default from_option id].
    eexists. split; [reflexivity|]. rewrite lookup_insert_eq.
    cbn [default from_option id]. split.
    + rewrite !dom_insert_L. set_solver.
    + do 2 (rewrite lookup_insert_ne by done). by rewrite lookup_insert_eq.
Qed.

(** X20. [update_session] on a stored session: afterwards [get_session]
    gives, under [last_activity], the time of the update, also when the
    updates carry that key; under any other key the value of the updates
    when they have the key, and the old value otherwise; other sessions are
    as before. *)
Theorem updated_session_is_merged
    (file : option (gmap string (gmap string pyval))) (session_id : string)
    (updates session : gmap string pyval) (now : string) :
  AdvancedMemoryTools._safe_load file ∅ !! session_id = Some session ->
  let file' := AdvancedMemoryTools.update_session file session_id updates now in
  AdvancedMemoryTools.get_session file' session_id !! "last_activity"
  = Some (PStr now)
  /\ (forall k, k <> "last_activity" ->
        AdvancedMemoryTools.get_session file' session_id !! k
        = match updates !! k with
          | Some v => Some v
          | None => session !! k
          end)
  /\ (forall other, other <> session_id ->
        AdvancedMemoryTools.get_session file' other
        = AdvancedMemoryTools.get_session file other).
Proof.
  intros Hs. cbv zeta. unfold AdvancedMemoryTools.update_session. rewrite Hs.
  unfold AdvancedMemoryTools.get_session.
  cbn [AdvancedMemoryTools._safe_load default from_option id].
  rewrite lookup_insert_eq. cbn [default from_option id].
  split; [by rewrite lookup_insert_eq|]. split.
  - intros k Hk. rewrite lookup_insert_ne by done.
    rewrite lookup_union. by destruct (updates !! k), (session !! k).
  - intros other Hne. by rewrite lookup_insert_ne.
Qed.

(** On an id that is not stored the file is not written. *)
Lemma update_of_unknown_session
    (file : option (gmap string (gmap string pyval))) (session_id : string)
    (updates : gmap string pyval) (now : string) :
  AdvancedMemoryTools._safe_load file ∅ !! session_id = None ->
  AdvancedMemoryTools.update_session file session_id updates now = file
  /\ AdvancedMemoryTools.get_session file session_id = ∅.
Proof.
  intros Hs. unfold AdvancedMemoryTools.update_session,
    AdvancedMemoryTools.get_session. by rewrite Hs.
Qed.

(** X21. [save_meal_feedback] always leaves a history of at most 500
    entries whose last entry is the new one, with the user, the time, the
    plan, and the feedback or the empty dictionary.  The history is the end
    of the old history followed by the new entry: nothing is reordered, and
    below 500 entries nothing is dropped.  A history file that cannot be
    read is replaced by a history of this one entry. *)
Theorem saved_feedback_is_last_of_500
    (file : option (list AdvancedMemoryTools.StoredEntry)) (uid : string)
    (plan : list (string * pyval)) (feedback : option (gmap string pyval))
    (now : string) :
  let entry :=
    AdvancedMemoryTools.mkStoredEntry (Some uid) (Some now) (Some plan)
      (Some (default ∅ feedback)) in
  let old := default [] file in
  exists history,
    AdvancedMemoryTools.save_meal_feedback file uid plan feedback now
    = (true, Some history)
    /\ (length history <= 500)%nat
    /\ last history = Some entry
    /\ history `suffix_of` (old ++ [entry])%list
    /\ ((length old < 500)%nat -> history = (old ++ [entry])%list)
    /\ (file = None -> history = [entry]).
Proof.
  cbv zeta. unfold AdvancedMemoryTools.save_meal_feedback,
    AdvancedMemoryTools._safe_load.
  set (entry := AdvancedMemoryTools.mkStoredEntry _ _ _ _).
  set (old := default [] file).
  eexists. split; [reflexivity|].
  destruct (500 <? length (old ++ [entry]))%nat eqn:Hbig.
  - apply Nat.ltb_lt in Hbig. unfold last_n.
    rewrite length_app in *. cbn [length] in *.
    split; [rewrite length_drop, length_app; cbn; lia|]. split.
    + rewrite drop_app_le by lia. apply last_snoc.
    + split; [apply suffix_drop|]. split; [lia|].
      intros ->. cbn in Hbig. lia.
  - apply Nat.ltb_ge in Hbig. split; [done|]. split; [apply last_snoc|].
    split; [done|]. split; [done|]. by intros ->.
Qed.

Lemma user_entries_spec (data : list AdvancedMemoryTools.StoredEntry) (uid : string)
    (e : AdvancedMemoryTools.StoredEntry) :
  e ∈ List.filter
        (fun h => bool_decide (AdvancedMemoryTools.entry_user_id h = Some uid)) data
  <-> e ∈ data /\ AdvancedMemoryTools.entry_user_id e = Some uid.
Proof. by rewrite !list_elem_of_In, filter_In, bool_decide_eq_true. Qed.

(** X22. [get_user_history] returns entries of the user only, the newest
    first.  With a limit that is not negative it is the beginning of what
    the history route of app.py returns for the user, at most [limit]
    entries; with a negative limit it is that list without its
    [-limit] oldest entries. *)
Theorem user_history_meaning (data : list AdvancedMemoryTools.StoredEntry)
    (uid : string) (limit : Z) :
  let r := AdvancedMemoryTools.get_user_history (Some data) uid limit in
  let all := App.get_history (App.Holds data) uid in
  Forall (fun h => h ∈ data /\ AdvancedMemoryTools.entry_user_id h = Some uid) r
  /\ r `prefix_of` all
  /\ (0 <= limit -> Z.of_nat (length r) = Z.min limit (Z.of_nat (length all)))
  /\ (limit < 0 -> Z.of_nat (length r) = Z.max 0 (Z.of_nat (length all) + limit)).
Proof.
  cbv zeta. unfold AdvancedMemoryTools.get_user_history, App.get_history,
    AdvancedMemoryTools._safe_load, slice_to.
  cbn [default from_option id].
  set (all := rev _).
  assert (forall n, Forall (fun h => h ∈ data
                              /\ AdvancedMemoryTools.entry_user_id h = Some uid)
                           (take n all)) as Hall.
  { intros n. apply Forall_forall. intros h Hh.
    apply (subseteq_take n all) in Hh. unfold all in Hh.
    apply list_elem_of_In, in_rev, list_elem_of_In in Hh.
    by apply user_entries_spec. }
  destruct (0 <=? limit) eqn:Hlim.
  - apply Z.leb_le in Hlim. split; [apply Hall|]. split; [apply prefix_take|].
    split; [|lia]. intros _. rewrite length_take. lia.
  - apply Z.leb_gt in Hlim. split; [apply Hall|]. split; [apply prefix_take|].
    split; [lia|]. intros _. rewrite length_take. lia.
Qed.

Lemma recommendations_loop_spec (limit : Z) (user_history : list AdvancedMemoryTools.StoredEntry) :
  forall count : nat,
  let n := Nat.min (length user_history)
                   (Nat.max 1 (Z.to_nat (limit - Z.of_nat count))) in
  map AdvancedMemoryTools.rec_timestamp
      (AdvancedMemoryTools.recommendations_loop limit count user_history)
  = map AdvancedMemoryTools.entry_timestamp (take n user_history).
Proof.
  induction user_history as [|h rest IH]; intros count; [done|].
  cbv zeta. cbn [AdvancedMemoryTools.recommendations_loop length].
  destruct (limit <=? Z.of_nat (S count)) eqn:Hstop.
  - apply Z.leb_le in Hstop.
    replace (Nat.min (S (length rest)) (Nat.max 1 (Z.to_nat (limit - Z.of_nat count))))
      with 1%nat by lia.
    done.
  - apply Z.leb_gt in Hstop.
    replace (Nat.min (S (length rest)) (Nat.max 1 (Z.to_nat (limit - Z.of_nat count))))
      with (S (Nat.min (length rest)
                       (Nat.max 1 (Z.to_nat (limit - Z.of_nat (S count)))))) by lia.
    cbn [take map AdvancedMemoryTools.rec_timestamp]. f_equal. apply IH.
Qed.

(** X23. [get_meal_recommendations] describes the newest entries of the
    user, newest first, out of the last 100: [limit] of them when the user
    has that many, and one all the same when the limit is 0 or negative,
    since the loop tests the limit after it has added a recommendation. *)
Theorem recommendations_count (file : option (list AdvancedMemoryTools.StoredEntry))
    (uid : string) (limit : Z) :
  let user_history := AdvancedMemoryTools.get_user_history file uid 100 in
  let recs := AdvancedMemoryTools.get_meal_recommendations file uid limit in
  let n := Nat.min (length user_history) (Z.to_nat (Z.max 1 limit)) in
  length recs = n
  /\ map AdvancedMemoryTools.rec_timestamp recs
     = map AdvancedMemoryTools.entry_timestamp (take n user_history)
  /\ (limit <= 0 -> user_history <> [] -> length recs = 1%nat).
Proof.
  cbv zeta. unfold AdvancedMemoryTools.get_meal_recommendations.
  set (uh := AdvancedMemoryTools.get_user_history file uid 100).
  pose proof (recommendations_loop_spec limit uh 0) as Hspec. cbv zeta in Hspec.
  replace (Nat.max 1 (Z.to_nat (limit - Z.of_nat 0))) with (Z.to_nat (Z.max 1 limit))
    in Hspec by lia.
  assert (length (AdvancedMemoryTools.recommendations_loop limit 0 uh)
          = Nat.min (length uh) (Z.to_nat (Z.max 1 limit))) as Hlen.
  { rewrite <- (length_map AdvancedMemoryTools.rec_timestamp), Hspec.
    rewrite length_map, length_take. lia. }
  split; [done|]. split; [done|].
  intros Hle Hne. rewrite Hlen. destruct uh; [done|]. cbn [length]. lia.
Qed.

(** X24. [delete_history_item] on a readable history removes the entries
    that have both the user and the time stamp, and no other: the entries
    kept stay in their order, the histories of the other users are what they
    were, the user's history shows no entry with that time stamp, and a
    second deletion changes nothing.  The answer is a success also when no
    entry matched.  A missing or unreadable file is left as it is and the
    answer is a failure. *)
Theorem deleted_entry_is_gone (data : list AdvancedMemoryTools.StoredEntry)
    (uid timestamp : string) :
  (exists data',
     App.delete_history_item (App.Holds data) uid timestamp
     = (App.Removed, App.Holds data')
     /\ (forall e, e ∈ data' <->
           e ∈ data /\ ~ (AdvancedMemoryTools.entry_user_id e = Some uid
                          /\ AdvancedMemoryTools.entry_timestamp e = Some timestamp))
     /\ data' `sublist_of` data
     /\ (forall other, other <> uid ->
           App.get_history (App.Holds data') other
           = App.get_history (App.Holds data) other)
     /\ Forall (fun e => AdvancedMemoryTools.entry_timestamp e <> Some timestamp)
               (App.get_history (App.Holds data') uid)
     /\ App.delete_history_item (App.Holds data') uid timestamp
        = (App.Removed, App.Holds data'))
  /\ App.delete_history_item App.Missing uid timestamp = (App.FileMissing, App.Missing)
  /\ App.delete_history_item App.Unreadable uid timestamp = (App.Failed, App.Unreadable).
Proof.
  split; [|done]. eexists. split; [reflexivity|].
  set (keep := fun item : AdvancedMemoryTools.StoredEntry =>
                 negb (bool_decide (AdvancedMemoryTools.entry_user_id item = Some uid)
                       && bool_decide (AdvancedMemoryTools.entry_timestamp item
                                       = Some timestamp))).
  assert (forall e, keep e = true <->
            ~ (AdvancedMemoryTools.entry_user_id e = Some uid
               /\ AdvancedMemoryTools.entry_timestamp e = Some timestamp)) as Hkeep.
  { intros e. unfold keep.
    rewrite negb_true_iff, <- not_true_iff_false, andb_true_iff,
      !bool_decide_eq_true. done. }
  split; [|split; [|split; [|split]]].
  - intros e. by rewrite !list_elem_of_In, filter_In, Hkeep.
  - clear Hkeep. induction data as [|e data IH]; [done|]. cbn [List.filter].
    destruct (keep e); [by apply sublist_skip | by apply sublist_cons].
  - intros other Hne. unfold App.get_history. f_equal.
    induction data as [|e data IH]; [done|]. cbn [List.filter].
    destruct (keep e) eqn:Hk; cbn [List.filter]; [by rewrite IH|].
    rewrite IH. apply not_true_iff_false in Hk. rewrite Hkeep in Hk.
    rewrite bool_decide_eq_false_2; [done|].
    intros Hu. apply Hk. intros [Ha _]. congruence.
  - apply Forall_forall. intros e He. unfold App.get_history in He.
    apply list_elem_of_In, in_rev, filter_In in He as [He Hu].
    apply filter_In in He as [_ Hk]. apply bool_decide_eq_true in Hu.
    apply Hkeep in Hk. tauto.
  - unfold App.delete_history_item. do 2 f_equal.
    induction data as [|e data IH]; [done|]. cbn [List.filter].
    destruct (keep e) eqn:Hk; [|done]. cbn [List.filter].
    unfold keep in Hk. cbv beta in Hk. by rewrite Hk, IH.
Qed.

(** X25. [MemoryBank.save_user_preferences] on a readable file: afterwards
    [get_user_preferences] gives the user the saved preferences with the
    time of the save under [last_updated], and the other users what they
    had.  On a file that cannot be read it answers [False] and writes
    nothing, where [AdvancedMemoryTools] starts a new file. *)
Theorem memory_bank_preferences
    (file : option (gmap string (gmap string pyval))) (uid : string)
    (preferences : gmap string pyval) (now : string) :
  (forall data, file = Some data ->
     exists file',
       MemoryBank.save_user_preferences file uid preferences now = (true, Some file')
       /\ MemoryBank.get_user_preferences (Some file') uid
          = <["last_updated" := PStr now]> preferences
       /\ (forall other, other <> uid ->
             MemoryBank.get_user_preferences (Some file') other
             = MemoryBank.get_user_preferences file other))
  /\ (file = None ->
      MemoryBank.save_user_preferences file uid preferences now = (false, None)
      /\ MemoryBank.get_user_preferences file uid = ∅
      /\ exists file',
           AdvancedMemoryTools.save_user_preferences file uid preferences now
           = (true, Some file')).
Proof.
  split.
  - intros data ->. eexists. split; [reflexivity|].
    unfold MemoryBank.get_user_preferences. split.
    + by rewrite lookup_insert_eq.
    + intros other Hne. by rewrite lookup_insert_ne.
  - intros ->. split; [done|]. split; [done|]. by eexists.
Qed.

(** * Instances of the hypotheses *)

Lemma filter_pool_idempotent_witness :
  valid_locs three_recipes [0; 1; 2]%nat
  /\ exists kept,
       filter_pool (keeps "vegetarian" ["milk"]) [0; 1; 2]%nat three_recipes
       = Ok (kept, three_recipes)
       /\ filter_pool (keeps "vegetarian" ["milk"]) kept three_recipes
          = Ok (kept, three_recipes).
Proof.
  assert (valid_locs three_recipes [0; 1; 2]%nat) as Hv
    by (repeat constructor; by eexists).
  split; [exact Hv|].
  apply (filter_pool_idempotent three_recipes "vegetarian" ["milk"] [0; 1; 2]%nat Hv).
Defined.

Lemma day_scores_in_range_witness :
  db_valid three_recipes one_each
  /\ exists dp st',
       _generate_daily_plan first_draw one_each 0 2000 None three_recipes
       = Ok (dp, st')
       /\ (0 <= nutrition_score dp /\ nutrition_score dp <= 10)%Q.
Proof.
  split; [exact three_recipes_valid|].
  destruct (day_scores_in_range first_draw one_each 0 2000 None three_recipes
              three_recipes_valid) as [dp [st' [E [Hn _]]]].
  by exists dp, st'.
Defined.

Lemma saved_plan_makes_names_old_witness :
  exists h',
    MemoryBank.save_meal_history (Some []) "u1" monday_only "2025-01-01T00:00:00"
    = (true, Some h')
    /\ (variety_score_of [masala_oats; cashew_shake; vegetable_khichdi]
          (_get_user_meal_history_scores (Some (map MemoryBank.names_view h')))
        == 0)%Q.
Proof.
  apply (saved_plan_makes_names_old [] "u1" "2025-01-01T00:00:00" monday_only
           masala_oats cashew_shake vegetable_khichdi).
  intros r Hr. apply list_elem_of_In in Hr. apply list_elem_of_In.
  cbn in Hr. destruct Hr as [<-|[<-|[<-|[]]]]; cbn; tauto.
Defined.

Lemma updated_session_is_merged_witness :
  AdvancedMemoryTools.get_session
    (AdvancedMemoryTools.update_session one_session "session_u1_1"
       {[ "step" := PStr "planning" ]} "2025-01-01T00:00:00")
    "session_u1_1" !! "last_activity"
  = Some (PStr "2025-01-01T00:00:00").
Proof.
  assert (AdvancedMemoryTools._safe_load one_session ∅ !! "session_u1_1"
          = Some {[ "user_id" := PStr "u1" ]}) as Hs
    by (cbn; apply lookup_singleton_eq).
  exact (proj1 (updated_session_is_merged one_session "session_u1_1"
                  {[ "step" := PStr "planning" ]} {[ "user_id" := PStr "u1" ]}
                  "2025-01-01T00:00:00" Hs)).
Defined.

(** * The reach of the normaliser *)

(** X26. Whatever the target and the plan's total, a run of
    [_optimize_with_ai] that returns creates and removes no recipe object,
    leaves every object that no day of the plan refers to as it was, and
    changes of the others neither the name, the ingredients, the preparation
    time nor the type; and it returns on every moderate plan. *)
Theorem normaliser_touches_only_plan_recipes (plan : WeeklyPlan)
    (prefs : Preferences) (st : State) :
  plan_valid st plan ->
  (forall plan' st',
     _optimize_with_ai plan prefs st = Ok (plan', st') ->
     length (store st') = length (store st)
     /\ (forall l, l ∉ plan_refs plan -> store st' !! l = store st !! l)
     /\ (forall l r, store st !! l = Some r ->
           exists r', store st' !! l = Some r' /\ name r' = name r
             /\ ingredients r' = ingredients r /\ prep_time r' = prep_time r
             /\ type r' = type r))
  /\ (moderate st plan prefs ->
      exists plan' st', _optimize_with_ai plan prefs st = Ok (plan', st')).
Proof.
  intros Hv. split; [|by apply optimize_returns].
  intros plan' st' E.
  destruct (normalisation_frame _ _ _ _ _ E) as (_ & Hlen & _ & _ & Hno & Hyes).
  split; [exact Hlen|].
  destruct (Z_lt_le_dec 0 (total_weekly plan)) as [Hpos|Hle].
  - destruct (Hyes Hpos) as [_ [Hkeep [Hout _]]].
    split; [exact Hout | exact Hkeep].
  - destruct (Hno Hle) as [_ ->]. split; [done|].
    intros l r Hl. by exists r.
Qed.

Lemma normaliser_touches_only_plan_recipes_witness :
  plan_valid three_recipes same_week
  /\ exists plan' st',
       _optimize_with_ai same_week (prefs_with_target 2000) three_recipes
       = Ok (plan', st')
       /\ length (store st') = length (store three_recipes).
Proof.
  split; [exact same_week_valid|].
  destruct (normaliser_touches_only_plan_recipes same_week (prefs_with_target 2000)
              three_recipes same_week_valid) as [Hframe Hret].
  destruct (Hret same_week_moderate) as [plan' [st' E]].
  exists plan', st'. split; [exact E|].
  destruct (Hframe plan' st' E) as [Hlen _]. exact Hlen.
Defined.

(** * The maintenance of the sessions *)


(** * A saved plan in the history routes *)

Lemma saved_history_shape (file : option (list AdvancedMemoryTools.StoredEntry))
    (uid : string) (plan : list (string * pyval))
    (feedback : option (gmap string pyval)) (now : string) :
  exists pre,
    AdvancedMemoryTools.save_meal_feedback file uid plan feedback now
    = (true,
       Some (pre ++ [AdvancedMemoryTools.mkStoredEntry (Some uid) (Some now)
                       (Some plan) (Some (default ∅ feedback))])%list)
    /\ ((length (default [] file) < 500)%nat -> pre = default [] file).
Proof.
  unfold AdvancedMemoryTools.save_meal_feedback, AdvancedMemoryTools._safe_load.
  set (entry := AdvancedMemoryTools.mkStoredEntry _ _ _ _).
  set (old := default [] file).
  destruct (500 <? length (old ++ [entry]))%nat eqn:Hbig.
  - apply Nat.ltb_lt in Hbig. rewrite length_app in Hbig. cbn [length] in Hbig.
    exists (drop (length (old ++ [entry]) - 500) old). split; [|lia].
    unfold last_n. rewrite drop_app_le; [done|].
    rewrite length_app. cbn [length]. lia.
  - by exists old.
Qed.

Lemma filter_snoc {A} (f : A -> bool) (l : list A) (x : A) :
  List.filter f (l ++ [x])%list
  = (List.filter f l ++ (if f x then [x] else []))%list.
Proof. rewrite List.filter_app. cbn [List.filter]. by destruct (f x). Qed.

Lemma filter_all {A} (f : A -> bool) (l : list A) :
  Forall (fun x => f x = true) l -> List.filter f l = l.
Proof.
  induction 1 as [|x l Hx _ IH]; [done|]. cbn [List.filter]. by rewrite Hx, IH.
Qed.

(** X28. The memory tools and the history routes of app.py work on one
    file.  After [save_meal_feedback], whatever the history file held, the
    history route serves the user the entry just saved first.  When the
    history had fewer than 500 entries and none of this user with the time
    stamp of the save, deleting by that time stamp gives the old history
    back: the saved entry is the only one removed. *)
Theorem saved_entry_served_then_deleted
    (file : option (list AdvancedMemoryTools.StoredEntry)) (uid : string)
    (plan : list (string * pyval)) (feedback : option (gmap string pyval))
    (now : string) :
  let entry :=
    AdvancedMemoryTools.mkStoredEntry (Some uid) (Some now) (Some plan)
      (Some (default ∅ feedback)) in
  let old := default [] file in
  exists history,
    AdvancedMemoryTools.save_meal_feedback file uid plan feedback now
    = (true, Some history)
    /\ head (App.get_history (App.Holds history) uid) = Some entry
    /\ head (AdvancedMemoryTools.get_user_history (Some history) uid 20) = Some entry
    /\ ((length old < 500)%nat ->
        Forall (fun e => ~ (AdvancedMemoryTools.entry_user_id e = Some uid
                            /\ AdvancedMemoryTools.entry_timestamp e = Some now)) old ->
        App.delete_history_item (App.Holds history) uid now
        = (App.Removed, App.Holds old)).
Proof.
  cbv zeta.
  destruct (saved_history_shape file uid plan feedback now) as [pre [E Hpre]].
  eexists. split; [exact E|].
  set (entry := AdvancedMemoryTools.mkStoredEntry _ _ _ _) in *.
  assert (forall l : list AdvancedMemoryTools.StoredEntry,
            rev (List.filter
                   (fun h => bool_decide (AdvancedMemoryTools.entry_user_id h = Some uid))
                   (l ++ [entry])%list)
            = entry :: rev (List.filter
                   (fun h => bool_decide (AdvancedMemoryTools.entry_user_id h = Some uid))
                   l)) as Hrev.
  { intros l. rewrite filter_snoc. cbn [AdvancedMemoryTools.entry_user_id entry].
    rewrite bool_decide_eq_true_2 by done. by rewrite rev_app_distr. }
  split; [|split].
  - unfold App.get_history. by rewrite Hrev.
  - unfold AdvancedMemoryTools.get_user_history, AdvancedMemoryTools._safe_load.
    cbn [default from_option id]. by rewrite Hrev.
  - intros Hlen Hnone. rewrite (Hpre Hlen). unfold App.delete_history_item.
    do 2 f_equal. rewrite filter_snoc.
    cbn [AdvancedMemoryTools.entry_user_id AdvancedMemoryTools.entry_timestamp entry].
    rewrite !bool_decide_eq_true_2 by done. cbn [andb negb].
    rewrite app_nil_r. apply filter_all.
    eapply Forall_impl; [exact Hnone|]. intros e He. cbv beta in He.
    apply negb_true_iff, andb_false_iff.
    destruct (decide (AdvancedMemoryTools.entry_user_id e = Some uid)) as [Hu|Hu].
    + right. apply bool_decide_eq_false_2. intros Ht. by apply He.
    + left. by apply bool_decide_eq_false_2.
Qed.
